(** * MedAssist record store: a shallow embedding of [database.py] and of the
    patient endpoints of [backend.py], with the properties of the
    patient/consultation data layer stated and proved over it.

    Modelling conventions.
    - Python values are the constructors of [value]. Binary floating point
      is not modelled: a float is carried as an exact rational ([Q]), which
      is faithful for storing, comparing and returning it and is not for
      arithmetic (rounding, underflow, overflow); no statement below is about
      the result of float arithmetic.
    - A mapped object (a row) is the dictionary of its column attributes,
      a [gmap string value]; an unset attribute reads as [VNone] (NULL).
    - Strings are byte strings (the UTF-8 encoding of a [str]); case folding
      is the ASCII one.
    - Engines differ, and the model fixes one reading: foreign keys are
      enforced according to the URL ([foreign_keys_enforced]); a value that
      does not fit the declared type of its column is refused (a server
      database does so, SQLite stores it); an integer is unbounded (the
      SQLite driver binds 64 bits and raises beyond); declared string
      lengths are not checked (SQLite does not, a server database does); a
      table is read in insertion order. A statement that depends on one of
      these says so in its hypotheses ([sqlite], [int64], [stores],
      [isascii]) or is stated up to the order of the rows.
    - [datetime.utcnow()] is an argument [now] of the operation that reads it.
    - A SQLAlchemy session is explicit state: the committed database, the
      view of the open transaction, the objects added or modified but not yet
      flushed, and the number of statements the connection still survives. *)

From Stdlib Require Import ZArith QArith Qabs String Ascii List Bool Lia.
From stdpp Require Import gmap strings list fin_maps pretty.
Import ListNotations.

(** ** Python values *)

Module Py.

Record datetime := mkdatetime {
  year : Z; month : Z; day : Z;
  hour : Z; minute : Z; second : Z; microsecond : Z }.

Inductive value :=
| VNone
| VBool (b : bool)
| VInt (z : Z)
| VFloat (q : Q)
| VStr (s : string)
| VDateTime (d : datetime).

Definition is_None (v : value) : bool :=
  match v with VNone => true | _ => false end.

(** [isinstance(v, str)] *)
Definition is_str (v : value) : bool :=
  match v with VStr _ => true | _ => false end.

(** Truth value of an object in a condition ([if v], [a and b]). *)
Definition truthy (v : value) : bool :=
  match v with
  | VNone => false
  | VBool b => b
  | VInt z => negb (z =? 0)%Z
  | VFloat q => negb (Qeq_bool q 0)
  | VStr s => negb (String.eqb s EmptyString)
  | VDateTime _ => true
  end.

(** Exceptions raised by the modelled code and its libraries. *)
Inductive exn :=
| TypeError
| ValueError
| StatementError
| IntegrityError
| OperationalError
| InvalidRequestError
| HTTPException (status_code : Z) (detail : string).

(** *** Calendar dates *)

Definition is_leap (y : Z) : bool :=
  ((y mod 4 =? 0) && (negb (y mod 100 =? 0) || (y mod 400 =? 0)))%Z.

Definition days_in_month (y m : Z) : Z :=
  if (m =? 2)%Z then (if is_leap y then 29 else 28)
  else if ((m =? 4) || (m =? 6) || (m =? 9) || (m =? 11))%Z then 30
  else 31.

(** The range check of the [datetime] constructor. *)
Definition valid_date (y m d : Z) : bool :=
  ((1 <=? y) && (y <=? 9999) && (1 <=? m) && (m <=? 12)
   && (1 <=? d) && (d <=? days_in_month y m))%Z.

(** *** [datetime.strptime(s, "%Y-%m-%d")]

    The format compiles to the regular expression
    [(\d\d\d\d)-(1[0-2]|0[1-9]|[1-9])-(3[0-1]|[1-2]\d|0[1-9]|[1-9]| [1-9])],
    matched at the start of the string with ordered alternatives; text
    left over after the match, or a date out of range, is a [ValueError]
    ([None] here).

    The function is modelled on ASCII text. On a [str] the class [\d] also
    matches the decimal digits of other scripts, a set that depends on the
    Unicode tables of the interpreter; text outside ASCII is therefore
    outside the model, and every statement that takes a rejection by
    [strptime] as a premise assumes [isascii]. A text the model accepts is
    ASCII and is parsed by the interpreter to the same date. *)

Definition cls := ascii -> bool.

Definition code (c : ascii) : Z := Z.of_N (N_of_ascii c).

Definition between (lo hi : ascii) : cls :=
  fun c => ((code lo <=? code c) && (code c <=? code hi))%Z.

Definition is_digit : cls := between "0" "9".

Fixpoint match_seq (cs : list cls) (s : list ascii)
  : option (list ascii * list ascii) :=
  match cs with
  | [] => Some ([], s)
  | p :: cs' =>
      match s with
      | [] => None
      | c :: s' =>
          if p c then
            match match_seq cs' s' with
            | Some (m, rest) => Some (c :: m, rest)
            | None => None
            end
          else None
      end
  end.

Definition re_Y : list cls := [is_digit; is_digit; is_digit; is_digit].

Definition re_m : list (list cls) :=
  [ [between "1" "1"; between "0" "2"];
    [between "0" "0"; between "1" "9"];
    [between "1" "9"] ].

Definition re_d : list (list cls) :=
  [ [between "3" "3"; between "0" "1"];
    [between "1" "2"; is_digit];
    [between "0" "0"; between "1" "9"];
    [between "1" "9"];
    [between " " " "; between "1" "9"] ].

(** First alternative, in order, for which the continuation succeeds. *)
Fixpoint first_alt {A} (alts : list (list cls)) (s : list ascii)
  (k : list ascii -> list ascii -> option A) : option A :=
  match alts with
  | [] => None
  | a :: alts' =>
      match match_seq a s with
      | Some (m, rest) =>
          match k m rest with
          | Some r => Some r
          | None => first_alt alts' s k
          end
      | None => first_alt alts' s k
      end
  end.

Definition expect (c : ascii) (s : list ascii) : option (list ascii) :=
  match s with
  | c' :: s' => if Ascii.eqb c c' then Some s' else None
  | [] => None
  end.

(** The groups [(Y, m, d)] of the match and the unconverted remainder. *)
Definition re_match (s : list ascii)
  : option (list ascii * list ascii * list ascii * list ascii) :=
  match match_seq re_Y s with
  | Some (y, r1) =>
      match expect "-" r1 with
      | Some r2 =>
          first_alt re_m r2 (fun m r3 =>
            match expect "-" r3 with
            | Some r4 =>
                first_alt re_d r4 (fun d rest => Some (y, m, d, rest))
            | None => None
            end)
      | None => None
      end
  | None => None
  end.

(** [int(text)] on a group of the match: digits, possibly after a blank. *)
Definition int_of (cs : list ascii) : Z :=
  fold_left (fun acc c => if is_digit c then (10 * acc + (code c - 48))%Z else acc)
            cs 0%Z.

Definition strptime (s : string) : option datetime :=
  match re_match (list_ascii_of_string s) with
  | Some (y, m, d, rest) =>
      match rest with
      | [] =>
          let y' := int_of y in
          let m' := int_of m in
          let d' := int_of d in
          if valid_date y' m' d' then Some (mkdatetime y' m' d' 0 0 0 0)
          else None
      | _ :: _ => None
      end
  | None => None
  end.

(** *** [round(x, 1)] : nearest multiple of 1/10, ties to even

    This is the rounding of the exact value. The interpreter rounds a
    binary float, whose value is rarely the decimal it was written as;
    see the conventions above. *)

Definition round_half_even (x : Q) : Z :=
  let n := Qnum x in
  let d := Zpos (Qden x) in
  let q := (n / d)%Z in
  let r := (n mod d)%Z in
  if (2 * r <? d)%Z then q
  else if (d <? 2 * r)%Z then (q + 1)%Z
  else if Z.even q then q else (q + 1)%Z.

Definition round1 (x : Q) : Q := Qmake (round_half_even (x * 10)) 10.

End Py.

Import Py.

(** ** The relational store *)

Module Store.

Abbreviation row := (gmap string value).

(** Reading an attribute of a mapped object: an unset column is [None]. *)
Definition getattr (r : row) (k : string) : value := default VNone (r !! k).

Inductive sqltype := Integer | String_ | Text | DateTime | Float | Boolean.

(** Which Python values a column of a given type accepts as a bound
    parameter; NULL is accepted here and refused by [nullable] below.
    This is the typing of a server database. SQLite is laxer (it stores a
    string in an [Integer] column and takes [0] and [1] for a [Boolean]),
    so a refusal by [binds] is not a refusal by every engine: the
    statements that need a row to be accepted assume [stores] of the values
    written, which every engine takes. *)
Definition binds (t : sqltype) (v : value) : bool :=
  match v, t with
  | VNone, _ => true
  | VInt _, Integer | VInt _, Float => true
  | VFloat _, Float => true
  | VStr _, String_ | VStr _, Text => true
  | VDateTime _, DateTime => true
  | VBool _, Boolean => true
  | _, _ => false
  end.

Inductive coldefault := NoDefault | UtcNow | Const (v : value).

Record column := Column {
  cname : string; ctype : sqltype; nullable : bool; cdefault : coldefault }.

Inductive table :=
  patients | consultations | symptoms | prescriptions | diagnostic_tests.

(** The [Column] declarations of the five model classes, in source order.
    [id] is the autoincrement primary key of every table. *)
Definition columns (t : table) : list column :=
  match t with
  | patients =>
      [ Column "id" Integer false NoDefault;
        Column "first_name" String_ false NoDefault;
        Column "last_name" String_ false NoDefault;
        Column "email" String_ true NoDefault;
        Column "phone" String_ true NoDefault;
        Column "date_of_birth" DateTime true NoDefault;
        Column "age" Integer true NoDefault;
        Column "gender" String_ true NoDefault;
        Column "weight" Float true NoDefault;
        Column "height" Float true NoDefault;
        Column "blood_type" String_ true NoDefault;
        Column "medical_history" Text true NoDefault;
        Column "current_medications" Text true NoDefault;
        Column "allergies" Text true NoDefault;
        Column "family_history" Text true NoDefault;
        Column "smoking_status" String_ true NoDefault;
        Column "alcohol_use" String_ true NoDefault;
        Column "created_at" DateTime true UtcNow;
        Column "updated_at" DateTime true UtcNow;
        Column "is_active" Boolean true (Const (VBool true)) ]
  | consultations =>
      [ Column "id" Integer false NoDefault;
        Column "patient_id" Integer false NoDefault;
        Column "consultation_date" DateTime true UtcNow;
        Column "chief_complaint" Text true NoDefault;
        Column "duration_of_symptoms" String_ true NoDefault;
        Column "severity" String_ true NoDefault;
        Column "additional_notes" Text true NoDefault;
        Column "ai_diagnosis" Text true NoDefault;
        Column "differential_diagnoses" Text true NoDefault;
        Column "urgency_level" String_ true NoDefault;
        Column "model_used" String_ true NoDefault;
        Column "model_provider" String_ true NoDefault;
        Column "web_search_enabled" Boolean true (Const (VBool false));
        Column "created_at" DateTime true UtcNow ]
  | symptoms =>
      [ Column "id" Integer false NoDefault;
        Column "consultation_id" Integer false NoDefault;
        Column "symptom_name" String_ false NoDefault;
        Column "category" String_ true NoDefault;
        Column "severity" String_ true NoDefault;
        Column "onset_date" DateTime true NoDefault;
        Column "description" Text true NoDefault;
        Column "created_at" DateTime true UtcNow ]
  | prescriptions =>
      [ Column "id" Integer false NoDefault;
        Column "consultation_id" Integer false NoDefault;
        Column "medication_name" String_ false NoDefault;
        Column "medication_type" String_ true NoDefault;
        Column "dosage" String_ true NoDefault;
        Column "frequency" String_ true NoDefault;
        Column "duration" String_ true NoDefault;
        Column "purpose" Text true NoDefault;
        Column "instructions" Text true NoDefault;
        Column "warnings" Text true NoDefault;
        Column "is_otc" Boolean true (Const (VBool false));
        Column "created_at" DateTime true UtcNow ]
  | diagnostic_tests =>
      [ Column "id" Integer false NoDefault;
        Column "consultation_id" Integer false NoDefault;
        Column "test_name" String_ false NoDefault;
        Column "test_type" String_ true NoDefault;
        Column "priority" String_ true NoDefault;
        Column "reason" Text true NoDefault;
        Column "created_at" DateTime true UtcNow ]
  end.

(** [ForeignKey(...)] of a table: the referencing column and its parent. *)
Definition foreign_key (t : table) : option (string * table) :=
  match t with
  | patients => None
  | consultations => Some ("patient_id", patients)
  | symptoms | prescriptions | diagnostic_tests =>
      Some ("consultation_id", consultations)
  end.

(** Columns declared [unique=True] (besides the primary key). *)
Definition unique_columns (t : table) : list string :=
  match t with
  | patients => ["email"]
  | _ => []
  end.

Definition is_column (t : table) (k : string) : bool :=
  existsb (fun c => String.eqb k (cname c)) (columns t).

(** The database: its URL and the rows of each table in insertion order. *)
Record DB := mkDB {
  database_url : string;
  t_patients : list row;
  t_consultations : list row;
  t_symptoms : list row;
  t_prescriptions : list row;
  t_diagnostic_tests : list row }.

Definition rows (db : DB) (t : table) : list row :=
  match t with
  | patients => t_patients db
  | consultations => t_consultations db
  | symptoms => t_symptoms db
  | prescriptions => t_prescriptions db
  | diagnostic_tests => t_diagnostic_tests db
  end.

Definition set_rows (db : DB) (t : table) (l : list row) : DB :=
  match t with
  | patients =>
      mkDB (database_url db) l (t_consultations db) (t_symptoms db)
           (t_prescriptions db) (t_diagnostic_tests db)
  | consultations =>
      mkDB (database_url db) (t_patients db) l (t_symptoms db)
           (t_prescriptions db) (t_diagnostic_tests db)
  | symptoms =>
      mkDB (database_url db) (t_patients db) (t_consultations db) l
           (t_prescriptions db) (t_diagnostic_tests db)
  | prescriptions =>
      mkDB (database_url db) (t_patients db) (t_consultations db)
           (t_symptoms db) l (t_diagnostic_tests db)
  | diagnostic_tests =>
      mkDB (database_url db) (t_patients db) (t_consultations db)
           (t_symptoms db) (t_prescriptions db) l
  end.

(** *** Engine configuration (module level of [database.py]) *)

Definition default_DATABASE_URL : string := "sqlite:///./medassist.db".

Fixpoint startswith (p s : list ascii) : bool :=
  match p, s with
  | [], _ => true
  | _ :: _, [] => false
  | a :: p', b :: s' => Ascii.eqb a b && startswith p' s'
  end.

(** [p in s] on strings. *)
Fixpoint contains (p s : list ascii) : bool :=
  startswith p s || match s with [] => false | _ :: s' => contains p s' end.

Definition url_startswith (p url : string) : bool :=
  startswith (list_ascii_of_string p) (list_ascii_of_string url).

Definition url_contains (p url : string) : bool :=
  contains (list_ascii_of_string p) (list_ascii_of_string url).

(** [connect_args]: the only option ever passed to the driver. *)
Definition connect_args (url : string) : list (string * value) :=
  if url_startswith "sqlite" url then [("check_same_thread", VBool false)]
  else [].

Definition pool_recycle (url : string) : Z :=
  if url_contains "mysql" url || url_contains "postgresql" url
  then 3600 else (-1).

(** Whether the connections of the engine enforce the declared foreign
    keys. A SQLite connection does so only after [PRAGMA foreign_keys=ON],
    which neither [connect_args] nor any other place of the module issues;
    the server databases always do. *)
Definition foreign_keys_enforced (url : string) : bool :=
  negb (url_startswith "sqlite" url).

(** *** Comparison in a [filter] clause: NULL compares equal to nothing *)

Definition sql_eq (a b : value) : bool :=
  match a, b with
  | VInt x, VInt y => (x =? y)%Z
  | VStr x, VStr y => String.eqb x y
  | VBool x, VBool y => Bool.eqb x y
  | _, _ => false
  end.

Definition pk (r : row) : value := getattr r "id".

Definition has_pk (key : value) (r : row) : bool := sql_eq (pk r) key.

(** *** Constraints checked by the database when a row is written *)

Definition well_typed (t : table) (r : row) : bool :=
  forallb (fun c => binds (ctype c) (getattr r (cname c))) (columns t)
  && forallb (fun kv => is_column t (fst kv)) (map_to_list r).

Definition not_null_ok (t : table) (r : row) : bool :=
  forallb (fun c => nullable c || negb (is_None (getattr r (cname c))))
          (columns t).

Definition unique_ok (t : table) (others : list row) (r : row) : bool :=
  forallb (fun k =>
             is_None (getattr r k)
             || negb (existsb (fun o => sql_eq (getattr o k) (getattr r k)) others))
          ("id" :: unique_columns t).

Definition parent_ok (db : DB) (t : table) (r : row) : bool :=
  match foreign_key t with
  | Some (k, parent) =>
      negb (foreign_keys_enforced (database_url db))
      || existsb (has_pk (getattr r k)) (rows db parent)
  | None => true
  end.

(** [others] are the rows of the table the written row must not clash with. *)
Definition row_ok (db : DB) (t : table) (others : list row) (r : row) : bool :=
  well_typed t r && not_null_ok t r && unique_ok t others r && parent_ok db t r.

(** Tables whose foreign key points to [t]. *)
Definition children_of (t : table) : list (table * string) :=
  match t with
  | patients => [(consultations, "patient_id")]
  | consultations =>
      [(symptoms, "consultation_id"); (prescriptions, "consultation_id");
       (diagnostic_tests, "consultation_id")]
  | _ => []
  end.

(** Changing a primary key that child rows reference is refused when
    foreign keys are enforced (no [ON UPDATE] action is declared). *)
Definition rekey_ok (db : DB) (t : table) (old new : value) : bool :=
  sql_eq old new
  || negb (foreign_keys_enforced (database_url db))
  || forallb (fun ck =>
                negb (existsb (fun c => sql_eq (getattr c (snd ck)) old)
                              (rows db (fst ck))))
             (children_of t).

(** *** INSERT and UPDATE *)

Definition id_of (r : row) : Z :=
  match pk r with VInt z => z | _ => 0%Z end.

(** The key an autoincrement column hands out: above every key in use. *)
Definition next_id (l : list row) : Z :=
  (1 + fold_right Z.max 0 (map id_of l))%Z.

Definition assign_id (l : list row) (r : row) : row :=
  if is_None (pk r) then <["id" := VInt (next_id l)]> r else r.

(** Column defaults fire for the columns the object leaves unset. *)
Definition apply_defaults (now : datetime) (t : table) (r : row) : row :=
  fold_left
    (fun acc c =>
       if is_None (getattr acc (cname c)) then
         match cdefault c with
         | NoDefault => acc
         | UtcNow => <[cname c := VDateTime now]> acc
         | Const v => <[cname c := v]> acc
         end
       else acc)
    (columns t) r.

(** What the database answers to a refused row: a value that cannot be
    bound to its column, or a violated constraint. *)
Definition refusal (t : table) (r : row) : exn :=
  if well_typed t r then IntegrityError else StatementError.

Definition insert_row (now : datetime) (db : DB) (t : table) (r : row)
  : exn + (row * DB) :=
  let r' := apply_defaults now t (assign_id (rows db t) r) in
  if row_ok db t (rows db t) r'
  then inr (r', set_rows db t (rows db t ++ [r']))
  else inl (refusal t r').

(** [UPDATE t SET ... WHERE id = key], the new contents being [r]. *)
Definition update_row (db : DB) (t : table) (key : value) (r : row)
  : exn + DB :=
  let others := List.filter (fun o => negb (has_pk key o)) (rows db t) in
  if row_ok db t others r && rekey_ok db t key (pk r)
  then inr (set_rows db t
              (map (fun o => if has_pk key o then r else o) (rows db t)))
  else inl (refusal t r).

End Store.

Import Store.

(** ** Sessions: the unit of work *)

Module Session.

(** Work registered with the session and not yet flushed: a new object
    ([db.add]) or a loaded object whose attributes were assigned. *)
Inductive pending :=
| New (t : table) (r : row)
| Dirty (t : table) (key : value) (r : row).

Record session := mkSession {
  committed : DB;               (* what every other connection sees *)
  working : DB;                 (* the view of the open transaction *)
  unflushed : list pending;
  survives : option nat         (* statements until the connection fails *)
}.

Inductive result (A : Type) :=
| Ok (a : A)
| Raise (e : exn).
Arguments Ok {A} a.
Arguments Raise {A} e.

Definition M (A : Type) : Type := session -> result A * session.

Definition ret {A} (a : A) : M A := fun s => (Ok a, s).

Definition raise {A} (e : exn) : M A := fun s => (Raise e, s).

Definition bind {A B} (m : M A) (k : A -> M B) : M B :=
  fun s =>
    match m s with
    | (Ok a, s') => k a s'
    | (Raise e, s') => (Raise e, s')
    end.

(** [try: m  except Exception as e: h e] *)
Definition try_except {A} (m : M A) (h : exn -> M A) : M A :=
  fun s =>
    match m s with
    | (Ok a, s') => (Ok a, s')
    | (Raise e, s') => h e s'
    end.

Notation "'let!' x ':=' m 'in' k" := (bind m (fun x => k))
  (at level 10, x name, m at level 100, k at level 200).

(** A session bound to the engine ([autocommit=False, autoflush=False])
    whose connection lasts [lifetime] statements ([None]: it never fails). *)
Definition connect (lifetime : option nat) (db : DB) : session :=
  mkSession db db [] lifetime.

(** [SessionLocal()] on a healthy connection. *)
Definition SessionLocal (db : DB) : session := connect None db.

(** ROLLBACK: the transaction's writes and the pending work are discarded. *)
Definition rollback (s : session) : session :=
  mkSession (committed s) (committed s) [] (survives s).

(** [db.close()] *)
Definition close : M unit := fun s => (Ok tt, rollback s).

(** One round trip to the database. When the connection is lost the open
    transaction is rolled back by the server. *)
Definition execute : M unit :=
  fun s =>
    match survives s with
    | None => (Ok tt, s)
    | Some (S n) =>
        (Ok tt, mkSession (committed s) (working s) (unflushed s) (Some n))
    | Some O => (Raise OperationalError, rollback s)
    end.

(** [db.add(obj)] *)
Definition add (t : table) (r : row) : M unit :=
  fun s =>
    (Ok tt, mkSession (committed s) (working s)
                      (unflushed s ++ [New t r]) (survives s)).

(** Assigning attributes of an object loaded from [t] under key [key]:
    the session records its new contents [r] for the next flush. *)
Definition set_attributes (t : table) (key : value) (r : row) : M unit :=
  fun s =>
    (Ok tt, mkSession (committed s) (working s)
                      (unflushed s ++ [Dirty t key r]) (survives s)).

Definition write (now : datetime) (p : pending) (db : DB) : exn + (row * DB) :=
  match p with
  | New t r => insert_row now db t r
  | Dirty t key r =>
      match update_row db t key r with
      | inr db' => inr (r, db')
      | inl e => inl e
      end
  end.

(** The statements of a flush, in the order the work was registered. A
    refused statement rolls the transaction back and raises. The rows as
    persisted (keys and defaults filled in) are returned. *)
Fixpoint flush_items (now : datetime) (ps : list pending) : M (list row) :=
  match ps with
  | [] => ret []
  | p :: ps' =>
      let! _ := execute in
      let! r := (fun s =>
                   match write now p (working s) with
                   | inr (r, db') =>
                       (Ok r, mkSession (committed s) db' (unflushed s) (survives s))
                   | inl e => (Raise e, rollback s)
                   end) in
      let! rs := flush_items now ps' in
      ret (r :: rs)
  end.

(** [db.flush()] *)
Definition flush (now : datetime) : M (list row) :=
  fun s =>
    flush_items now (unflushed s)
      (mkSession (committed s) (working s) [] (survives s)).

(** [db.commit()]: flush, then COMMIT. Returns the rows flushed by it. *)
Definition commit (now : datetime) : M (list row) :=
  let! rs := flush now in
  let! _ := execute in
  let! _ := (fun s =>
               (Ok tt, mkSession (working s) (working s) (unflushed s) (survives s))) in
  ret rs.

(** [db.query(T)]: the rows of the table as the transaction sees them
    (no autoflush). *)
Definition query (t : table) : M (list row) :=
  let! _ := execute in
  fun s => (Ok (rows (working s) t), s).

(** [db.refresh(obj)]: reload the row by primary key. *)
Definition refresh (t : table) (r : row) : M row :=
  let! rs := query t in
  match find (has_pk (pk r)) rs with
  | Some r' => ret r'
  | None => raise InvalidRequestError
  end.

(** The constructor of a mapped class, called with keyword arguments,
    refuses a keyword that is not an attribute of the class. It sets the
    others; a relationship takes a collection only, which no [value] is, so
    the keywords that pass are the columns. (Keywords that name a method or
    an inherited attribute of the class are outside the model.) *)
Definition construct (t : table) (kwargs : row) : M row :=
  if forallb (fun kv => is_column t (fst kv)) (map_to_list kwargs)
  then ret kwargs
  else raise TypeError.

(** [get_db]: a request runs in a session of its own, closed on every
    exit path; what remains is the committed database. *)
Definition get_db_on {A} (lifetime : option nat) (handler : M A) (db : DB)
  : result A * DB :=
  match handler (connect lifetime db) with
  | (r, s) => (r, committed (snd (close s)))
  end.

Definition get_db {A} (handler : M A) (db : DB) : result A * DB :=
  get_db_on None handler db.

Fixpoint mapM {A B} (f : A -> M B) (l : list A) : M (list B) :=
  match l with
  | [] => ret []
  | a :: l' =>
      let! b := f a in
      let! bs := mapM f l' in
      ret (b :: bs)
  end.

End Session.

Import Session.

(** ** Methods of the model classes *)

(** The number held by a [Float] or [Integer] column. *)
Definition number (v : value) : option Q :=
  match v with
  | VFloat q => Some q
  | VInt z => Some (inject_Z z)
  | _ => None
  end.

(** [_bmi_category] *)
Definition _bmi_category (bmi : Q) : string :=
  if negb (Qle_bool (185 # 10) bmi) then "Underweight"
  else if negb (Qle_bool 25 bmi) then "Normal"
  else if negb (Qle_bool 30 bmi) then "Overweight"
  else "Obese".

(** Fixed-width decimal, as [%Y], [%m], [%d] and [isoformat] print. *)
Fixpoint zfill (width : nat) (z : Z) : string :=
  match width with
  | O => EmptyString
  | S w => zfill w (z / 10) +:+ String (ascii_of_N (Z.to_N (48 + z mod 10))) EmptyString
  end.

(** [d.strftime("%Y-%m-%d")] *)
Definition strftime (d : datetime) : string :=
  zfill 4 (year d) +:+ "-" +:+ zfill 2 (month d) +:+ "-" +:+ zfill 2 (day d).

(** [d.isoformat()] *)
Definition isoformat (d : datetime) : string :=
  strftime d +:+ "T" +:+ zfill 2 (hour d) +:+ ":" +:+ zfill 2 (minute d)
  +:+ ":" +:+ zfill 2 (second d)
  +:+ (if (microsecond d =? 0)%Z then EmptyString
       else "." +:+ zfill 6 (microsecond d)).

Module Patient.

(** [Patient._calculate_bmi]: a number rounded to one decimal, or [None].
    The arithmetic is the exact one: the underflow of [(height / 100) ** 2]
    to zero for a height below about 1.6e-160 (a [ZeroDivisionError] in the
    interpreter), overflow and the rounding of binary floats are not
    modelled, and nothing is stated about the number computed here. *)
Definition _calculate_bmi (self : row) : value :=
  let weight := getattr self "weight" in
  let height := getattr self "height" in
  match number weight, number height with
  | Some w, Some h =>
      if truthy weight && truthy height && negb (Qle_bool h 0)
      then VFloat (round1 (w / ((h / 100) ^ 2)))
      else VNone
  | _, _ => VNone
  end.

(** [(a1, a2) < (b1, b2)] *)
Definition pair_ltb (a1 a2 b1 b2 : Z) : bool :=
  ((a1 <? b1) || ((a1 =? b1) && (a2 <? b2)))%Z.

(** [Patient._get_age_from_dob], [today] being [date.today()]. *)
Definition _get_age_from_dob (today : datetime) (self : row) : value :=
  match getattr self "date_of_birth" with
  | VDateTime dob =>
      VInt (year today - year dob
            - (if pair_ltb (month today) (day today) (month dob) (day dob)
               then 1 else 0))
  | _ => getattr self "age"
  end.

Definition iso (v : value) : value :=
  match v with VDateTime d => VStr (isoformat d) | _ => VNone end.

(** [Patient.to_dict]; [consultations] is the loaded relationship. *)
Definition to_dict (today : datetime) (self : row) (consultations : list row)
  : gmap string value :=
  let bmi := _calculate_bmi self in
  let age := _get_age_from_dob today self in
  list_to_map
    [ ("id", getattr self "id");
      ("first_name", getattr self "first_name");
      ("last_name", getattr self "last_name");
      ("full_name",
        match getattr self "first_name", getattr self "last_name" with
        | VStr f, VStr l => VStr (f +:+ " " +:+ l)
        | _, _ => VNone
        end);
      ("email", getattr self "email");
      ("phone", getattr self "phone");
      ("date_of_birth",
        match getattr self "date_of_birth" with
        | VDateTime d => VStr (strftime d)
        | _ => VNone
        end);
      ("age", age);
      ("gender", getattr self "gender");
      ("weight", getattr self "weight");
      ("height", getattr self "height");
      ("bmi", bmi);
      ("bmi_category",
        match bmi with
        | VFloat b => if truthy bmi then VStr (_bmi_category b) else VNone
        | _ => VNone
        end);
      ("blood_type", getattr self "blood_type");
      ("medical_history", getattr self "medical_history");
      ("current_medications", getattr self "current_medications");
      ("allergies", getattr self "allergies");
      ("family_history", getattr self "family_history");
      ("smoking_status", getattr self "smoking_status");
      ("alcohol_use", getattr self "alcohol_use");
      ("created_at", iso (getattr self "created_at"));
      ("updated_at", iso (getattr self "updated_at"));
      ("is_active", getattr self "is_active");
      ("total_consultations", VInt (Z.of_nat (length consultations))) ].

End Patient.

(** ** Query helpers *)

(** ASCII lower case. *)
Definition lower (c : ascii) : ascii :=
  if between "A" "Z" c then ascii_of_N (N_of_ascii c + 32) else c.

(** [text LIKE pattern]: [%] stands for any run of characters, [_] for any
    single one; no escape character is declared. This is LIKE as SQLite
    evaluates it on text without NUL characters; PostgreSQL and MySQL take
    the backslash as escape character by default. *)
Fixpoint like (p s : list ascii) : bool :=
  match p with
  | [] => match s with [] => true | _ :: _ => false end
  | c :: p' =>
      if Ascii.eqb c "%" then
        (fix any (s : list ascii) : bool :=
           like p' s || match s with [] => false | _ :: s' => any s' end) s
      else
        match s with
        | [] => false
        | d :: s' => (Ascii.eqb c "_" || Ascii.eqb c d) && like p' s'
        end
  end.

(** [column.ilike(pattern)]: both sides lower-cased; NULL matches nothing. *)
Definition ilike (v : value) (pattern : string) : bool :=
  match v with
  | VStr s =>
      like (map lower (list_ascii_of_string pattern))
           (map lower (list_ascii_of_string s))
  | _ => false
  end.

Definition datetime_leb (a b : datetime) : bool :=
  let ka := [year a; month a; day a; hour a; minute a; second a; microsecond a] in
  let kb := [year b; month b; day b; hour b; minute b; second b; microsecond b] in
  (fix lex (x y : list Z) : bool :=
     match x, y with
     | u :: x', v :: y' => (u <? v)%Z || ((u =? v)%Z && lex x' y')
     | _, _ => true
     end) ka kb.

(** Order of two sort keys; NULL sorts below every date. *)
Definition key_leb (a b : value) : bool :=
  match a, b with
  | VDateTime x, VDateTime y => datetime_leb x y
  | VDateTime _, _ => false
  | _, _ => true
  end.

Fixpoint insert_desc (k : string) (r : row) (l : list row) : list row :=
  match l with
  | [] => [r]
  | x :: l' =>
      if key_leb (getattr x k) (getattr r k) then r :: l
      else x :: insert_desc k r l'
  end.

(** [.order_by(column.desc())]; rows with equal keys keep their order. *)
Definition order_by_desc (k : string) (l : list row) : list row :=
  fold_right (insert_desc k) [] l.

(** [.offset(n)] and [.limit(n)] *)
Definition offset (n : Z) (l : list row) : list row := skipn (Z.to_nat n) l.
Definition limit (n : Z) (l : list row) : list row := firstn (Z.to_nat n) l.

(** ** CRUD operations *)

Abbreviation kwargs := (gmap string value).

(** The handling of a [date_of_birth] keyword shared by create and update:
    a string is parsed; one that does not parse is dropped. *)
Definition parse_date_of_birth (kw : kwargs) : kwargs :=
  match kw !! "date_of_birth" with
  | Some (VStr s) =>
      match strptime s with
      | Some d => <["date_of_birth" := VDateTime d]> kw
      | None => delete "date_of_birth" kw
      end
  | _ => kw
  end.

Definition first_row (l : list row) : option row := head l.

Module PatientCRUD.

Definition create (now : datetime) (kw : kwargs) : M row :=
  let kw := parse_date_of_birth kw in
  let! patient := construct patients kw in
  let! _ := add patients patient in
  let! flushed := commit now in
  match flushed with
  | patient :: _ => refresh patients patient
  | [] => raise InvalidRequestError
  end.

Definition active (r : row) : bool := sql_eq (getattr r "is_active") (VBool true).

Definition get_by_id (patient_id : Z) : M (option row) :=
  let! rs := query patients in
  ret (first_row (List.filter (fun r => has_pk (VInt patient_id) r && active r) rs)).

Definition get_by_email (email : string) : M (option row) :=
  let! rs := query patients in
  ret (first_row (List.filter (fun r => sql_eq (getattr r "email") (VStr email)) rs)).

Definition get_all (skip lim : Z) : M (list row) :=
  let! rs := query patients in
  ret (limit lim (offset skip (order_by_desc "created_at" (List.filter active rs)))).

Definition matches (q : string) (r : row) : bool :=
  ilike (getattr r "first_name") q || ilike (getattr r "last_name") q
  || ilike (getattr r "email") q || ilike (getattr r "phone") q.

(** The rows come in the order of the table; an engine is free to return
    them in another one, so the result is meant up to order. *)
Definition search (query_text : string) : M (list row) :=
  let q := "%" +:+ query_text +:+ "%" in
  let! rs := query patients in
  ret (List.filter (matches q) (List.filter active rs)).

(** The attributes the body of class [Patient] declares besides the
    columns: the relationship, and the table name and the methods. *)
Definition relationships : list string := ["consultations"].

Definition class_attributes : list string :=
  ["__tablename__"; "__repr__"; "_calculate_bmi"; "_get_age_from_dob"; "to_dict"].

(** [hasattr(patient, key)]. The attributes a mapped class inherits from
    the declarative base and from [object] are outside the model. *)
Definition hasattr (key : string) : bool :=
  is_column patients key
  || existsb (String.eqb key) relationships
  || existsb (String.eqb key) class_attributes.

(** [setattr(patient, key, value)] for an attribute of the patient. A
    column takes the value. The relationship takes a collection only, which
    no [value] is, and raises [TypeError] otherwise. Any other name becomes
    an attribute of the instance, which the row does not carry. *)
Definition setattr (patient : row) (key : string) (v : value) : exn + row :=
  if is_column patients key then inr (<[key := v]> patient)
  else if existsb (String.eqb key) relationships then inl TypeError
  else inr patient.

(** The loop [for key, value in kwargs.items()] of [update]. *)
Definition assign (patient : row) (kw : kwargs) : exn + row :=
  map_fold
    (fun key v acc =>
       match acc with
       | inr p => if hasattr key && negb (is_None v) then setattr p key v else inr p
       | inl e => inl e
       end)
    (inr patient) kw.

(** The patient id is taken as it comes; the SQLite driver raises
    [OverflowError] for one outside the 64-bit range ([int64]), which the
    statements about ids the table does not carry assume. *)
Definition update (now : datetime) (patient_id : Z) (kw : kwargs)
  : M (option row) :=
  let kw := parse_date_of_birth kw in
  let! rs := query patients in
  match first_row (List.filter (has_pk (VInt patient_id)) rs) with
  | Some patient =>
      match assign patient kw with
      | inr assigned =>
          let patient' := <["updated_at" := VDateTime now]> assigned in
          let! _ := set_attributes patients (pk patient) patient' in
          let! _ := commit now in
          let! p := refresh patients patient' in
          ret (Some p)
      | inl e => raise e
      end
  | None => ret None
  end.

(** Soft delete: marks inactive, never destroys data. The patient id is
    taken as it comes, as in [update]. *)
Definition delete (now : datetime) (patient_id : Z) : M bool :=
  let! rs := query patients in
  match first_row (List.filter (has_pk (VInt patient_id)) rs) with
  | Some patient =>
      let patient' :=
        <["updated_at" := VDateTime now]> (<["is_active" := VBool false]> patient) in
      let! _ := set_attributes patients (pk patient) patient' in
      let! _ := commit now in
      ret true
  | None => ret false
  end.

Definition count : M Z :=
  let! rs := query patients in
  ret (Z.of_nat (length (List.filter active rs))).

End PatientCRUD.

Module ConsultationCRUD.

(** Create consultation + symptom rows in a single transaction. *)
Definition create (now : datetime) (patient_id : Z) (symptom_names : list string)
  (kw : kwargs) : M row :=
  let! consultation :=
    (if decide (is_Some (kw !! "patient_id")) then raise TypeError
     else construct consultations (<["patient_id" := VInt patient_id]> kw)) in
  let! _ := add consultations consultation in
  let! flushed := flush now in
  match flushed with
  | consultation :: _ =>
      let! _ :=
        fold_left
          (fun acc symptom_name =>
             let! _ := acc in
             add symptoms
               (<["consultation_id" := pk consultation]>
                  (<["symptom_name" := VStr symptom_name]>
                     (<["severity" := getattr kw "severity"]> ∅))))
          symptom_names (ret tt) in
      let! _ := commit now in
      refresh consultations consultation
  | [] => raise InvalidRequestError
  end.

Definition get_by_id (consultation_id : Z) : M (option row) :=
  let! rs := query consultations in
  ret (first_row (List.filter (has_pk (VInt consultation_id)) rs)).

Definition of_patient (patient_id : Z) (r : row) : bool :=
  sql_eq (getattr r "patient_id") (VInt patient_id).

Definition get_by_patient (patient_id skip lim : Z) : M (list row) :=
  let! rs := query consultations in
  ret (limit lim (offset skip
         (order_by_desc "consultation_date" (List.filter (of_patient patient_id) rs)))).

Definition get_recent (lim : Z) : M (list row) :=
  let! rs := query consultations in
  ret (limit lim (order_by_desc "consultation_date" rs)).

Definition count_by_patient (patient_id : Z) : M Z :=
  let! rs := query consultations in
  ret (Z.of_nat (length (List.filter (of_patient patient_id) rs))).

Definition add_child (now : datetime) (t : table) (consultation_id : Z)
  (kw : kwargs) : M row :=
  let! obj :=
    (if decide (is_Some (kw !! "consultation_id")) then raise TypeError
     else construct t (<["consultation_id" := VInt consultation_id]> kw)) in
  let! _ := add t obj in
  let! flushed := commit now in
  match flushed with
  | obj :: _ => refresh t obj
  | [] => raise InvalidRequestError
  end.

Definition add_prescription (now : datetime) (consultation_id : Z) (kw : kwargs)
  : M row := add_child now prescriptions consultation_id kw.

Definition add_diagnostic_test (now : datetime) (consultation_id : Z) (kw : kwargs)
  : M row := add_child now diagnostic_tests consultation_id kw.

Definition count : M Z :=
  let! rs := query consultations in
  ret (Z.of_nat (length rs)).

End ConsultationCRUD.

(** ** The patient endpoints of [backend.py] *)

(** [model_dump(exclude_none=True)] adds a field only when it is set. *)
Definition put (k : string) (o : option value) (m : kwargs) : kwargs :=
  match o with
  | Some v => <[k := v]> m
  | None => m
  end.

Definition in_range (lo hi : Q) (o : option Q) : bool :=
  match o with
  | Some q => Qle_bool lo q && Qle_bool q hi
  | None => true
  end.

(** The [field_validator] of [date_of_birth], the same in both schemas. *)
Definition validate_dob (v : option string) : bool :=
  match v with
  | Some s => match strptime s with Some _ => true | None => false end
  | None => true
  end.

Module PatientCreate.

Record t := mk {
  first_name : string;
  last_name : string;
  email : option string;
  phone : option string;
  date_of_birth : option string;
  age : option Z;
  gender : option string;
  weight : option Q;
  height : option Q;
  blood_type : option string;
  medical_history : option string;
  current_medications : option string;
  allergies : option string;
  family_history : option string;
  smoking_status : option string;
  alcohol_use : option string }.

Definition valid (d : t) : bool :=
  (1 <=? String.length (first_name d))%nat
  && (1 <=? String.length (last_name d))%nat
  && validate_dob (date_of_birth d)
  && in_range 0 150 (inject_Z <$> age d)
  && in_range 0 600 (weight d)
  && in_range 0 300 (height d).

Definition model_dump (d : t) : kwargs :=
  put "first_name" (Some (VStr (first_name d)))
  (put "last_name" (Some (VStr (last_name d)))
  (put "email" (VStr <$> email d)
  (put "phone" (VStr <$> phone d)
  (put "date_of_birth" (VStr <$> date_of_birth d)
  (put "age" (VInt <$> age d)
  (put "gender" (VStr <$> gender d)
  (put "weight" (VFloat <$> weight d)
  (put "height" (VFloat <$> height d)
  (put "blood_type" (VStr <$> blood_type d)
  (put "medical_history" (VStr <$> medical_history d)
  (put "current_medications" (VStr <$> current_medications d)
  (put "allergies" (VStr <$> allergies d)
  (put "family_history" (VStr <$> family_history d)
  (put "smoking_status" (VStr <$> smoking_status d)
  (put "alcohol_use" (VStr <$> alcohol_use d) ∅))))))))))))))).

End PatientCreate.

Module PatientUpdate.

Record t := mk {
  email : option string;
  phone : option string;
  date_of_birth : option string;
  age : option Z;
  gender : option string;
  weight : option Q;
  height : option Q;
  blood_type : option string;
  medical_history : option string;
  current_medications : option string;
  allergies : option string;
  family_history : option string;
  smoking_status : option string;
  alcohol_use : option string }.

Definition valid (d : t) : bool :=
  validate_dob (date_of_birth d)
  && in_range 0 150 (inject_Z <$> age d)
  && in_range 0 600 (weight d)
  && in_range 0 300 (height d).

Definition model_dump (d : t) : kwargs :=
  put "email" (VStr <$> email d)
  (put "phone" (VStr <$> phone d)
  (put "date_of_birth" (VStr <$> date_of_birth d)
  (put "age" (VInt <$> age d)
  (put "gender" (VStr <$> gender d)
  (put "weight" (VFloat <$> weight d)
  (put "height" (VFloat <$> height d)
  (put "blood_type" (VStr <$> blood_type d)
  (put "medical_history" (VStr <$> medical_history d)
  (put "current_medications" (VStr <$> current_medications d)
  (put "allergies" (VStr <$> allergies d)
  (put "family_history" (VStr <$> family_history d)
  (put "smoking_status" (VStr <$> smoking_status d)
  (put "alcohol_use" (VStr <$> alcohol_use d) ∅))))))))))))).

End PatientUpdate.

Module Backend.

(** The answer to a request body or query that fails schema validation. *)
Definition validation_error : exn :=
  HTTPException 422 "Unprocessable Entity".

(** [str(e)] of a caught exception. *)
Definition str (e : exn) : string :=
  match e with
  | TypeError => "TypeError"
  | ValueError => "ValueError"
  | StatementError => "StatementError"
  | IntegrityError => "IntegrityError"
  | OperationalError => "OperationalError"
  | InvalidRequestError => "InvalidRequestError"
  | HTTPException _ detail => detail
  end.

Definition str_id (v : value) : string :=
  match v with VInt z => pretty z | _ => "None" end.

Definition not_found (patient_id : Z) : exn :=
  HTTPException 404 ("Patient #" +:+ pretty patient_id +:+ " not found").

(** [patient.to_dict()], which loads [patient.consultations] on demand. *)
Definition to_dict (today : datetime) (patient : row) : M (gmap string value) :=
  let! cs := query consultations in
  ret (Patient.to_dict today patient
         (List.filter (fun c => sql_eq (getattr c "patient_id") (pk patient)) cs)).

(** [POST /patients]; the answer is the ["patient"] entry of the body. *)
Definition create_patient (now today : datetime) (data : PatientCreate.t)
  : M (gmap string value) :=
  if negb (PatientCreate.valid data) then raise validation_error else
  let! _ :=
    match PatientCreate.email data with
    | Some email =>
        if truthy (VStr email) then
          let! existing := PatientCRUD.get_by_email email in
          match existing with
          | Some existing =>
              raise (HTTPException 400
                       ("Email '" +:+ email +:+ "' already registered for patient #"
                        +:+ str_id (pk existing)))
          | None => ret tt
          end
        else ret tt
    | None => ret tt
    end in
  try_except
    (let! patient := PatientCRUD.create now (PatientCreate.model_dump data) in
     to_dict today patient)
    (fun e => raise (HTTPException 400 (str e))).

(** [GET /patients/search]; the answer is the ["results"] entry. *)
Definition search_patients (today : datetime) (q : string)
  : M (list (gmap string value)) :=
  if negb (1 <=? String.length q)%nat then raise validation_error else
  let! found := PatientCRUD.search q in
  mapM (to_dict today) found.

(** [GET /patients/{patient_id}] *)
Definition get_patient (today : datetime) (patient_id : Z)
  : M (gmap string value) :=
  let! patient := PatientCRUD.get_by_id patient_id in
  match patient with
  | Some patient => to_dict today patient
  | None => raise (not_found patient_id)
  end.

(** [PUT /patients/{patient_id}]; the answer is the ["patient"] entry. *)
Definition update_patient (now today : datetime) (patient_id : Z)
  (data : PatientUpdate.t) : M (gmap string value) :=
  if negb (PatientUpdate.valid data) then raise validation_error else
  let! patient := PatientCRUD.update now patient_id (PatientUpdate.model_dump data) in
  match patient with
  | Some patient => to_dict today patient
  | None => raise (not_found patient_id)
  end.

(** [DELETE /patients/{patient_id}]; the answer is the ["message"] entry. *)
Definition delete_patient (now : datetime) (patient_id : Z) : M string :=
  let! success := PatientCRUD.delete now patient_id in
  if success : bool
  then ret ("Patient #" +:+ pretty patient_id +:+ " deactivated (soft delete)")
  else raise (not_found patient_id).

End Backend.

(** ** Consistency of a database and the states the operations reach *)

(** No two rows of the list agree on column [k] (NULL agrees with nothing). *)
Fixpoint uniqueb (k : string) (l : list row) : bool :=
  match l with
  | [] => true
  | r :: l' =>
      negb (existsb (fun o => sql_eq (getattr o k) (getattr r k)) l')
      && uniqueb k l'
  end.

Definition table_okb (t : table) (l : list row) : bool :=
  forallb (fun r => well_typed t r && not_null_ok t r) l
  && forallb (fun k => uniqueb k l) ("id" :: unique_columns t).

Definition all_tables : list table :=
  [patients; consultations; symptoms; prescriptions; diagnostic_tests].

(** Every row fits its table's columns and the declared keys are unique. *)
Definition db_okb (db : DB) : bool :=
  forallb (fun t => table_okb t (rows db t)) all_tables.

(** The database right after [init_db] on a fresh store. *)
Definition init_db (url : string) : DB := mkDB url [] [] [] [] [].

(** The writing operations a caller can issue, each in a session of its own. *)
Inductive request :=
| PostPatient (data : PatientCreate.t)
| PutPatient (patient_id : Z) (data : PatientUpdate.t)
| DeletePatient (patient_id : Z)
| CreatePatient (kw : kwargs)
| UpdatePatient (patient_id : Z) (kw : kwargs)
| DeactivatePatient (patient_id : Z)
| CreateConsultation (patient_id : Z) (symptom_names : list string) (kw : kwargs)
| AddPrescription (consultation_id : Z) (kw : kwargs)
| AddDiagnosticTest (consultation_id : Z) (kw : kwargs).

(** The committed database after a request served on a connection that
    lasts [lifetime] statements. *)
Definition serve (lifetime : option nat) (now today : datetime) (r : request)
  (db : DB) : DB :=
  match r with
  | PostPatient data => snd (get_db_on lifetime (Backend.create_patient now today data) db)
  | PutPatient i data => snd (get_db_on lifetime (Backend.update_patient now today i data) db)
  | DeletePatient i => snd (get_db_on lifetime (Backend.delete_patient now i) db)
  | CreatePatient kw => snd (get_db_on lifetime (PatientCRUD.create now kw) db)
  | UpdatePatient i kw => snd (get_db_on lifetime (PatientCRUD.update now i kw) db)
  | DeactivatePatient i => snd (get_db_on lifetime (PatientCRUD.delete now i) db)
  | CreateConsultation i names kw =>
      snd (get_db_on lifetime (ConsultationCRUD.create now i names kw) db)
  | AddPrescription i kw =>
      snd (get_db_on lifetime (ConsultationCRUD.add_prescription now i kw) db)
  | AddDiagnosticTest i kw =>
      snd (get_db_on lifetime (ConsultationCRUD.add_diagnostic_test now i kw) db)
  end.

Inductive reachable (url : string) : DB -> Prop :=
| reach_init : reachable url (init_db url)
| reach_serve db lifetime now today r :
    reachable url db -> reachable url (serve lifetime now today r db).

(** The rows of the patients table that carry [email]. *)
Definition with_email (email : string) (db : DB) : list row :=
  List.filter (fun r => sql_eq (getattr r "email") (VStr email)) (t_patients db).

(** ** Predicates used to state the properties *)

#[global] Instance table_eq_dec : EqDecision table.
Proof. solve_decision. Defined.

(** Both databases a session holds are consistent. *)
Definition sess_ok (s : session) : Prop :=
  db_okb (committed s) = true /\ db_okb (working s) = true.

(** The computation keeps the session's databases consistent. *)
Definition preserves {A} (m : M A) : Prop :=
  forall s, sess_ok s -> sess_ok (snd (m s)).

(** The row [PatientCRUD.delete] writes back for a loaded patient. *)
Definition deactivated (now : datetime) (p : row) : row :=
  <["updated_at" := VDateTime now]> (<["is_active" := VBool false]> p).

(** ** Sample data used to exercise the statements *)

Definition t0 : datetime := mkdatetime 2024 5 1 12 0 0 0.
Definition t1 : datetime := mkdatetime 2024 5 2 9 30 0 0.
Definition t2 : datetime := mkdatetime 2024 5 3 18 15 0 0.

Definition john : row :=
  list_to_map
    [ ("id", VInt 1); ("first_name", VStr "John"); ("last_name", VStr "Doe");
      ("email", VStr "john.doe@x.com"); ("weight", VFloat 70);
      ("height", VFloat 175); ("created_at", VDateTime t0);
      ("updated_at", VDateTime t0); ("is_active", VBool true) ].

Definition alice : row :=
  list_to_map
    [ ("id", VInt 2); ("first_name", VStr "Alice"); ("last_name", VStr "Smith");
      ("email", VStr "ajohnson@x.com"); ("phone", VStr "555-0100");
      ("created_at", VDateTime t0); ("updated_at", VDateTime t0);
      ("is_active", VBool true) ].

Definition visit : row :=
  list_to_map
    [ ("id", VInt 1); ("patient_id", VInt 1); ("consultation_date", VDateTime t0);
      ("chief_complaint", VStr "cough"); ("severity", VStr "Mild");
      ("web_search_enabled", VBool false); ("created_at", VDateTime t0) ].

Definition cough : row :=
  list_to_map
    [ ("id", VInt 1); ("consultation_id", VInt 1); ("symptom_name", VStr "cough");
      ("severity", VStr "Mild"); ("created_at", VDateTime t0) ].

Definition clinic : DB :=
  mkDB default_DATABASE_URL [john; alice] [visit] [cough] [] [].

Definition john_form : PatientCreate.t :=
  PatientCreate.mk "John" "Doe" (Some "john.doe@x.com") None (Some "1980-02-29")
    None None (Some 70%Q) (Some 175%Q) None None None None None None None.

Definition garbled_birth_date : kwargs :=
  list_to_map
    [ ("first_name", VStr "John"); ("last_name", VStr "Doe");
      ("date_of_birth", VStr "not-a-date") ].

Definition garbled_form : PatientCreate.t :=
  PatientCreate.mk "John" "Doe" None None (Some "not-a-date")
    None None None None None None None None None None None.

(** The statements of a flush as a function on the database alone. *)
Fixpoint apply_writes (now : datetime) (ps : list pending) (db : DB)
  : exn + (list row * DB) :=
  match ps with
  | [] => inr ([], db)
  | p :: ps' =>
      match write now p db with
      | inl e => inl e
      | inr (r, db') =>
          match apply_writes now ps' db' with
          | inl e => inl e
          | inr (rs, db'') => inr (r :: rs, db'')
          end
      end
  end.


(** The claim's search predicate: the text occurs in the value, letter
    case aside. *)
Definition icontains (text : string) (v : value) : bool :=
  match v with
  | VStr s =>
      contains (map lower (list_ascii_of_string text))
               (map lower (list_ascii_of_string s))
  | _ => false
  end.

Definition spec_matches (text : string) (r : row) : bool :=
  icontains text (getattr r "first_name") || icontains text (getattr r "last_name")
  || icontains text (getattr r "email") || icontains text (getattr r "phone").

Definition three_symptoms : list string := ["fever"; "rash"; "cough"].

Definition moderate : kwargs :=
  list_to_map [ ("severity", VStr "Moderate"); ("chief_complaint", VStr "fever, rash, cough") ].

(** The columns of a patient after the assignments of [PatientCRUD.update]
    that name a column. *)
Definition assigned (p : row) (kw : kwargs) : row :=
  map_fold
    (fun key v p =>
       if is_column patients key && negb (is_None v) then <[key := v]> p else p)
    p kw.

(** A row as [PatientCRUD.update] writes it back. *)
Definition updated (now : datetime) (p : row) (kw : kwargs) : row :=
  <["updated_at" := VDateTime now]> (assigned p (parse_date_of_birth kw)).




(** A partial update that sets Alice's email to John's. *)
Definition steal_email : PatientUpdate.t :=
  PatientUpdate.mk (Some "john.doe@x.com") (Some "555-0123") None None None None
    None None None None None None None None.

Definition new_phone : PatientUpdate.t :=
  PatientUpdate.mk None (Some "555-0123") (Some "1980-02-29") None None None
    None None None None None None None None.

(** ** Further predicates and operations *)

(** A character that LIKE treats as itself: neither a metacharacter nor
    the NUL character, at which SQLite stops reading a pattern. *)
Definition plain (c : ascii) : bool :=
  negb (Ascii.eqb c "%") && negb (Ascii.eqb c "_") && negb (Ascii.eqb c Ascii.zero).

Definition wildcard_free (text : string) : bool :=
  forallb plain (list_ascii_of_string text).

(** A text value without NUL character, or no text at all. *)
Definition nul_free (v : value) : bool :=
  match v with
  | VStr s => forallb (fun c => negb (Ascii.eqb c Ascii.zero)) (list_ascii_of_string s)
  | _ => true
  end.

(** The four fields a search reads hold no NUL character. *)
Definition searchable (r : row) : bool :=
  nul_free (getattr r "first_name") && nul_free (getattr r "last_name")
  && nul_free (getattr r "email") && nul_free (getattr r "phone").

(** [clinic] on a server database, where foreign keys are enforced. *)
Definition clinic_server : DB :=
  mkDB "postgresql://clinic@db/medassist" [john; alice] [visit] [cough] [] [].

(** Outcome of appending a child row of consultation [i] to table [t]:
    nothing changed and the call raised, or exactly one row pointing to
    [i] was appended to [t] and nothing else changed. *)
Definition appended_one_or_nothing (t : table) (i : Z) (db : DB)
  (out : result row * DB) : Prop :=
  match out with
  | (r, db') =>
      (db' = db /\ exists e, r = Raise e)
      \/ (exists child,
            db' = set_rows db t (rows db t ++ [child])
            /\ getattr child "consultation_id" = VInt i
            /\ (r = Ok child \/ r = Raise OperationalError))
  end.

Definition aspirin : kwargs :=
  list_to_map [ ("medication_name", VStr "Aspirin"); ("dosage", VStr "100 mg") ].

(** The value a column default produces ([None] when there is none). *)
Definition default_of (now : datetime) (c : column) : value :=
  match cdefault c with
  | NoDefault => VNone
  | UtcNow => VDateTime now
  | Const v => v
  end.

(** The default that fires for an unset column named [k]. *)
Definition default_value (now : datetime) (cs : list column) (k : string) : value :=
  match find (fun c => String.eqb (cname c) k && negb (is_None (default_of now c))) cs with
  | Some c => default_of now c
  | None => VNone
  end.

(** ** Calendar predicates *)

(** Calendar order of two days given as year, month, day. *)
Definition day_leb (y1 m1 d1 y2 m2 d2 : Z) : bool :=
  ((y1 <? y2) || ((y1 =? y2) && ((m1 <? m2) || ((m1 =? m2) && (d1 <=? d2)))))%Z.

(** The [n]-th anniversary of the day [dob] is [today] or earlier. *)
Definition anniversary_reached (today dob : datetime) (n : Z) : bool :=
  day_leb (year dob + n) (month dob) (day dob)
          (year today) (month today) (day today).

(** The day of a timestamp at 00:00:00, as [strptime] builds it. *)
Definition midnight (d : datetime) : datetime :=
  mkdatetime (year d) (month d) (day d) 0 0 0 0.

(** The decimal digit [k] as a character. *)
Definition digit (k : Z) : ascii := ascii_of_N (Z.to_N (48 + k)).

(** The month and day groups of the [strptime] match, for the text that
    follows the year and its dash. *)
Definition re_match_md (t : list ascii)
  : option (list ascii * list ascii * list ascii) :=
  first_alt re_m t (fun m r3 =>
    match expect "-" r3 with
    | Some r4 => first_alt re_d r4 (fun d rest => Some (m, d, rest))
    | None => None
    end).

(** Month [m] and day [d], printed with two digits each, are matched in
    full and read back as the same numbers. *)
Definition md_round_trip (m d : Z) : bool :=
  match re_match_md (list_ascii_of_string (zfill 2 m +:+ "-" +:+ zfill 2 d)) with
  | Some (mg, dg, []) => ((int_of mg =? m) && (int_of dg =? d))%Z
  | _ => false
  end.

(** A measure that is not set or is zero: the guard of [_calculate_bmi]
    takes it as missing. *)
Definition falsy (v : value) : bool := negb (truthy v).

(** John before his height was taken. *)
Definition unmeasured : row := delete "height" john.

(** ** Domains on which the default engine agrees with the model *)

(** The integers the SQLite driver binds. *)
Definition int64 (z : Z) : bool := ((- 2 ^ 63 <=? z) && (z <? 2 ^ 63))%Z.

(** [s.isascii()] *)
Definition isascii (s : string) : bool :=
  forallb (fun c => (code c <? 128)%Z) (list_ascii_of_string s).

(** The database is a SQLite file, as with the default URL. *)
Definition sqlite (db : DB) : bool := url_startswith "sqlite" (database_url db).

(** A timestamp the [datetime] constructor accepts. *)
Definition wf_datetime (d : datetime) : bool :=
  (valid_date (year d) (month d) (day d)
   && (0 <=? hour d) && (hour d <? 24) && (0 <=? minute d) && (minute d <? 60)
   && (0 <=? second d) && (second d <? 60)
   && (0 <=? microsecond d) && (microsecond d <? 1000000))%Z.

(** A value of the Python type of the column, which SQLite stores and
    returns as it was given: [int] within 64 bits, [str], [float], [bool],
    [datetime]; or [None]. *)
Definition stores (ty : sqltype) (v : value) : bool :=
  match v, ty with
  | VNone, _ => true
  | VInt z, Integer => int64 z
  | VFloat _, Float => true
  | VStr _, String_ | VStr _, Text => true
  | VDateTime d, DateTime => wf_datetime d
  | VBool _, Boolean => true
  | _, _ => false
  end.

(** The keyword names a column of [t] and its value is one the column
    stores; a birth date may also come as ASCII text, to be parsed. *)
Definition storable (t : table) (k : string) (v : value) : bool :=
  is_column t k
  && forallb
       (fun c =>
          negb (String.eqb (cname c) k)
          || stores (ctype c) v
          || (String.eqb k "date_of_birth"
              && match v with VStr s => isascii s | _ => false end))
       (columns t).



(** ** Computations that only read *)

(** The computation leaves the committed database of the session as it
    found it. *)
Definition reads {A} (m : M A) : Prop :=
  forall s, committed (snd (m s)) = committed s.
(** * Properties *)

(** ** Values, attributes and comparisons *)

Lemma sql_eq_sym a b : sql_eq a b = sql_eq b a.
Proof.
  destruct a, b; simpl; auto using Z.eqb_sym, String.eqb_sym.
  destruct b, b0; reflexivity.
Qed.

Lemma sql_eq_trans a b c :
  sql_eq a b = true -> sql_eq b c = true -> sql_eq a c = true.
Proof.
  destruct a, b; simpl; try discriminate; destruct c; simpl; try discriminate.
  - intros H1 H2. apply Bool.eqb_prop in H1, H2. subst. apply Bool.eqb_reflx.
  - intros H1%Z.eqb_eq H2%Z.eqb_eq. subst. apply Z.eqb_refl.
  - intros H1%String.eqb_eq H2%String.eqb_eq. subst. apply String.eqb_refl.
Qed.

Lemma sql_eq_None_r a : sql_eq a VNone = false.
Proof. destruct a; reflexivity. Qed.

Lemma sql_eq_is_None a b : sql_eq a b = true -> is_None b = false.
Proof. destruct a, b; simpl; congruence. Qed.

Lemma sql_eq_int a z : sql_eq a (VInt z) = true -> a = VInt z.
Proof.
  destruct a; simpl; try discriminate. intros H%Z.eqb_eq. congruence.
Qed.

Lemma sql_eq_str a s : sql_eq a (VStr s) = true -> a = VStr s.
Proof.
  destruct a; simpl; try discriminate. intros H%String.eqb_eq. congruence.
Qed.

Lemma getattr_insert (r : row) k v : getattr (<[k := v]> r) k = v.
Proof. unfold getattr. by rewrite lookup_insert_eq. Qed.

Lemma getattr_insert_ne (r : row) k k' v :
  k <> k' -> getattr (<[k := v]> r) k' = getattr r k'.
Proof. intros. unfold getattr. by rewrite lookup_insert_ne. Qed.

Lemma getattr_delete_ne (r : row) k k' :
  k <> k' -> getattr (delete k r) k' = getattr r k'.
Proof. intros. unfold getattr. by rewrite lookup_delete_ne. Qed.

Lemma getattr_delete (r : row) k : getattr (delete k r) k = VNone.
Proof. unfold getattr. by rewrite lookup_delete_eq. Qed.

Lemma rows_set_rows db t l t' :
  rows (set_rows db t l) t' = if decide (t = t') then l else rows db t'.
Proof. destruct t, t'; reflexivity. Qed.

Lemma rows_set_rows_eq db t l : rows (set_rows db t l) t = l.
Proof. destruct t; reflexivity. Qed.


Lemma url_set_rows db t l : database_url (set_rows db t l) = database_url db.
Proof. destruct t; reflexivity. Qed.

(** ** Uniqueness of keys *)

Lemma clash_None (r : row) k (l : list row) :
  is_None (getattr r k) = true ->
  existsb (fun o => sql_eq (getattr o k) (getattr r k)) l = false.
Proof.
  intros H. induction l as [|o l IH]; simpl; [done|].
  rewrite IH. destruct (getattr r k); try discriminate.
  by rewrite sql_eq_None_r.
Qed.

Lemma uniqueb_snoc k (l : list row) (r : row) :
  uniqueb k l = true ->
  existsb (fun o => sql_eq (getattr o k) (getattr r k)) l = false ->
  uniqueb k (l ++ [r]) = true.
Proof.
  induction l as [|o l IH]; simpl; [done|].
  intros [Ho Hl]%andb_true_iff [Hor Hlr]%orb_false_iff.
  rewrite existsb_app. simpl. rewrite orb_false_r.
  rewrite sql_eq_sym, Hor, orb_false_r, Ho. simpl. by apply IH.
Qed.

Lemma unique_ok_clash t (others : list row) (r : row) k :
  unique_ok t others r = true -> In k ("id" :: unique_columns t) ->
  existsb (fun o => sql_eq (getattr o k) (getattr r k)) others = false.
Proof.
  unfold unique_ok. rewrite forallb_forall. intros H Hk.
  specialize (H k Hk). apply orb_true_iff in H as [H|H].
  - by apply clash_None.
  - by apply negb_true_iff.
Qed.

Lemma existsb_false_In {A} (f : A -> bool) l x :
  existsb f l = false -> In x l -> f x = false.
Proof.
  intros H Hx. destruct (f x) eqn:E; [|done].
  assert (existsb f l = true) by (apply existsb_exists; eauto). congruence.
Qed.

Lemma no_match_filter key (l : list row) :
  existsb (has_pk key) l = false ->
  List.filter (fun o => negb (has_pk key o)) l = l.
Proof.
  induction l as [|o l IH]; simpl; [done|].
  intros [Ho Hl]%orb_false_iff. rewrite Ho. simpl. by rewrite IH.
Qed.

Lemma no_match_map key (r : row) (l : list row) :
  existsb (has_pk key) l = false ->
  map (fun o => if has_pk key o then r else o) l = l.
Proof.
  induction l as [|o l IH]; simpl; [done|].
  intros [Ho Hl]%orb_false_iff. rewrite Ho. by rewrite IH.
Qed.

(** With unique keys, the rows after the one carrying [key] do not. *)
Lemma unique_key_tail key (o : row) (l : list row) :
  uniqueb "id" (o :: l) = true -> has_pk key o = true ->
  existsb (has_pk key) l = false.
Proof.
  simpl. intros [Ho _]%andb_true_iff Hk. apply negb_true_iff in Ho.
  destruct (existsb (has_pk key) l) eqn:E; [|done].
  apply existsb_exists in E as (x & Hx & Hkx).
  assert (sql_eq (getattr x "id") (getattr o "id") = true) as Hc.
  { unfold has_pk, pk in *. eapply sql_eq_trans; [exact Hkx|].
    by rewrite sql_eq_sym. }
  eapply existsb_false_In in Ho; [|exact Hx]. simpl in Ho. congruence.
Qed.

Lemma uniqueb_replace k key (r : row) (l : list row) :
  uniqueb "id" l = true -> uniqueb k l = true ->
  existsb (fun o => sql_eq (getattr o k) (getattr r k))
          (List.filter (fun o => negb (has_pk key o)) l) = false ->
  uniqueb k (map (fun o => if has_pk key o then r else o) l) = true.
Proof.
  induction l as [|o l IH]; [done|].
  intros Hid Hk Hc. destruct (has_pk key o) eqn:Eo.
  - pose proof (unique_key_tail _ _ _ Hid Eo) as Hl.
    cbn [map]. rewrite Eo, (no_match_map _ _ _ Hl).
    cbn [List.filter] in Hc. rewrite Eo in Hc. cbn [negb] in Hc.
    rewrite (no_match_filter _ _ Hl) in Hc.
    cbn [uniqueb] in *. rewrite Hc. cbn [negb andb].
    by apply andb_true_iff in Hk as [_ ?].
  - cbn [map]. rewrite Eo. cbn [List.filter] in Hc. rewrite Eo in Hc.
    cbn [negb existsb] in Hc. apply orb_false_iff in Hc as [Hor Hc].
    cbn [uniqueb] in Hid, Hk |- *.
    apply andb_true_iff in Hid as [_ Hid]. apply andb_true_iff in Hk as [Ho Hk].
    rewrite (IH Hid Hk Hc), andb_true_r. apply negb_true_iff.
    apply negb_true_iff in Ho.
    destruct (existsb _ (map _ l)) eqn:E; [|done].
    apply existsb_exists in E as (x & Hx & Hxo).
    apply in_map_iff in Hx as (y & <- & Hy).
    destruct (has_pk key y).
    + rewrite sql_eq_sym in Hxo. congruence.
    + eapply existsb_false_In in Ho; [|exact Hy]. simpl in Ho. congruence.
Qed.

Lemma uniqueb_count k v (l : list row) :
  uniqueb k l = true ->
  (length (List.filter (fun r => sql_eq (getattr r k) v) l) <= 1)%nat.
Proof.
  induction l as [|o l IH]; simpl; [lia|].
  intros [Ho Hl]%andb_true_iff. specialize (IH Hl).
  destruct (sql_eq (getattr o k) v) eqn:E; [|done].
  apply negb_true_iff in Ho.
  assert (List.filter (fun r => sql_eq (getattr r k) v) l = []) as ->; [|simpl; lia].
  destruct (List.filter _ l) as [|x ?] eqn:F; [done|].
  assert (In x (List.filter (fun r => sql_eq (getattr r k) v) l)) as Hx
    by (rewrite F; left; done).
  apply filter_In in Hx as [Hx Hxv].
  eapply existsb_false_In in Ho; [|exact Hx]. simpl in Ho.
  assert (sql_eq (getattr x k) (getattr o k) = true); [|congruence].
  eapply sql_eq_trans; [exact Hxv|]. by rewrite sql_eq_sym.
Qed.

(** ** Consistency is preserved by every write *)

Lemma db_okb_spec db :
  db_okb db = true <-> forall t, table_okb t (rows db t) = true.
Proof.
  unfold db_okb, all_tables. simpl. rewrite !andb_true_iff. split.
  - intros (?&?&?&?&?&_) []; done.
  - intros H. repeat split; apply H.
Qed.

Lemma table_okb_spec t l :
  table_okb t l = true <->
  (forall r, In r l -> well_typed t r = true /\ not_null_ok t r = true)
  /\ (forall k, In k ("id" :: unique_columns t) -> uniqueb k l = true).
Proof.
  unfold table_okb. rewrite andb_true_iff, !forallb_forall.
  split; intros [H1 H2]; split; auto.
  - intros r Hr. by apply andb_true_iff, H1.
  - intros r Hr. by apply andb_true_iff, H1.
Qed.

Lemma row_ok_spec db t others r :
  row_ok db t others r = true <->
  well_typed t r = true /\ not_null_ok t r = true
  /\ unique_ok t others r = true /\ parent_ok db t r = true.
Proof. unfold row_ok. rewrite !andb_true_iff. tauto. Qed.

Lemma insert_row_inv now db t r r' db' :
  insert_row now db t r = inr (r', db') ->
  r' = apply_defaults now t (assign_id (rows db t) r)
  /\ row_ok db t (rows db t) r' = true
  /\ db' = set_rows db t (rows db t ++ [r']).
Proof.
  unfold insert_row. destruct (row_ok _ _ _ _) eqn:E; [|discriminate].
  intros [= <- <-]. done.
Qed.

Lemma update_row_inv db t key r db' :
  update_row db t key r = inr db' ->
  row_ok db t (List.filter (fun o => negb (has_pk key o)) (rows db t)) r = true
  /\ rekey_ok db t key (pk r) = true
  /\ db' = set_rows db t (map (fun o => if has_pk key o then r else o) (rows db t)).
Proof.
  unfold update_row. destruct (row_ok _ _ _ _) eqn:E; [|discriminate].
  destruct (rekey_ok _ _ _ _) eqn:E'; [|discriminate].
  intros [= <-]. done.
Qed.

Lemma insert_row_ok now db t r r' db' :
  db_okb db = true -> insert_row now db t r = inr (r', db') -> db_okb db' = true.
Proof.
  rewrite !db_okb_spec. intros Hdb (-> & Hok & ->)%insert_row_inv t'.
  rewrite rows_set_rows. destruct (decide (t = t')) as [<-|]; [|apply Hdb].
  apply row_ok_spec in Hok as (Hty & Hnn & Hu & _).
  specialize (Hdb t). apply table_okb_spec in Hdb as [Hrows Huniq].
  apply table_okb_spec. split.
  - intros x [Hx|[<-|[]]]%in_app_or; auto.
  - intros k Hk. apply uniqueb_snoc; [by apply Huniq|].
    by eapply unique_ok_clash.
Qed.

Lemma update_row_ok db t key r db' :
  db_okb db = true -> update_row db t key r = inr db' -> db_okb db' = true.
Proof.
  rewrite !db_okb_spec. intros Hdb (Hok & _ & ->)%update_row_inv t'.
  rewrite rows_set_rows. destruct (decide (t = t')) as [<-|]; [|apply Hdb].
  apply row_ok_spec in Hok as (Hty & Hnn & Hu & _).
  specialize (Hdb t). apply table_okb_spec in Hdb as [Hrows Huniq].
  apply table_okb_spec. split.
  - intros x (y & <- & Hy)%in_map_iff. destruct (has_pk key y); auto.
  - intros k Hk. apply uniqueb_replace; [apply Huniq; by left|by apply Huniq|].
    by eapply unique_ok_clash.
Qed.

(** ** Every operation keeps the session consistent *)

Lemma preserves_ret {A} (a : A) : preserves (ret a).
Proof. intros s H. exact H. Qed.

Lemma preserves_raise {A} e : preserves (@raise A e).
Proof. intros s H. exact H. Qed.

Lemma preserves_bind {A B} (m : M A) (k : A -> M B) :
  preserves m -> (forall a, preserves (k a)) -> preserves (bind m k).
Proof.
  intros Hm Hk s Hs. unfold bind. specialize (Hm s Hs).
  destruct (m s) as [[a|e] s']; simpl in *; [by apply Hk|done].
Qed.

Lemma preserves_try_except {A} (m : M A) h :
  preserves m -> (forall e, preserves (h e)) -> preserves (try_except m h).
Proof.
  intros Hm Hh s Hs. unfold try_except. specialize (Hm s Hs).
  destruct (m s) as [[a|e] s']; simpl in *; [done|by apply Hh].
Qed.

Lemma sess_ok_rollback s : sess_ok s -> sess_ok (rollback s).
Proof. intros [H _]. split; exact H. Qed.

Lemma preserves_close : preserves close.
Proof. intros s H. by apply sess_ok_rollback. Qed.

Lemma preserves_execute : preserves execute.
Proof.
  intros s H. unfold execute. destruct (survives s) as [[|n]|]; simpl; auto.
  by apply sess_ok_rollback.
Qed.

Lemma preserves_add t r : preserves (add t r).
Proof. intros s H. exact H. Qed.

Lemma preserves_set_attributes t key r : preserves (set_attributes t key r).
Proof. intros s H. exact H. Qed.

Lemma write_ok now p db r db' :
  db_okb db = true -> write now p db = inr (r, db') -> db_okb db' = true.
Proof.
  destruct p as [t x|t key x]; simpl.
  - apply insert_row_ok.
  - destruct (update_row db t key x) eqn:E; [discriminate|].
    intros H [= <- <-]. by eapply update_row_ok.
Qed.

Lemma preserves_flush_items now ps : preserves (flush_items now ps).
Proof.
  induction ps as [|p ps IH]; [apply preserves_ret|].
  cbn [flush_items]. apply preserves_bind; [apply preserves_execute|intros _].
  apply preserves_bind.
  - intros s [Hc Hw]. destruct (write now p (working s)) as [e|[r db']] eqn:E; simpl.
    + by apply sess_ok_rollback.
    + split; [done|by eapply write_ok].
  - intros r. apply preserves_bind; [done|intros; apply preserves_ret].
Qed.

Lemma preserves_flush now : preserves (flush now).
Proof. intros s Hs. unfold flush. by apply preserves_flush_items. Qed.

Lemma preserves_commit now : preserves (commit now).
Proof.
  unfold commit. apply preserves_bind; [apply preserves_flush|intros rs].
  apply preserves_bind; [apply preserves_execute|intros _].
  apply preserves_bind; [|intros; apply preserves_ret].
  intros s [_ Hw]. split; exact Hw.
Qed.

Lemma preserves_query t : preserves (query t).
Proof.
  unfold query. apply preserves_bind; [apply preserves_execute|intros _].
  intros s H. exact H.
Qed.

Lemma preserves_refresh t r : preserves (refresh t r).
Proof.
  unfold refresh. apply preserves_bind; [apply preserves_query|intros rs].
  destruct (find _ rs); [apply preserves_ret|apply preserves_raise].
Qed.

Lemma preserves_construct t kw : preserves (construct t kw).
Proof.
  unfold construct. destruct (forallb _ _); [apply preserves_ret|apply preserves_raise].
Qed.

Lemma preserves_mapM {A B} (f : A -> M B) l :
  (forall a, preserves (f a)) -> preserves (mapM f l).
Proof.
  intros Hf. induction l as [|a l IH]; [apply preserves_ret|].
  cbn [mapM]. apply preserves_bind; [apply Hf|intros b].
  apply preserves_bind; [done|intros; apply preserves_ret].
Qed.

Create HintDb preserves.
#[global] Hint Resolve preserves_ret preserves_raise preserves_close
  preserves_execute preserves_add preserves_set_attributes preserves_flush
  preserves_commit preserves_query preserves_refresh preserves_construct
  : preserves.

Ltac preserves_step :=
  first
    [ solve [auto with preserves]
    | apply preserves_try_except; [|intros ?]
    | apply preserves_mapM; intros ?
    | apply preserves_bind; [|intros ?]
    | match goal with
      | |- preserves (match ?x with _ => _ end) => destruct x
      | |- preserves (if ?x then _ else _) => destruct x
      end ].

Ltac preserves_tac := repeat preserves_step.

Lemma preserves_PatientCRUD_create now kw : preserves (PatientCRUD.create now kw).
Proof. unfold PatientCRUD.create. preserves_tac. Qed.

Lemma preserves_PatientCRUD_update now i kw : preserves (PatientCRUD.update now i kw).
Proof. unfold PatientCRUD.update. preserves_tac. Qed.

Lemma preserves_PatientCRUD_delete now i : preserves (PatientCRUD.delete now i).
Proof. unfold PatientCRUD.delete. preserves_tac. Qed.

Lemma preserves_symptom_adds (names : list string) (f : string -> row) m :
  preserves m ->
  preserves (fold_left (fun acc n => let! _ := acc in add symptoms (f n)) names m).
Proof.
  revert m. induction names as [|n names IH]; intros m Hm; [done|].
  cbn [fold_left]. apply IH. preserves_tac.
Qed.

Lemma preserves_ConsultationCRUD_create now i names kw :
  preserves (ConsultationCRUD.create now i names kw).
Proof.
  unfold ConsultationCRUD.create. preserves_tac.
  apply preserves_symptom_adds. preserves_tac.
Qed.

Lemma preserves_add_child now t i kw :
  preserves (ConsultationCRUD.add_child now t i kw).
Proof. unfold ConsultationCRUD.add_child. preserves_tac. Qed.

Lemma preserves_to_dict today p : preserves (Backend.to_dict today p).
Proof. unfold Backend.to_dict. preserves_tac. Qed.

Lemma preserves_create_patient now today data :
  preserves (Backend.create_patient now today data).
Proof.
  unfold Backend.create_patient, PatientCRUD.get_by_email.
  pose proof preserves_PatientCRUD_create. pose proof preserves_to_dict.
  preserves_tac.
Qed.

Lemma preserves_update_patient now today i data :
  preserves (Backend.update_patient now today i data).
Proof.
  unfold Backend.update_patient.
  pose proof preserves_PatientCRUD_update. pose proof preserves_to_dict.
  preserves_tac.
Qed.

Lemma preserves_delete_patient now i : preserves (Backend.delete_patient now i).
Proof.
  unfold Backend.delete_patient. pose proof preserves_PatientCRUD_delete.
  preserves_tac.
Qed.

Lemma get_db_on_ok {A} lifetime (h : M A) db :
  preserves h -> db_okb db = true -> db_okb (snd (get_db_on lifetime h db)) = true.
Proof.
  intros Hh Hdb. unfold get_db_on.
  assert (sess_ok (connect lifetime db)) as Hs by (split; exact Hdb).
  specialize (Hh _ Hs). destruct (h (connect lifetime db)) as [r s]. simpl in *.
  apply Hh.
Qed.

Lemma serve_ok lifetime now today r db :
  db_okb db = true -> db_okb (serve lifetime now today r db) = true.
Proof.
  intros Hdb. destruct r; simpl; apply get_db_on_ok; try done.
  - apply preserves_create_patient.
  - apply preserves_update_patient.
  - apply preserves_delete_patient.
  - apply preserves_PatientCRUD_create.
  - apply preserves_PatientCRUD_update.
  - apply preserves_PatientCRUD_delete.
  - apply preserves_ConsultationCRUD_create.
  - apply preserves_add_child.
  - apply preserves_add_child.
Qed.

Lemma reachable_ok url db : reachable url db -> db_okb db = true.
Proof. induction 1; [reflexivity|by apply serve_ok]. Qed.

(** ** Running the primitives on a healthy connection *)

Lemma bind_Ok {A B} (m : M A) (k : A -> M B) s a s' :
  m s = (Ok a, s') -> bind m k s = k a s'.
Proof. intros H. unfold bind. by rewrite H. Qed.

Lemma bind_Raise {A B} (m : M A) (k : A -> M B) s e s' :
  m s = (Raise e, s') -> bind m k s = (Raise e, s').
Proof. intros H. unfold bind. by rewrite H. Qed.

Lemma query_healthy t c w u :
  query t (mkSession c w u None) = (Ok (rows w t), mkSession c w u None).
Proof. reflexivity. Qed.

Lemma flush_one_healthy now p c w :
  flush now (mkSession c w [p] None) =
  match write now p w with
  | inr (r, w') => (Ok [r], mkSession c w' [] None)
  | inl e => (Raise e, mkSession c c [] None)
  end.
Proof.
  unfold flush. cbn [unflushed committed working survives flush_items].
  unfold bind at 1. cbn [execute survives]. cbv beta iota.
  unfold bind at 1. cbn [working].
  destruct (write now p w) as [e|[r w']]; reflexivity.
Qed.

Lemma commit_one_healthy now p c w :
  commit now (mkSession c w [p] None) =
  match write now p w with
  | inr (r, w') => (Ok [r], mkSession w' w' [] None)
  | inl e => (Raise e, mkSession c c [] None)
  end.
Proof.
  unfold commit. unfold bind at 1. rewrite flush_one_healthy.
  destruct (write now p w) as [e|[r w']]; reflexivity.
Qed.

Lemma find_snoc_fresh key (l : list row) (r : row) :
  existsb (has_pk key) l = false -> has_pk key r = true ->
  find (has_pk key) (l ++ [r]) = Some r.
Proof.
  induction l as [|o l IH]; cbn [app find existsb].
  - intros _ ->. done.
  - intros [-> Hl]%orb_false_iff Hr. by apply IH.
Qed.

Lemma refresh_healthy t r c w u :
  refresh t r (mkSession c w u None) =
  match find (has_pk (pk r)) (rows w t) with
  | Some r' => (Ok r', mkSession c w u None)
  | None => (Raise InvalidRequestError, mkSession c w u None)
  end.
Proof.
  unfold refresh. erewrite bind_Ok by apply query_healthy.
  destruct (find _ _); reflexivity.
Qed.

(** A row the database accepted carries an integer key of its own. *)
Lemma row_ok_pk db t others r :
  row_ok db t others r = true -> exists z, pk r = VInt z.
Proof.
  intros (Hty & Hnn & _)%row_ok_spec.
  unfold well_typed in Hty. apply andb_true_iff in Hty as [Hty _].
  unfold not_null_ok in Hnn. rewrite forallb_forall in Hty, Hnn.
  assert (In (Column "id" Integer false NoDefault) (columns t)) as Hin
    by (destruct t; left; reflexivity).
  specialize (Hty _ Hin). specialize (Hnn _ Hin). cbn [cname ctype nullable] in *.
  unfold pk. destruct (getattr r "id"); try discriminate. eauto.
Qed.

Lemma has_pk_self (r : row) z : pk r = VInt z -> has_pk (pk r) r = true.
Proof. intros H. unfold has_pk. rewrite H. cbn. apply Z.eqb_refl. Qed.

Lemma inserted_found now db t r r' db' :
  insert_row now db t r = inr (r', db') ->
  find (has_pk (pk r')) (rows db' t) = Some r'.
Proof.
  intros (_ & Hok & ->)%insert_row_inv. rewrite rows_set_rows_eq.
  destruct (row_ok_pk _ _ _ _ Hok) as [z Hz].
  apply find_snoc_fresh; [|by eapply has_pk_self].
  apply row_ok_spec in Hok as (_ & _ & Hu & _).
  pose proof (unique_ok_clash _ _ _ "id" Hu (or_introl eq_refl)) as Hc.
  exact Hc.
Qed.

(** An INSERT whose row passes the checks appends the row as persisted. *)
Lemma insert_row_accepted now db t (r : row) :
  row_ok db t (rows db t) (apply_defaults now t (assign_id (rows db t) r)) = true ->
  insert_row now db t r =
  inr (apply_defaults now t (assign_id (rows db t) r),
       set_rows db t (rows db t ++ [apply_defaults now t (assign_id (rows db t) r)])).
Proof. intros H. unfold insert_row. by rewrite H. Qed.

Lemma PatientCRUD_create_run now kw db :
  PatientCRUD.create now kw (connect None db) =
  if forallb (fun kv => is_column patients (fst kv))
             (map_to_list (parse_date_of_birth kw)) then
    match insert_row now db patients (parse_date_of_birth kw) with
    | inr (p, db') => (Ok p, connect None db')
    | inl e => (Raise e, connect None db)
    end
  else (Raise TypeError, connect None db).
Proof.
  unfold PatientCRUD.create, construct.
  destruct (forallb _ _); [|reflexivity].
  unfold connect. unfold bind at 1. cbn [ret].
  unfold bind at 1. cbn [add committed working unflushed survives app].
  unfold bind at 1. rewrite commit_one_healthy. cbn [write].
  destruct (insert_row now db patients (parse_date_of_birth kw)) as [e|[p db']] eqn:E;
    [reflexivity|].
  rewrite refresh_healthy. by rewrite (inserted_found _ _ _ _ _ _ E).
Qed.

Lemma uniqueb_In k (l : list row) (p o : row) :
  uniqueb k l = true -> In p l -> In o l ->
  sql_eq (getattr o k) (getattr p k) = true -> o = p.
Proof.
  induction l as [|x l IH]; [intros _ []|].
  cbn [uniqueb]. intros [Hx Hl]%andb_true_iff Hp Ho Heq.
  apply negb_true_iff in Hx.
  destruct Hp as [->|Hp], Ho as [->|Ho]; auto.
  - eapply existsb_false_In in Hx; [|exact Ho]. cbn in Hx. congruence.
  - eapply existsb_false_In in Hx; [|exact Hp]. cbn in Hx.
    rewrite sql_eq_sym in Hx. congruence.
Qed.

Lemma first_row_filter_In (f : row -> bool) l p :
  first_row (List.filter f l) = Some p -> In p l /\ f p = true.
Proof.
  intros H. apply filter_In. destruct (List.filter f l); [discriminate|].
  injection H as ->. by left.
Qed.

Lemma first_row_filter_None (f : row -> bool) l :
  first_row (List.filter f l) = None <-> (forall r, In r l -> f r = false).
Proof.
  split.
  - intros H r Hr. destruct (f r) eqn:E; [|done].
    assert (In r (List.filter f l)) as Hin by (apply filter_In; done).
    destruct (List.filter f l); [destruct Hin|discriminate].
  - intros H. destruct (List.filter f l) as [|x ?] eqn:E; [done|].
    assert (In x (List.filter f l)) as Hx by (rewrite E; by left).
    apply filter_In in Hx as [Hx Hfx]. rewrite (H x Hx) in Hfx. discriminate.
Qed.

Lemma replaced_found key (p' : row) (l : list row) :
  existsb (has_pk key) l = true ->
  existsb (has_pk (pk p')) (List.filter (fun o => negb (has_pk key o)) l) = false ->
  has_pk (pk p') p' = true ->
  find (has_pk (pk p')) (map (fun o => if has_pk key o then p' else o) l) = Some p'.
Proof.
  induction l as [|o l IH]; [discriminate|].
  cbn [existsb List.filter map find]. intros Hex Hno Hself.
  destruct (has_pk key o) eqn:Eo; cbn [negb] in *.
  - by rewrite Hself.
  - cbn [existsb] in Hno. apply orb_false_iff in Hno as [-> Hno]. auto.
Qed.

Lemma updated_found db t key p' db' :
  existsb (has_pk key) (rows db t) = true ->
  update_row db t key p' = inr db' ->
  find (has_pk (pk p')) (rows db' t) = Some p'.
Proof.
  intros Hex (Hok & _ & ->)%update_row_inv. rewrite rows_set_rows_eq.
  destruct (row_ok_pk _ _ _ _ Hok) as [z Hz].
  apply replaced_found; [done| |by eapply has_pk_self].
  apply row_ok_spec in Hok as (_ & _ & Hu & _).
  exact (unique_ok_clash _ _ _ "id" Hu (or_introl eq_refl)).
Qed.

Lemma loaded_key (i : Z) (l : list row) p :
  first_row (List.filter (has_pk (VInt i)) l) = Some p ->
  In p l /\ pk p = VInt i /\ existsb (has_pk (pk p)) l = true.
Proof.
  intros [Hin Hp]%first_row_filter_In. unfold has_pk in Hp.
  apply sql_eq_int in Hp. repeat split; [done..|].
  apply existsb_exists. exists p. split; [done|]. by eapply has_pk_self.
Qed.

(** A loaded object changed to [p'] and committed. *)
Lemma modify_commit_run now t p p' db :
  existsb (has_pk (pk p)) (rows db t) = true ->
  (let! _ := set_attributes t (pk p) p' in
   let! _ := commit now in
   let! r := refresh t p' in
   ret (Some r)) (mkSession db db [] None) =
  match update_row db t (pk p) p' with
  | inr db' => (Ok (Some p'), connect None db')
  | inl e => (Raise e, connect None db)
  end.
Proof.
  intros Hex.
  unfold bind at 1. cbn [set_attributes committed working unflushed survives app].
  unfold bind at 1. rewrite commit_one_healthy. cbn [write].
  destruct (update_row db t (pk p) p') as [e|db'] eqn:E; [reflexivity|].
  unfold bind at 1. rewrite refresh_healthy.
  by rewrite (updated_found _ _ _ _ _ Hex E).
Qed.

Lemma PatientCRUD_update_run now i kw db :
  PatientCRUD.update now i kw (connect None db) =
  match first_row (List.filter (has_pk (VInt i)) (t_patients db)) with
  | Some p =>
      match PatientCRUD.assign p (parse_date_of_birth kw) with
      | inr a =>
          let p' := <["updated_at" := VDateTime now]> a in
          match update_row db patients (VInt i) p' with
          | inr db' => (Ok (Some p'), connect None db')
          | inl e => (Raise e, connect None db)
          end
      | inl e => (Raise e, connect None db)
      end
  | None => (Ok None, connect None db)
  end.
Proof.
  unfold PatientCRUD.update, connect. erewrite bind_Ok by apply query_healthy.
  cbn [rows].
  destruct (first_row _) as [p|] eqn:E; [|reflexivity].
  destruct (PatientCRUD.assign p (parse_date_of_birth kw)) as [e|a]; [reflexivity|].
  apply loaded_key in E as (Hin & Hpk & Hex).
  rewrite (modify_commit_run now patients p _ db Hex).
  by rewrite Hpk.
Qed.

Lemma PatientCRUD_delete_run now i db :
  PatientCRUD.delete now i (connect None db) =
  match first_row (List.filter (has_pk (VInt i)) (t_patients db)) with
  | Some p =>
      let p' := <["updated_at" := VDateTime now]> (<["is_active" := VBool false]> p) in
      match update_row db patients (VInt i) p' with
      | inr db' => (Ok true, connect None db')
      | inl e => (Raise e, connect None db)
      end
  | None => (Ok false, connect None db)
  end.
Proof.
  unfold PatientCRUD.delete, connect. erewrite bind_Ok by apply query_healthy.
  cbn [rows].
  destruct (first_row _) as [p|] eqn:E; [|reflexivity].
  apply loaded_key in E as (Hin & Hpk & Hex). rewrite Hpk.
  unfold bind at 1. cbn [set_attributes committed working unflushed survives app].
  unfold bind at 1. rewrite commit_one_healthy. cbn [write].
  destruct (update_row db patients (VInt i) _) as [e|db'] eqn:E; reflexivity.
Qed.

Lemma get_db_run {A} (h : M A) db r db' :
  h (connect None db) = (r, connect None db') -> get_db h db = (r, db').
Proof. intros H. unfold get_db, get_db_on. by rewrite H. Qed.

(** ** Rows that fit their table *)

Lemma keys_ok_spec t (r : row) :
  forallb (fun kv => is_column t (fst kv)) (map_to_list r) = true <->
  (forall k v, r !! k = Some v -> is_column t k = true).
Proof.
  rewrite forallb_forall. split.
  - intros H k v Hkv. apply (H (k, v)).
    apply list_elem_of_In, elem_of_map_to_list. done.
  - intros H [k v] Hin. apply list_elem_of_In, elem_of_map_to_list in Hin.
    by eapply H.
Qed.

Lemma well_typed_spec t (r : row) :
  well_typed t r = true <->
  (forall c, In c (columns t) -> binds (ctype c) (getattr r (cname c)) = true)
  /\ (forall k v, r !! k = Some v -> is_column t k = true).
Proof.
  unfold well_typed. by rewrite andb_true_iff, forallb_forall, keys_ok_spec.
Qed.

Lemma getattr_insert_case (r : row) k k' v :
  getattr (<[k := v]> r) k' = if decide (k = k') then v else getattr r k'.
Proof.
  destruct (decide (k = k')) as [<-|].
  - apply getattr_insert.
  - by apply getattr_insert_ne.
Qed.

(** Settles a statement about the column of a given name by running
    through the declared columns. *)
Ltac by_column :=
  let c := fresh "c" in
  let Hc := fresh "Hc" in
  let Hn := fresh "Hn" in
  intros c Hc Hn; cbn [columns In] in Hc;
  repeat (destruct Hc as [<-|Hc]; [first [discriminate Hn | reflexivity]|]);
  destruct Hc.

Lemma well_typed_insert t (r : row) k v :
  well_typed t r = true -> is_column t k = true ->
  (forall c, In c (columns t) -> cname c = k -> binds (ctype c) v = true) ->
  well_typed t (<[k := v]> r) = true.
Proof.
  rewrite !well_typed_spec. intros [Hb Hk] Hc Hv. split.
  - intros c Hin. rewrite getattr_insert_case. destruct (decide _); auto.
  - intros k' v'. rewrite lookup_insert. destruct (decide _) as [<-|]; eauto.
Qed.

Lemma not_null_insert t (r : row) k v :
  not_null_ok t r = true -> is_None v = false ->
  not_null_ok t (<[k := v]> r) = true.
Proof.
  unfold not_null_ok. rewrite !forallb_forall. intros H Hv c Hin.
  rewrite getattr_insert_case. destruct (decide _); [|auto].
  rewrite Hv. apply orb_true_r.
Qed.

Lemma same_key_no_clash k (l : list row) (p : row) i :
  uniqueb k l = true -> In p l -> pk p = VInt i ->
  existsb (fun o => sql_eq (getattr o k) (getattr p k))
          (List.filter (fun o => negb (has_pk (VInt i) o)) l) = false.
Proof.
  intros Hu Hp Hpk.
  destruct (existsb _ _) eqn:E; [|done].
  apply existsb_exists in E as (o & [Ho Hn]%filter_In & Heq).
  assert (o = p) as -> by (eapply uniqueb_In; eauto).
  rewrite <- Hpk in Hn. erewrite has_pk_self in Hn by eauto. discriminate.
Qed.

(** A patient row rewritten without touching its key is accepted by a
    consistent database when no other row carries its email. *)
Lemma update_row_accepts_email db (p p' : row) i :
  db_okb db = true -> In p (t_patients db) -> pk p = VInt i ->
  well_typed patients p' = true -> not_null_ok patients p' = true ->
  getattr p' "id" = getattr p "id" ->
  existsb (fun o => sql_eq (getattr o "email") (getattr p' "email"))
          (List.filter (fun o => negb (has_pk (VInt i) o)) (t_patients db)) = false ->
  update_row db patients (VInt i) p' =
  inr (set_rows db patients
         (map (fun o => if has_pk (VInt i) o then p' else o) (t_patients db))).
Proof.
  intros Hdb Hin Hpk Hty Hnn Hid Hem. unfold update_row.
  apply db_okb_spec with (t := patients) in Hdb.
  apply table_okb_spec in Hdb as [_ Hu]. cbn [rows] in *.
  assert (row_ok db patients
            (List.filter (fun o => negb (has_pk (VInt i) o)) (t_patients db)) p' = true)
    as ->.
  { apply row_ok_spec. repeat split; [done..|].
    unfold unique_ok. cbn [unique_columns forallb]. rewrite Hid, Hem.
    rewrite (same_key_no_clash _ _ p i); try done; [|apply Hu; by left].
    cbn [negb]. by rewrite !orb_true_r. }
  assert (rekey_ok db patients (VInt i) (pk p') = true) as ->; [|done].
  unfold rekey_ok, pk. rewrite Hid. fold (pk p). rewrite Hpk. cbn [sql_eq].
  by rewrite Z.eqb_refl.
Qed.

Lemma update_row_accepts db (p p' : row) i :
  db_okb db = true -> In p (t_patients db) -> pk p = VInt i ->
  well_typed patients p' = true -> not_null_ok patients p' = true ->
  getattr p' "id" = getattr p "id" -> getattr p' "email" = getattr p "email" ->
  update_row db patients (VInt i) p' =
  inr (set_rows db patients
         (map (fun o => if has_pk (VInt i) o then p' else o) (t_patients db))).
Proof.
  intros Hdb Hin Hpk Hty Hnn Hid Hem.
  apply (update_row_accepts_email db p p' i); try done.
  rewrite Hem. apply same_key_no_clash; try done.
  apply db_okb_spec with (t := patients) in Hdb.
  apply table_okb_spec in Hdb as [_ Hu]. apply Hu. right. by left.
Qed.

Lemma loaded_row_ok db i p :
  db_okb db = true ->
  first_row (List.filter (has_pk (VInt i)) (t_patients db)) = Some p ->
  In p (t_patients db) /\ pk p = VInt i
  /\ well_typed patients p = true /\ not_null_ok patients p = true
  /\ (forall o, In o (t_patients db) -> has_pk (VInt i) o = true -> o = p).
Proof.
  intros Hdb (Hin & Hpk & _)%loaded_key.
  apply db_okb_spec with (t := patients) in Hdb.
  apply table_okb_spec in Hdb as [Hr Hu]. cbn [rows] in *.
  destruct (Hr p Hin) as [Hty Hnn]. repeat split; try done.
  intros o Ho Hk. eapply (uniqueb_In "id"); eauto.
  - apply Hu. by left.
  - fold (pk o) (pk p). rewrite Hpk. exact Hk.
Qed.

Lemma PatientCRUD_delete_ok now i db :
  db_okb db = true ->
  PatientCRUD.delete now i (connect None db) =
  match first_row (List.filter (has_pk (VInt i)) (t_patients db)) with
  | Some _ =>
      (Ok true,
       connect None
         (set_rows db patients
            (map (fun o => if has_pk (VInt i) o then deactivated now o else o)
                 (t_patients db))))
  | None => (Ok false, connect None db)
  end.
Proof.
  intros Hdb. rewrite PatientCRUD_delete_run.
  destruct (first_row _) as [p|] eqn:E; [|done].
  destruct (loaded_row_ok _ _ _ Hdb E) as (Hin & Hpk & Hty & Hnn & Honly).
  cbn zeta.
  rewrite (update_row_accepts db p _ i Hdb Hin Hpk).
  - do 3 f_equal. apply map_ext_in. intros o Ho.
    destruct (has_pk (VInt i) o) eqn:Ek; [|done].
    by rewrite (Honly o Ho Ek).
  - apply well_typed_insert; [apply well_typed_insert; [done|done|]|done|].
    + by_column.
    + by_column.
  - by do 2 (apply not_null_insert; [|done]).
  - by rewrite !getattr_insert_ne.
  - by rewrite !getattr_insert_ne.
Qed.

(** ** Deactivation *)

Lemma get_recent_run lim db :
  get_db (ConsultationCRUD.get_recent lim) db =
  (Ok (limit lim (order_by_desc "consultation_date" (t_consultations db))), db).
Proof. reflexivity. Qed.

Lemma get_by_patient_run i skip lim db :
  get_db (ConsultationCRUD.get_by_patient i skip lim) db =
  (Ok (limit lim (offset skip
         (order_by_desc "consultation_date"
            (List.filter (ConsultationCRUD.of_patient i) (t_consultations db))))), db).
Proof. reflexivity. Qed.

Lemma get_by_id_run i db :
  get_db (PatientCRUD.get_by_id i) db =
  (Ok (first_row (List.filter (fun r => has_pk (VInt i) r && PatientCRUD.active r)
                              (t_patients db))), db).
Proof. reflexivity. Qed.

Lemma deactivated_frame now (o : row) k :
  k <> "is_active" -> k <> "updated_at" ->
  getattr (deactivated now o) k = getattr o k.
Proof. intros. unfold deactivated. by rewrite !getattr_insert_ne. Qed.

Lemma deactivated_inactive now (o : row) :
  getattr (deactivated now o) "is_active" = VBool false
  /\ getattr (deactivated now o) "updated_at" = VDateTime now.
Proof.
  unfold deactivated. split.
  - by rewrite getattr_insert_ne, getattr_insert.
  - by rewrite getattr_insert.
Qed.

Lemma no_match_map_f key (f : row -> row) (l : list row) :
  existsb (has_pk key) l = false ->
  map (fun o => if has_pk key o then f o else o) l = l.
Proof.
  induction l as [|o l IH]; cbn [map existsb]; [done|].
  intros [Ho Hl]%orb_false_iff. rewrite Ho. by rewrite IH.
Qed.

Lemma PatientCRUD_delete_db now i db :
  db_okb db = true ->
  get_db (PatientCRUD.delete now i) db =
  (Ok (match first_row (List.filter (has_pk (VInt i)) (t_patients db)) with
       | Some _ => true
       | None => false
       end),
   set_rows db patients
     (map (fun o => if has_pk (VInt i) o then deactivated now o else o)
          (t_patients db))).
Proof.
  intros Hdb. apply get_db_run. rewrite (PatientCRUD_delete_ok _ _ _ Hdb).
  destruct (first_row _) as [p|] eqn:E; [done|].
  do 2 f_equal. rewrite no_match_map_f; [by destruct db|].
  destruct (existsb _ _) eqn:Ex; [|done].
  apply existsb_exists in Ex as (x & Hx & Hk).
  rewrite first_row_filter_None in E. rewrite (E x Hx) in Hk. discriminate.
Qed.

(** C6. Deactivating a patient rewrites, in the row carrying the id, the
    [is_active] flag (to false) and [updated_at] and nothing else: every
    other attribute of that row, every other patient row, and the
    consultation, symptom, prescription and test tables are as before, and
    the consultation listings answer as before. *)
Theorem deactivate_retains_history now i db :
  db_okb db = true ->
  exists ok db',
    get_db (PatientCRUD.delete now i) db = (Ok ok, db')
    /\ Forall2
         (fun o o' =>
            (forall k, k <> "is_active" -> k <> "updated_at" ->
                       getattr o' k = getattr o k)
            /\ (has_pk (VInt i) o = false -> o' = o)
            /\ (has_pk (VInt i) o = true ->
                getattr o' "is_active" = VBool false
                /\ getattr o' "updated_at" = VDateTime now))
         (t_patients db) (t_patients db')
    /\ t_consultations db' = t_consultations db
    /\ t_symptoms db' = t_symptoms db
    /\ t_prescriptions db' = t_prescriptions db
    /\ t_diagnostic_tests db' = t_diagnostic_tests db
    /\ (forall lim,
          fst (get_db (ConsultationCRUD.get_recent lim) db')
          = fst (get_db (ConsultationCRUD.get_recent lim) db))
    /\ (forall p skip lim,
          fst (get_db (ConsultationCRUD.get_by_patient p skip lim) db')
          = fst (get_db (ConsultationCRUD.get_by_patient p skip lim) db)).
Proof.
  intros Hdb. eexists _, _. split; [by apply PatientCRUD_delete_db|].
  cbn [set_rows t_patients t_consultations t_symptoms t_prescriptions
       t_diagnostic_tests].
  split; [|repeat split; intros; by rewrite ?get_recent_run, ?get_by_patient_run].
  induction (t_patients db) as [|o l IH]; cbn [map]; constructor; [|exact IH].
  destruct (has_pk (VInt i) o) eqn:E; repeat split; try done.
  - intros. by apply deactivated_frame.
  - apply deactivated_inactive.
  - apply deactivated_inactive.
Qed.

Lemma deactivate_retains_history_witness :
  db_okb clinic = true
  /\ exists ok db',
    get_db (PatientCRUD.delete t1 1) clinic = (Ok ok, db')
    /\ Forall2
         (fun o o' =>
            (forall k, k <> "is_active" -> k <> "updated_at" ->
                       getattr o' k = getattr o k)
            /\ (has_pk (VInt 1) o = false -> o' = o)
            /\ (has_pk (VInt 1) o = true ->
                getattr o' "is_active" = VBool false
                /\ getattr o' "updated_at" = VDateTime t1))
         (t_patients clinic) (t_patients db')
    /\ t_consultations db' = t_consultations clinic
    /\ t_symptoms db' = t_symptoms clinic
    /\ t_prescriptions db' = t_prescriptions clinic
    /\ t_diagnostic_tests db' = t_diagnostic_tests clinic
    /\ (forall lim,
          fst (get_db (ConsultationCRUD.get_recent lim) db')
          = fst (get_db (ConsultationCRUD.get_recent lim) clinic))
    /\ (forall p skip lim,
          fst (get_db (ConsultationCRUD.get_by_patient p skip lim) db')
          = fst (get_db (ConsultationCRUD.get_by_patient p skip lim) clinic)).
Proof.
  split; [vm_compute; reflexivity|].
  apply (deactivate_retains_history t1 1 clinic). vm_compute. reflexivity.
Defined.

Lemma has_pk_deactivated key now (o : row) :
  has_pk key (deactivated now o) = has_pk key o.
Proof. unfold has_pk, pk. by rewrite deactivated_frame. Qed.

Lemma filter_deactivated now i (l : list row) :
  List.filter (has_pk (VInt i))
    (map (fun o => if has_pk (VInt i) o then deactivated now o else o) l)
  = map (deactivated now) (List.filter (has_pk (VInt i)) l).
Proof.
  induction l as [|o l IH]; [done|]. cbn [map List.filter].
  destruct (has_pk (VInt i) o) eqn:E.
  - rewrite has_pk_deactivated, E. cbn [map]. by rewrite IH.
  - by rewrite E.
Qed.

Lemma active_deactivated now (o : row) : PatientCRUD.active (deactivated now o) = false.
Proof.
  unfold PatientCRUD.active. by rewrite (proj1 (deactivated_inactive now o)).
Qed.

Lemma delete_db_ok now i db :
  db_okb db = true -> db_okb (snd (get_db (PatientCRUD.delete now i) db)) = true.
Proof. intros. by apply get_db_on_ok; [apply preserves_PatientCRUD_delete|]. Qed.

Lemma get_patient_run today i db :
  get_db (Backend.get_patient today i) db =
  match first_row (List.filter (fun r => has_pk (VInt i) r && PatientCRUD.active r)
                               (t_patients db)) with
  | Some p =>
      (Ok (Patient.to_dict today p
             (List.filter (fun c => sql_eq (getattr c "patient_id") (pk p))
                          (t_consultations db))), db)
  | None => (Raise (Backend.not_found i), db)
  end.
Proof.
  unfold get_db, get_db_on, Backend.get_patient, PatientCRUD.get_by_id, connect.
  unfold bind at 1. erewrite bind_Ok by apply query_healthy. unfold ret. cbn [rows].
  destruct (first_row _); reflexivity.
Qed.

(** C5 (as amended). Deactivating an existing patient twice succeeds both
    times and leaves the row in the table with [is_active] false, where the
    unfiltered lookup by id (the one update and deactivate use) finds it;
    [PatientCRUD.get_by_id] filters inactive patients and answers [None]
    for it, and [GET /patients/{id}] answers "not found". Deactivation
    answers "not found" only for an id that no row carries (and, the id
    being one the driver binds, for every such id). *)
Theorem deactivate_twice now1 now2 today i db :
  db_okb db = true ->
  int64 i = true ->
  (exists p, In p (t_patients db) /\ pk p = VInt i) ->
  (exists db1 db2,
     get_db (PatientCRUD.delete now1 i) db = (Ok true, db1)
     /\ get_db (PatientCRUD.delete now2 i) db1 = (Ok true, db2)
     /\ (exists p, first_row (List.filter (has_pk (VInt i)) (t_patients db2)) = Some p
                   /\ getattr p "is_active" = VBool false)
     /\ length (t_patients db2) = length (t_patients db)
     /\ get_db (PatientCRUD.get_by_id i) db1 = (Ok None, db1)
     /\ get_db (PatientCRUD.get_by_id i) db2 = (Ok None, db2)
     /\ get_db (Backend.get_patient today i) db2 = (Raise (Backend.not_found i), db2))
  /\ (forall now j,
        fst (get_db (PatientCRUD.delete now j) db) = Ok false ->
        forall p, In p (t_patients db) -> pk p <> VInt j)
  /\ (forall now j,
        int64 j = true ->
        (forall p, In p (t_patients db) -> pk p <> VInt j) ->
        get_db (PatientCRUD.delete now j) db = (Ok false, db)).
Proof.
  intros Hdb _ (p & Hin & Hpk). split; [|split].
  - pose proof (delete_db_ok now1 i db Hdb) as Hdb1.
    pose proof (PatientCRUD_delete_db now1 i db Hdb) as Hrun1.
    rewrite Hrun1 in Hdb1. cbn [snd] in Hdb1.
    set (db1 := set_rows db patients _) in *.
    pose proof (PatientCRUD_delete_db now2 i db1 Hdb1) as Hrun2.
    set (db2 := set_rows db1 patients _) in *.
    assert (exists q l, List.filter (has_pk (VInt i)) (t_patients db) = q :: l)
      as (q & l & Hq).
    { destruct (List.filter _ _) as [|q l] eqn:E; [|eauto].
      assert (In p (List.filter (has_pk (VInt i)) (t_patients db))) as Hp.
      { apply filter_In. split; [done|]. rewrite <- Hpk. by eapply has_pk_self. }
      rewrite E in Hp. destruct Hp. }
    assert (List.filter (has_pk (VInt i)) (t_patients db1)
            = deactivated now1 q :: map (deactivated now1) l) as Hq1.
    { subst db1. cbn [set_rows t_patients]. by rewrite filter_deactivated, Hq. }
    assert (List.filter (has_pk (VInt i)) (t_patients db2)
            = deactivated now2 (deactivated now1 q)
                :: map (deactivated now2) (map (deactivated now1) l)) as Hq2.
    { subst db2. cbn [set_rows t_patients]. by rewrite filter_deactivated, Hq1. }
    assert (forall now (l0 : list row),
              first_row (List.filter (fun r => has_pk (VInt i) r && PatientCRUD.active r)
                 (map (fun o => if has_pk (VInt i) o then deactivated now o else o) l0))
              = None) as Hgone.
    { intros now l0. apply first_row_filter_None. intros r Hr.
      apply in_map_iff in Hr as (o & <- & _).
      destruct (has_pk (VInt i) o) eqn:E.
      - by rewrite active_deactivated, andb_false_r.
      - by rewrite E. }
    exists db1, db2. rewrite Hrun1, Hrun2, Hq, Hq1.
    split; [reflexivity|]. split; [reflexivity|]. split; [|split; [|split; [|split]]].
    + rewrite Hq2. eexists. split; [reflexivity|]. apply deactivated_inactive.
    + subst db2 db1. cbn [set_rows t_patients]. by rewrite !length_map.
    + rewrite get_by_id_run. subst db1. cbn [set_rows t_patients].
      by rewrite Hgone.
    + rewrite get_by_id_run. subst db2. cbn [set_rows t_patients].
      by rewrite Hgone.
    + rewrite get_patient_run. subst db2. cbn [set_rows t_patients].
      by rewrite Hgone.
  - intros now j. rewrite (PatientCRUD_delete_db now j db Hdb). cbn [fst].
    destruct (first_row _) as [q|] eqn:E; [discriminate|].
    intros _ r Hr Hk.
    rewrite first_row_filter_None in E. specialize (E r Hr).
    rewrite <- Hk in E. erewrite has_pk_self in E by eauto. discriminate.
  - intros now j _ Hnone. apply get_db_run. rewrite PatientCRUD_delete_run.
    destruct (first_row _) as [q|] eqn:E; [|reflexivity].
    apply loaded_key in E as (Hq & Hk & _). by destruct (Hnone q Hq).
Qed.

Lemma deactivate_twice_witness :
  db_okb clinic = true
  /\ int64 1 = true
  /\ (exists p, In p (t_patients clinic) /\ pk p = VInt 1)
  /\ (exists db1 db2,
        get_db (PatientCRUD.delete t1 1) clinic = (Ok true, db1)
        /\ get_db (PatientCRUD.delete t2 1) db1 = (Ok true, db2)
        /\ (exists p, first_row (List.filter (has_pk (VInt 1)) (t_patients db2)) = Some p
                      /\ getattr p "is_active" = VBool false)
        /\ length (t_patients db2) = length (t_patients clinic)
        /\ get_db (PatientCRUD.get_by_id 1) db1 = (Ok None, db1)
        /\ get_db (PatientCRUD.get_by_id 1) db2 = (Ok None, db2)
        /\ get_db (Backend.get_patient t2 1) db2 = (Raise (Backend.not_found 1), db2))
  /\ get_db (PatientCRUD.delete t1 7) clinic = (Ok false, clinic).
Proof.
  assert (db_okb clinic = true) as H1 by (vm_compute; reflexivity).
  assert (int64 1 = true) as Hi by reflexivity.
  assert (exists p, In p (t_patients clinic) /\ pk p = VInt 1) as H2.
  { exists john. split; [left; reflexivity|reflexivity]. }
  destruct (deactivate_twice t1 t2 t2 1 clinic H1 Hi H2) as (H & _ & Hmiss).
  split; [exact H1|]. split; [exact Hi|]. split; [exact H2|]. split; [exact H|].
  apply Hmiss; [reflexivity|].
  intros p [<-|[<-|[]]]; discriminate.
Defined.

(** C5 as stated fails: after two deactivations, the direct lookup by id
    no longer returns the row, and the endpoint built on it answers 404. *)
Lemma deactivated_not_retrievable :
  let db1 := snd (get_db (PatientCRUD.delete t1 1) clinic) in
  let db2 := snd (get_db (PatientCRUD.delete t2 1) db1) in
  fst (get_db (PatientCRUD.delete t1 1) clinic) = Ok true
  /\ fst (get_db (PatientCRUD.delete t2 1) db1) = Ok true
  /\ fst (get_db (PatientCRUD.get_by_id 1) db2) = Ok None
  /\ fst (get_db (Backend.get_patient t2 1) db2)
     = Raise (HTTPException 404 "Patient #1 not found").
Proof. vm_compute. repeat split; reflexivity. Qed.

(** ** Attributes through the write path *)

Lemma getattr_empty k : getattr ∅ k = VNone.
Proof. reflexivity. Qed.

Lemma getattr_put_eq k o (m : kwargs) :
  getattr (put k o m) k = match o with Some v => v | None => getattr m k end.
Proof. destruct o; cbn [put]; [apply getattr_insert|done]. Qed.

Lemma getattr_put_ne k k' o (m : kwargs) :
  k <> k' -> getattr (put k o m) k' = getattr m k'.
Proof. intros. destruct o; cbn [put]; [by apply getattr_insert_ne|done]. Qed.

Ltac getattr_put :=
  repeat first [ rewrite getattr_put_ne by discriminate
               | rewrite getattr_put_eq
               | rewrite getattr_empty ].

Lemma getattr_parse_date_of_birth kw k :
  k <> "date_of_birth" -> getattr (parse_date_of_birth kw) k = getattr kw k.
Proof.
  intros Hk. unfold parse_date_of_birth.
  destruct (kw !! "date_of_birth") as [[]|]; try done.
  destruct (strptime s).
  - by rewrite getattr_insert_ne.
  - by rewrite getattr_delete_ne.
Qed.

Lemma getattr_assign_id l (r : row) k :
  k <> "id" -> getattr (assign_id l r) k = getattr r k.
Proof.
  intros. unfold assign_id. destruct (is_None (pk r)); [|done].
  by rewrite getattr_insert_ne.
Qed.

Lemma getattr_apply_defaults now t (r : row) k :
  is_None (getattr r k) = false -> getattr (apply_defaults now t r) k = getattr r k.
Proof.
  unfold apply_defaults. generalize (columns t). intros cs. revert r.
  induction cs as [|c cs IH]; intros r Hk; [done|]. cbn [fold_left].
  destruct (is_None (getattr r (cname c))) eqn:E; [|by apply IH].
  assert (cname c <> k) as Hne by (intros Heq; rewrite Heq in E; congruence).
  destruct (cdefault c); rewrite IH; rewrite ?getattr_insert_ne; done.
Qed.

Lemma with_email_clash e db :
  with_email e db <> [] ->
  existsb (fun o => sql_eq (getattr o "email") (VStr e)) (t_patients db) = true.
Proof.
  unfold with_email. intros H.
  destruct (List.filter _ _) as [|x l] eqn:E; [done|].
  assert (In x (List.filter (fun r => sql_eq (getattr r "email") (VStr e)) (t_patients db)))
    as Hx by (rewrite E; by left).
  apply filter_In in Hx as [Hx Hxe]. apply existsb_exists. eauto.
Qed.

(** The unique constraint at work: a row whose email is already carried by
    a patient row is refused by the INSERT. *)
Lemma insert_duplicate_email now db (r : row) e :
  getattr r "email" = VStr e -> with_email e db <> [] ->
  exists err, insert_row now db patients r = inl err.
Proof.
  intros He Hdup. unfold insert_row.
  set (r' := apply_defaults now patients _).
  assert (getattr r' "email" = VStr e) as He'.
  { subst r'. rewrite getattr_apply_defaults, getattr_assign_id; try done.
    by rewrite getattr_assign_id, He. }
  assert (row_ok db patients (rows db patients) r' = false) as ->; [|eauto].
  assert (unique_ok patients (rows db patients) r' = false) as Hu.
  { unfold unique_ok. cbn [unique_columns forallb rows].
    rewrite He', (with_email_clash _ _ Hdup). cbn [is_None negb orb andb].
    apply andb_false_r. }
  unfold row_ok. rewrite Hu. by rewrite andb_false_r.
Qed.

Lemma PatientCRUD_create_duplicate now kw db e :
  getattr (parse_date_of_birth kw) "email" = VStr e -> with_email e db <> [] ->
  exists err, PatientCRUD.create now kw (connect None db) = (Raise err, connect None db).
Proof.
  intros He Hdup. rewrite PatientCRUD_create_run.
  destruct (forallb _ _); [|eauto].
  destruct (insert_duplicate_email now db _ e He Hdup) as [err ->]. eauto.
Qed.

Lemma get_by_email_run e db :
  PatientCRUD.get_by_email e (connect None db)
  = (Ok (first_row (with_email e db)), connect None db).
Proof. reflexivity. Qed.

Lemma create_patient_duplicate now today data e db :
  PatientCreate.valid data = true -> PatientCreate.email data = Some e ->
  with_email e db <> [] ->
  exists detail,
    get_db (Backend.create_patient now today data) db
    = (Raise (HTTPException 400 detail), db).
Proof.
  intros Hv He Hdup. unfold Backend.create_patient. rewrite Hv, He. cbn [negb].
  destruct (truthy (VStr e)) eqn:Et.
  - destruct (with_email e db) as [|x l] eqn:E; [done|].
    eexists. apply get_db_run. unfold bind at 1. unfold bind at 1.
    rewrite get_by_email_run, E. reflexivity.
  - destruct (PatientCRUD_create_duplicate now (PatientCreate.model_dump data) db e)
      as [err Herr]; [|done|].
    + rewrite getattr_parse_date_of_birth by done.
      unfold PatientCreate.model_dump. getattr_put. by rewrite He.
    + exists (Backend.str err). apply get_db_run.
      unfold bind at 1. cbn [ret]. unfold try_except. unfold bind at 1.
      rewrite Herr. reflexivity.
Qed.

(** C4. In every state the store reaches, at most one patient row (active
    or not) carries a given email: registering a patient under an email
    some row already carries is answered with a client error (400) and
    changes nothing, and the INSERT of such a row is refused by the store
    itself, whatever the caller checked before. *)
Theorem email_unique_in_reachable_states url db :
  reachable url db ->
  (forall e, (length (with_email e db) <= 1)%nat)
  /\ (forall now today data e,
        PatientCreate.valid data = true -> PatientCreate.email data = Some e ->
        with_email e db <> [] ->
        exists detail,
          get_db (Backend.create_patient now today data) db
          = (Raise (HTTPException 400 detail), db))
  /\ (forall now kw e,
        getattr (parse_date_of_birth kw) "email" = VStr e ->
        with_email e db <> [] ->
        exists err, get_db (PatientCRUD.create now kw) db = (Raise err, db)).
Proof.
  intros Hr. repeat split.
  - intros e. apply reachable_ok in Hr.
    apply db_okb_spec with (t := patients) in Hr.
    apply table_okb_spec in Hr as [_ Hu]. apply uniqueb_count, Hu.
    right. left. reflexivity.
  - intros. by eapply create_patient_duplicate.
  - intros now kw e He Hdup.
    destruct (PatientCRUD_create_duplicate now kw db e He Hdup) as [err Herr].
    exists err. by apply get_db_run.
Qed.

Lemma email_unique_in_reachable_states_witness :
  let db := serve None t0 t0 (PostPatient john_form) (init_db default_DATABASE_URL) in
  reachable default_DATABASE_URL db
  /\ (forall e, (length (with_email e db) <= 1)%nat)
  /\ (exists detail,
        get_db (Backend.create_patient t1 t1 john_form) db
        = (Raise (HTTPException 400 detail), db)).
Proof.
  intros db.
  assert (reachable default_DATABASE_URL db) as Hr by apply reach_serve, reach_init.
  destruct (email_unique_in_reachable_states _ _ Hr) as (H1 & H2 & _).
  split; [exact Hr|]. split; [exact H1|].
  apply (H2 t1 t1 john_form "john.doe@x.com"); [reflexivity|reflexivity|].
  assert (length (with_email "john.doe@x.com" db) = 1%nat) as Hl
    by (vm_compute; reflexivity).
  intros Hnil. rewrite Hnil in Hl. discriminate Hl.
Defined.

(** ** Malformed birth dates at creation *)

Lemma getattr_apply_defaults_plain now t (r : row) k :
  (forall c, In c (columns t) -> cname c = k -> cdefault c = NoDefault) ->
  getattr (apply_defaults now t r) k = getattr r k.
Proof.
  unfold apply_defaults. generalize (columns t). intros cs. revert r.
  induction cs as [|c cs IH]; intros r Hk; [done|]. cbn [fold_left].
  rewrite IH by (intros; apply Hk; [by right|done]).
  destruct (is_None (getattr r (cname c))); [|done].
  destruct (cdefault c) eqn:Ed; [done| |].
  - rewrite getattr_insert_ne; [done|]. intros Heq.
    rewrite (Hk c (or_introl eq_refl) Heq) in Ed. discriminate.
  - rewrite getattr_insert_ne; [done|]. intros Heq.
    rewrite (Hk c (or_introl eq_refl) Heq) in Ed. discriminate.
Qed.

Lemma parse_date_of_birth_malformed kw s :
  kw !! "date_of_birth" = Some (VStr s) -> strptime s = None ->
  parse_date_of_birth kw = delete "date_of_birth" kw.
Proof. intros Hk Hs. unfold parse_date_of_birth. by rewrite Hk, Hs. Qed.

Lemma parse_date_of_birth_absent (kw : kwargs) :
  kw !! "date_of_birth" = None -> parse_date_of_birth kw = kw.
Proof. intros Hk. unfold parse_date_of_birth. by rewrite Hk. Qed.

Lemma create_patient_invalid now today data db :
  PatientCreate.valid data = false ->
  get_db (Backend.create_patient now today data) db
  = (Raise Backend.validation_error, db).
Proof. intros Hv. unfold Backend.create_patient. rewrite Hv. reflexivity. Qed.

Lemma storable_all (kw : kwargs) :
  forallb (fun kv => storable patients (fst kv) (snd kv)) (map_to_list kw) = true ->
  forall k v, kw !! k = Some v -> storable patients k v = true.
Proof.
  intros Hall k v Hkv. rewrite forallb_forall in Hall.
  apply (Hall (k, v)). apply list_elem_of_In. apply elem_of_map_to_list. exact Hkv.
Qed.

(** C1 (as amended). [PatientCRUD.create] does not reject a birth-date
    string (of ASCII characters) that is not a date: it drops the keyword
    and goes on exactly as if no birth date had been supplied, so on the
    default engine a row of column values that the database accepts is
    stored with a null [date_of_birth]. The rejection lives in the request
    schema: [POST /patients] answers such a body with a validation error
    (422) and writes nothing. *)
Theorem malformed_birth_date_dropped now kw s db p db' :
  sqlite db = true ->
  kw !! "date_of_birth" = Some (VStr s) ->
  isascii s = true ->
  strptime s = None ->
  (forall k v, delete "date_of_birth" kw !! k = Some v ->
               storable patients k v = true) ->
  insert_row now db patients (delete "date_of_birth" kw) = inr (p, db') ->
  PatientCRUD.create now kw = PatientCRUD.create now (delete "date_of_birth" kw)
  /\ get_db (PatientCRUD.create now kw) db = (Ok p, db')
  /\ In p (t_patients db')
  /\ getattr p "date_of_birth" = VNone
  /\ (forall today data,
        PatientCreate.date_of_birth data = Some s ->
        get_db (Backend.create_patient now today data) db
        = (Raise Backend.validation_error, db)).
Proof.
  intros _ Hk _ Hs Hst Hins.
  assert (forallb (fun kv => is_column patients (fst kv))
            (map_to_list (delete "date_of_birth" kw)) = true) as Hkeys.
  { apply forallb_forall. intros [k v] Hin. cbn [fst].
    apply list_elem_of_In, elem_of_map_to_list in Hin.
    specialize (Hst k v Hin). unfold storable in Hst.
    apply andb_true_iff in Hst as [Hcol _]. exact Hcol. }
  clear Hst.
  assert (PatientCRUD.create now kw = PatientCRUD.create now (delete "date_of_birth" kw))
    as Heq.
  { unfold PatientCRUD.create.
    rewrite (parse_date_of_birth_malformed kw s Hk Hs).
    rewrite parse_date_of_birth_absent by apply lookup_delete_eq. done. }
  split; [exact Heq|]. split; [|split; [|split]].
  - apply get_db_run. rewrite PatientCRUD_create_run.
    rewrite (parse_date_of_birth_malformed kw s Hk Hs), Hkeys, Hins. done.
  - apply insert_row_inv in Hins as (_ & _ & ->). cbn [set_rows t_patients rows].
    apply in_or_app. right. by left.
  - apply insert_row_inv in Hins as (-> & _ & _).
    rewrite getattr_apply_defaults_plain.
    + rewrite getattr_assign_id by done. apply getattr_delete.
    + by_column.
  - intros today data Hd. apply create_patient_invalid.
    unfold PatientCreate.valid. rewrite Hd. cbn [validate_dob]. rewrite Hs.
    by rewrite andb_false_r.
Qed.

Lemma malformed_birth_date_dropped_witness :
  let db := init_db default_DATABASE_URL in
  let kw := garbled_birth_date in
  exists p db',
    sqlite db = true
    /\ kw !! "date_of_birth" = Some (VStr "not-a-date")
    /\ isascii "not-a-date" = true
    /\ strptime "not-a-date" = None
    /\ get_db (PatientCRUD.create t0 kw) db = (Ok p, db')
    /\ In p (t_patients db')
    /\ getattr p "date_of_birth" = VNone
    /\ get_db (Backend.create_patient t0 t0 garbled_form) db
       = (Raise Backend.validation_error, db).
Proof.
  intros db kw.
  pose proof (insert_row_accepted t0 db patients (delete "date_of_birth" kw)) as E.
  set (p := apply_defaults t0 patients _) in E.
  set (db' := set_rows db patients _) in E.
  specialize (E ltac:(vm_compute; reflexivity)).
  assert (kw !! "date_of_birth" = Some (VStr "not-a-date")) as H1
    by (vm_compute; reflexivity).
  assert (strptime "not-a-date" = None) as H2 by (vm_compute; reflexivity).
  assert (forall k v, delete "date_of_birth" kw !! k = Some v ->
                      storable patients k v = true) as H3
    by (apply storable_all; vm_compute; reflexivity).
  assert (isascii "not-a-date" = true) as H4 by (vm_compute; reflexivity).
  assert (sqlite db = true) as H5 by (vm_compute; reflexivity).
  destruct (malformed_birth_date_dropped t0 kw "not-a-date" db p db' H5 H1 H4 H2 H3 E)
    as (_ & Hrun & Hin & Hnull & Hweb).
  exists p, db'.
  exact (conj H5 (conj H1 (conj H4 (conj H2 (conj Hrun (conj Hin (conj Hnull
           (Hweb t0 garbled_form eq_refl)))))))).
Defined.

(** C1 as stated fails: the store accepts the call, commits the row and
    returns it with no birth date. *)
Lemma malformed_birth_date_is_stored :
  strptime "not-a-date" = None
  /\ match get_db (PatientCRUD.create t0 garbled_birth_date)
                  (init_db default_DATABASE_URL) with
     | (Ok p, db') =>
         getattr p "first_name" = VStr "John"
         /\ getattr p "date_of_birth" = VNone
         /\ map (fun r => getattr r "id") (t_patients db') = [getattr p "id"]
         /\ map (fun r => getattr r "date_of_birth") (t_patients db') = [VNone]
     | (Raise _, _) => False
     end.
Proof. vm_compute. repeat split; reflexivity. Qed.

(** ** Flush and commit, whatever the connection does *)

Lemma execute_cases s :
  execute s = (Raise OperationalError, rollback s)
  \/ exists s', execute s = (Ok tt, s')
                /\ committed s' = committed s /\ working s' = working s
                /\ unflushed s' = unflushed s.
Proof.
  unfold execute. destruct (survives s) as [[|n]|]; [by left| |];
    right; eexists; split; try reflexivity; done.
Qed.

Lemma flush_items_spec now ps s :
  match flush_items now ps s with
  | (Ok rs, s') =>
      apply_writes now ps (working s) = inr (rs, working s')
      /\ committed s' = committed s /\ unflushed s' = unflushed s
  | (Raise e, s') =>
      committed s' = committed s /\ working s' = committed s /\ unflushed s' = []
  end.
Proof.
  revert s. induction ps as [|p ps IH]; intros s; [done|].
  cbn [flush_items apply_writes]. unfold bind at 1.
  destruct (execute_cases s) as [->|(s1 & -> & Hc1 & Hw1 & Hu1)]; [done|].
  unfold bind at 1. rewrite Hw1.
  destruct (write now p (working s)) as [e|[r db']] eqn:Ew.
  - cbn [rollback committed working unflushed]. by rewrite Hc1.
  - unfold bind at 1.
    specialize (IH (mkSession (committed s1) db' (unflushed s1) (survives s1))).
    destruct (flush_items now ps _) as [[rs|e] s2]; cbn [committed working unflushed] in IH.
    + destruct IH as (-> & Hc2 & Hu2). cbn [ret]. by rewrite Hc2, Hu2, Hc1, Hu1.
    + destruct IH as (Hc2 & Hw2 & Hu2). by rewrite Hc2, Hw2, Hc1.
Qed.

Lemma commit_spec now s :
  match commit now s with
  | (Ok rs, s') =>
      apply_writes now (unflushed s) (working s) = inr (rs, committed s')
      /\ working s' = committed s' /\ unflushed s' = []
  | (Raise e, s') => committed s' = committed s /\ working s' = committed s
  end.
Proof.
  unfold commit. unfold bind at 1. unfold flush.
  pose proof (flush_items_spec now (unflushed s)
                (mkSession (committed s) (working s) [] (survives s))) as H.
  destruct (flush_items now _ _) as [[rs|e] s1]; cbn [committed working unflushed] in H.
  - destruct H as (Hw & Hc1 & Hu1). unfold bind at 1.
    destruct (execute_cases s1) as [->|(s2 & -> & Hc2 & Hw2 & Hu2)].
    + cbn [rollback committed working]. by rewrite Hc1.
    + cbn [bind ret committed working unflushed]. by rewrite Hw2, Hu2, Hu1.
  - by destruct H as (? & ? & _).
Qed.

Lemma refresh_spec t r s :
  match refresh t r s with
  | (res, s') =>
      (res = Raise OperationalError /\ committed s' = committed s)
      \/ (committed s' = committed s /\ working s' = working s
          /\ res = match find (has_pk (pk r)) (rows (working s) t) with
                   | Some r' => Ok r'
                   | None => Raise InvalidRequestError
                   end)
  end.
Proof.
  unfold refresh, query. unfold bind at 1. unfold bind at 1.
  destruct (execute_cases s) as [->|(s1 & -> & Hc1 & Hw1 & Hu1)]; [by left|].
  cbv beta iota. rewrite Hw1.
  destruct (find _ _); cbn [ret raise]; right; done.
Qed.


(** ** The symptom rows of a consultation *)



Lemma set_rows_twice db t a b : set_rows (set_rows db t a) t b = set_rows db t b.
Proof. destruct t; reflexivity. Qed.








(** ** Referential integrity on the default engine *)

(** C3 fails on the code: with the default [DATABASE_URL] (SQLite, whose
    connections are opened without enabling foreign keys) a consultation
    for patient id 42, which no patient row carries, is committed together
    with its symptom row and returned. *)
Theorem consultation_for_missing_patient_is_stored :
  database_url clinic = default_DATABASE_URL
  /\ foreign_keys_enforced (database_url clinic) = false
  /\ map (fun r => getattr r "id") (t_patients clinic) = [VInt 1; VInt 2]
  /\ match get_db (ConsultationCRUD.create t1 42 ["cough"] moderate) clinic with
     | (Ok c, db') =>
         getattr c "patient_id" = VInt 42
         /\ map (fun r => getattr r "patient_id") (t_consultations db')
            = [VInt 1; VInt 42]
         /\ map (fun r => (getattr r "consultation_id", getattr r "symptom_name"))
                (t_symptoms db')
            = [(VInt 1, VStr "cough"); (getattr c "id", VStr "cough")]
     | (Raise _, _) => False
     end.
Proof. vm_compute. repeat split; reflexivity. Qed.

(** ** Search patterns *)

(** C9 fails on the code: the search text is pasted into the LIKE pattern
    unescaped, so the texts [%] and [_], which pass the endpoint's length
    check and occur in no field of any patient, match every active patient. *)
Theorem search_wildcards_match_everyone :
  map (fun r => getattr r "id") (t_patients clinic) = [VInt 1; VInt 2]
  /\ map (spec_matches "%") (t_patients clinic) = [false; false]
  /\ map (spec_matches "_") (t_patients clinic) = [false; false]
  /\ match fst (get_db (PatientCRUD.search "%") clinic) with
     | Ok found => map (fun r => getattr r "id") found = [VInt 1; VInt 2]
     | Raise _ => False
     end
  /\ match fst (get_db (PatientCRUD.search "_") clinic) with
     | Ok found => map (fun r => getattr r "id") found = [VInt 1; VInt 2]
     | Raise _ => False
     end
  /\ match fst (get_db (Backend.search_patients t1 "%") clinic) with
     | Ok results => map (fun d => d !! "id") results = [Some (VInt 1); Some (VInt 2)]
     | Raise _ => False
     end.
Proof. vm_compute. repeat split; reflexivity. Qed.

(** ** Text accepted by [strptime] is ASCII *)

Lemma match_seq_app cs s m rest :
  match_seq cs s = Some (m, rest) ->
  s = m ++ rest /\ Forall2 (fun (p : cls) c => p c = true) cs m.
Proof.
  revert s m rest. induction cs as [|a cs IH]; intros s m rest; cbn [match_seq].
  - intros [= <- <-]. split; [reflexivity|constructor].
  - destruct s as [|c s']; [discriminate|]. destruct (a c) eqn:Ea; [|discriminate].
    destruct (match_seq cs s') as [[m' r']|] eqn:E; [|discriminate].
    intros [= <- <-]. destruct (IH _ _ _ E) as [-> HF].
    split; [reflexivity|by constructor].
Qed.

Lemma first_alt_some {A} alts s k (r : A) :
  first_alt alts s k = Some r ->
  exists a m rest, In a alts /\ match_seq a s = Some (m, rest) /\ k m rest = Some r.
Proof.
  induction alts as [|a alts IH]; cbn [first_alt]; [discriminate|].
  destruct (match_seq a s) as [[m rest]|] eqn:E.
  - destruct (k m rest) as [r'|] eqn:Ek.
    + intros [= <-]. exists a, m, rest. repeat split; [by left|done..].
    + intros (a' & m' & rest' & Hin & H)%IH. exists a', m', rest'.
      split; [by right|done].
  - intros (a' & m' & rest' & Hin & H)%IH. exists a', m', rest'.
    split; [by right|done].
Qed.

Lemma between_ascii lo hi c :
  (code hi <? 128)%Z = true -> between lo hi c = true -> (code c <? 128)%Z = true.
Proof.
  unfold between. intros Hhi [_ Hc]%andb_true_iff.
  apply Z.ltb_lt in Hhi. apply Z.leb_le in Hc. apply Z.ltb_lt. lia.
Qed.

Lemma matched_ascii cs m :
  Forall (fun p : cls => forall c, p c = true -> (code c <? 128)%Z = true) cs ->
  Forall2 (fun (p : cls) c => p c = true) cs m ->
  forallb (fun c => (code c <? 128)%Z) m = true.
Proof.
  intros Hcs HF. induction HF as [|p c cs m Hp HF IH]; [reflexivity|].
  apply Forall_cons in Hcs as [Hc Hcs]. cbn [forallb].
  by rewrite (Hc c Hp), IH.
Qed.

Lemma re_alt_ascii alts a s m rest :
  alts = re_m \/ alts = re_d \/ alts = [re_Y] ->
  In a alts -> match_seq a s = Some (m, rest) ->
  s = m ++ rest /\ forallb (fun c => (code c <? 128)%Z) m = true.
Proof.
  intros Halts Hin [-> HF]%match_seq_app. split; [reflexivity|].
  apply (matched_ascii a); [|exact HF].
  destruct Halts as [ -> | [ -> | -> ] ]; cbn [re_m re_d re_Y In] in Hin;
    repeat (destruct Hin as [<-|Hin]; [|]); try destruct Hin;
    repeat match goal with |- Forall _ _ => constructor end;
    intros c; by apply between_ascii.
Qed.

Lemma expect_some c s r : expect c s = Some r -> s = c :: r.
Proof.
  unfold expect. destruct s as [|c' s']; [discriminate|].
  destruct (Ascii.eqb c c') eqn:E; [|discriminate].
  apply Ascii.eqb_eq in E as <-. by intros [= <-].
Qed.

Lemma strptime_isascii s d : strptime s = Some d -> isascii s = true.
Proof.
  unfold strptime, isascii.
  destruct (re_match (list_ascii_of_string s)) as [[[[y m] dd] rest]|] eqn:E;
    [|discriminate].
  destruct rest; [|discriminate]. intros _.
  unfold re_match in E.
  destruct (match_seq re_Y (list_ascii_of_string s)) as [[y' r1]|] eqn:Ey;
    [|discriminate].
  destruct (re_alt_ascii [re_Y] re_Y _ _ _ ltac:(auto) ltac:(by left) Ey) as [-> Hy].
  destruct (expect "-" r1) as [r2|] eqn:E1; [|discriminate].
  apply expect_some in E1 as ->.
  apply first_alt_some in E as (a & m' & r3 & Ha & Hm & Hk).
  destruct (re_alt_ascii re_m a _ _ _ ltac:(auto) Ha Hm) as [-> Hm'].
  destruct (expect "-" r3) as [r4|] eqn:E3; [|discriminate].
  apply expect_some in E3 as ->.
  apply first_alt_some in Hk as (b & d' & r5 & Hb & Hd & [= _ _ _ ->]).
  destruct (re_alt_ascii re_d b _ _ _ ltac:(auto) Hb Hd) as [-> Hd'].
  do 3 (rewrite forallb_app; cbn [forallb]). rewrite Hy, Hm', Hd'. reflexivity.
Qed.

(** ** The assignment loop of [PatientCRUD.update] *)

Lemma assigned_getattr (p : row) (kw : kwargs) k :
  getattr (assigned p kw) k =
  match kw !! k with
  | Some v => if is_column patients k && negb (is_None v) then v else getattr p k
  | None => getattr p k
  end.
Proof.
  unfold assigned. revert k.
  apply (map_fold_weak_ind
           (fun (r : row) (m : kwargs) =>
              forall k, getattr r k =
                        match m !! k with
                        | Some v =>
                            if is_column patients k && negb (is_None v) then v
                            else getattr p k
                        | None => getattr p k
                        end)).
  - intros k. by rewrite lookup_empty.
  - intros i x m r Hi IH k. rewrite lookup_insert.
    destruct (decide (i = k)) as [<-|Hne].
    + destruct (is_column patients i && negb (is_None x)).
      * apply getattr_insert.
      * rewrite IH, Hi. done.
    + destruct (is_column patients i && negb (is_None x)).
      * rewrite getattr_insert_ne by done. apply IH.
      * apply IH.
Qed.

Lemma assigned_keys (p : row) (kw : kwargs) k v :
  assigned p kw !! k = Some v ->
  is_Some (p !! k) \/ is_column patients k = true.
Proof.
  unfold assigned. revert k v.
  apply (map_fold_weak_ind
           (fun (r : row) (m : kwargs) =>
              forall k v, r !! k = Some v ->
                          is_Some (p !! k) \/ is_column patients k = true)).
  - intros k v Hk. left. eauto.
  - intros i x m r Hi IH k v.
    destruct (is_column patients i && negb (is_None x)) eqn:E; [|apply IH].
    rewrite lookup_insert. destruct (decide (i = k)) as [<-|Hne]; [|apply IH].
    intros _. right. by apply andb_true_iff in E as [? _].
Qed.

Lemma updated_getattr now (p : row) (kw : kwargs) k :
  k <> "updated_at" ->
  getattr (updated now p kw) k =
  match parse_date_of_birth kw !! k with
  | Some v => if is_column patients k && negb (is_None v) then v else getattr p k
  | None => getattr p k
  end.
Proof.
  intros Hk. unfold updated. rewrite getattr_insert_ne by done. apply assigned_getattr.
Qed.

Lemma parse_date_of_birth_lookup_ne kw k :
  k <> "date_of_birth" -> parse_date_of_birth kw !! k = kw !! k.
Proof.
  intros Hk. unfold parse_date_of_birth.
  destruct (kw !! "date_of_birth") as [[]|]; try done.
  destruct (strptime s).
  - by rewrite lookup_insert_ne.
  - by rewrite lookup_delete_ne.
Qed.



(** No column that holds a value is cleared. *)
Lemma updated_never_clears now (p : row) (kw : kwargs) k :
  is_None (getattr p k) = false -> is_None (getattr (updated now p kw) k) = false.
Proof.
  intros Hp. destruct (decide (k = "updated_at")) as [->|Hne].
  - unfold updated. by rewrite getattr_insert.
  - rewrite updated_getattr by done.
    destruct (parse_date_of_birth kw !! k) as [v|]; [|done].
    destruct (is_column patients k); cbn [andb]; [|done].
    destruct (is_None v) eqn:Ev; cbn [negb]; done.
Qed.

(** A supplied value other than [None], under a column name, is assigned. *)
Lemma updated_assigns now (p : row) (kw : kwargs) k v :
  parse_date_of_birth kw !! k = Some v -> is_None v = false ->
  is_column patients k = true -> k <> "updated_at" ->
  getattr (updated now p kw) k = v.
Proof.
  intros Hk Hv Hc Hne. rewrite updated_getattr by done. by rewrite Hk, Hc, Hv.
Qed.


(** The loop of [update] raises when a keyword names the relationship with
    a value, and makes the column assignments otherwise. *)
Lemma assign_assigned (p : row) (kw : kwargs) :
  PatientCRUD.assign p kw =
  match kw !! "consultations" with
  | Some v => if is_None v then inr (assigned p kw) else inl TypeError
  | None => inr (assigned p kw)
  end.
Proof.
  unfold PatientCRUD.assign, assigned.
  induction kw as [|i x m Hi Hfirst IH] using map_first_key_ind.
  - rewrite !map_fold_empty, lookup_empty. reflexivity.
  - rewrite !(map_fold_insert_first_key _ _ _ _ _ Hi Hfirst), IH. clear IH.
    destruct (decide (i = "consultations")) as [->|Hne].
    + rewrite lookup_insert_eq, Hi.
      change (PatientCRUD.hasattr "consultations") with true.
      change (is_column patients "consultations") with false.
      cbn [andb]. destruct (is_None x); reflexivity.
    + rewrite lookup_insert_ne by done.
      assert (PatientCRUD.setattr (map_fold
                (fun key v p0 =>
                   if is_column patients key && negb (is_None v)
                   then <[key := v]> p0 else p0) p m) i x
              = inr (if is_column patients i
                     then <[i := x]> (map_fold
                            (fun key v p0 =>
                               if is_column patients key && negb (is_None v)
                               then <[key := v]> p0 else p0) p m)
                     else map_fold
                            (fun key v p0 =>
                               if is_column patients key && negb (is_None v)
                               then <[key := v]> p0 else p0) p m)) as Hset.
      { unfold PatientCRUD.setattr. destruct (is_column patients i); [reflexivity|].
        unfold PatientCRUD.relationships. cbn [existsb].
        apply String.eqb_neq in Hne. rewrite Hne. reflexivity. }
      assert (is_column patients i = true -> PatientCRUD.hasattr i = true) as Hcol.
      { intros H. unfold PatientCRUD.hasattr. rewrite H. reflexivity. }
      destruct (m !! "consultations") as [v|].
      * destruct (is_None v); [|reflexivity].
        destruct (is_column patients i) eqn:Ec.
        -- rewrite (Hcol eq_refl). cbn [andb].
           destruct (is_None x); cbn [negb]; [reflexivity|]. rewrite Hset. reflexivity.
        -- cbn [andb]. destruct (PatientCRUD.hasattr i && negb (is_None x));
             [rewrite Hset|]; reflexivity.
      * destruct (is_column patients i) eqn:Ec.
        -- rewrite (Hcol eq_refl). cbn [andb].
           destruct (is_None x); cbn [negb]; [reflexivity|]. rewrite Hset. reflexivity.
        -- cbn [andb]. destruct (PatientCRUD.hasattr i && negb (is_None x));
             [rewrite Hset|]; reflexivity.
Qed.

Lemma assign_columns (p : row) (kw : kwargs) :
  kw !! "consultations" = None -> PatientCRUD.assign p kw = inr (assigned p kw).
Proof. intros H. by rewrite assign_assigned, H. Qed.

Lemma PatientCRUD_update_db now i kw db p :
  first_row (List.filter (has_pk (VInt i)) (t_patients db)) = Some p ->
  kw !! "consultations" = None ->
  get_db (PatientCRUD.update now i kw) db =
  match update_row db patients (VInt i) (updated now p kw) with
  | inr db' => (Ok (Some (updated now p kw)), db')
  | inl e => (Raise e, db)
  end.
Proof.
  intros Hp Hrel. unfold get_db, get_db_on. rewrite PatientCRUD_update_run, Hp.
  rewrite assign_columns by (by rewrite parse_date_of_birth_lookup_ne).
  cbn zeta. fold (updated now p kw).
  destruct (update_row db patients (VInt i) (updated now p kw)); reflexivity.
Qed.

(** ** Updating through the store: [PatientCRUD.update] *)


Lemma updated_not_null now (p : row) kw :
  not_null_ok patients p = true -> not_null_ok patients (updated now p kw) = true.
Proof.
  unfold not_null_ok. rewrite !forallb_forall. intros H c Hc.
  specialize (H c Hc). destruct (nullable c); [done|]. cbn [orb] in *.
  apply negb_true_iff in H. apply negb_true_iff. by apply updated_never_clears.
Qed.

Lemma stores_binds ty v : stores ty v = true -> binds ty v = true.
Proof. destruct v, ty; cbn [stores binds]; congruence. Qed.


Lemma storable_stores k v c :
  storable patients k v = true -> In c (columns patients) -> cname c = k ->
  stores (ctype c) v = true
  \/ (k = "date_of_birth" /\ exists s, v = VStr s /\ isascii s = true).
Proof.
  unfold storable. intros [_ H]%andb_true_iff Hc Hk.
  rewrite forallb_forall in H. specialize (H c Hc).
  rewrite Hk, String.eqb_refl in H. cbn [negb orb] in H.
  apply orb_true_iff in H as [H|H]; [by left|right].
  apply andb_true_iff in H as [Hd Hv]. apply String.eqb_eq in Hd.
  split; [done|]. destruct v; try discriminate Hv. eauto.
Qed.

Lemma date_of_birth_column c :
  In c (columns patients) -> cname c = "date_of_birth" -> ctype c = DateTime.
Proof. revert c. by_column. Qed.

Lemma updated_at_column c :
  In c (columns patients) -> cname c = "updated_at" -> ctype c = DateTime.
Proof. revert c. by_column. Qed.

(** After the birth date is parsed, every keyword binds to its column. *)
Lemma parsed_binds (kw : kwargs) c v :
  (forall k v, kw !! k = Some v -> storable patients k v = true) ->
  In c (columns patients) ->
  parse_date_of_birth kw !! cname c = Some v -> binds (ctype c) v = true.
Proof.
  intros Hkw Hc. destruct (decide (cname c = "date_of_birth")) as [Hd|Hd].
  - rewrite Hd, (date_of_birth_column c Hc Hd). unfold parse_date_of_birth.
    destruct (kw !! "date_of_birth") as [v0|] eqn:E.
    + assert (forall x, kw !! "date_of_birth" = Some x -> is_str x = false ->
                        binds DateTime x = true) as Hother.
      { intros x Hx Hs.
        destruct (storable_stores _ _ c (Hkw _ _ Hx) Hc Hd) as [H|(_ & s & -> & _)];
          [|discriminate Hs].
        rewrite (date_of_birth_column c Hc Hd) in H. by apply stores_binds. }
      destruct v0 as [| | | |s|]; try (rewrite E; intros [= <-]; by apply Hother).
      destruct (strptime s).
      * rewrite lookup_insert_eq. by intros [= <-].
      * rewrite lookup_delete_eq. discriminate.
    + rewrite E. discriminate.
  - rewrite parse_date_of_birth_lookup_ne by done. intros Hv.
    destruct (storable_stores _ _ c (Hkw _ _ Hv) Hc eq_refl) as [H|(Heq & _)];
      [by apply stores_binds|by destruct Hd].
Qed.

Lemma updated_well_typed now (p : row) (kw : kwargs) :
  well_typed patients p = true ->
  (forall k v, kw !! k = Some v -> storable patients k v = true) ->
  well_typed patients (updated now p kw) = true.
Proof.
  rewrite !well_typed_spec. intros [Hb Hk] Hkw. split.
  - intros c Hc. destruct (decide (cname c = "updated_at")) as [Heq|Hne].
    + unfold updated. rewrite Heq, getattr_insert.
      by rewrite (updated_at_column c Hc Heq).
    + rewrite updated_getattr by done.
      destruct (parse_date_of_birth _ !! cname c) as [v|] eqn:E; [|auto].
      destruct (is_column patients (cname c) && negb (is_None v)); [|auto].
      by apply (parsed_binds kw c v).
  - intros k v. unfold updated. rewrite lookup_insert.
    destruct (decide ("updated_at" = k)) as [<-|_]; [done|].
    intros [[x Hx]|Hcol]%assigned_keys; eauto.
Qed.






(** ** Partial updates through [PUT /patients/{patient_id}] *)

Lemma lookup_put_eq k o (m : kwargs) :
  put k o m !! k = match o with Some v => Some v | None => m !! k end.
Proof. destruct o; cbn [put]; [apply lookup_insert_eq|done]. Qed.

Lemma lookup_put_ne k k' o (m : kwargs) : k <> k' -> put k o m !! k' = m !! k'.
Proof. intros. destruct o; cbn [put]; [by apply lookup_insert_ne|done]. Qed.

Ltac lookup_put :=
  repeat first [ rewrite lookup_put_ne by discriminate
               | rewrite lookup_put_eq ];
  rewrite ?lookup_empty.

Lemma model_dump_date_of_birth data :
  PatientUpdate.model_dump data !! "date_of_birth"
  = VStr <$> PatientUpdate.date_of_birth data.
Proof.
  unfold PatientUpdate.model_dump. lookup_put.
  by destruct (PatientUpdate.date_of_birth data).
Qed.

(** The fields of a partial update are columns and hold values. *)
Lemma model_dump_present data k v :
  PatientUpdate.model_dump data !! k = Some v ->
  is_column patients k = true /\ is_None v = false
  /\ k <> "id" /\ k <> "updated_at".
Proof.
  unfold PatientUpdate.model_dump.
  repeat (match goal with
          | |- put ?k' _ _ !! k = Some v -> _ =>
              destruct (decide (k' = k)) as [<-|];
              [rewrite lookup_put_eq;
               match goal with
               | |- context [fmap _ (?f data)] => destruct (f data)
               end; cbn [fmap option_fmap option_map];
               [intros [= <-]; done|]
              |rewrite lookup_put_ne by done]
          end); lookup_put; try discriminate.
Qed.

(** Every field of a valid partial update is one its column stores. *)
Lemma model_dump_storable data k v :
  PatientUpdate.valid data = true ->
  PatientUpdate.model_dump data !! k = Some v -> storable patients k v = true.
Proof.
  intros Hv.
  assert (forall s, PatientUpdate.date_of_birth data = Some s ->
                    storable patients "date_of_birth" (VStr s) = true) as Hdate.
  { intros s Hs. unfold PatientUpdate.valid in Hv. rewrite Hs in Hv.
    repeat (apply andb_true_iff in Hv as [Hv _]). cbn [validate_dob] in Hv.
    destruct (strptime s) as [d|] eqn:E; [|discriminate Hv].
    apply strptime_isascii in E.
    unfold storable. apply andb_true_iff. split; [reflexivity|].
    cbn [columns forallb cname ctype]. rewrite E. reflexivity. }
  assert (forall z, PatientUpdate.age data = Some z ->
                    storable patients "age" (VInt z) = true) as Hage.
  { intros z Hz. unfold PatientUpdate.valid in Hv. rewrite Hz in Hv.
    apply andb_true_iff in Hv as [Hv _]. apply andb_true_iff in Hv as [Hv _].
    apply andb_true_iff in Hv as [_ Hv].
    cbn [fmap option_fmap option_map in_range] in Hv.
    apply andb_true_iff in Hv as [H1 H2].
    unfold Qle_bool in H1, H2. cbn [Qnum Qden inject_Z] in H1, H2.
    apply Z.leb_le in H1, H2.
    assert (int64 z = true) as Hi.
    { unfold int64. apply andb_true_iff. split; [apply Z.leb_le|apply Z.ltb_lt]; lia. }
    unfold storable. apply andb_true_iff. split; [reflexivity|].
    cbn [columns forallb cname ctype stores]. rewrite Hi. reflexivity. }
  clear Hv. revert Hdate Hage. unfold PatientUpdate.model_dump.
  repeat (match goal with
          | |- _ -> _ -> put ?k' _ _ !! k = Some v -> _ =>
              destruct (decide (k' = k)) as [<-|];
              [rewrite lookup_put_eq;
               match goal with
               | |- context [fmap _ (?f data)] => destruct (f data)
               end; cbn [fmap option_fmap option_map];
               [intros Hdate Hage [= <-];
                match goal with
                | |- storable _ "date_of_birth" _ = _ => apply Hdate; reflexivity
                | |- storable _ "age" _ = _ => apply Hage; reflexivity
                | |- _ => reflexivity
                end|]
              |rewrite lookup_put_ne by done]
          end); lookup_put; intros _ _ Hx; discriminate Hx.
Qed.

Lemma to_dict_run today (p : row) db :
  Backend.to_dict today p (connect None db)
  = (Ok (Patient.to_dict today p
           (List.filter (fun c => sql_eq (getattr c "patient_id") (pk p))
                        (t_consultations db))),
     connect None db).
Proof. reflexivity. Qed.

Lemma update_patient_run now today i data db :
  PatientUpdate.valid data = true ->
  get_db (Backend.update_patient now today i data) db =
  match get_db (PatientCRUD.update now i (PatientUpdate.model_dump data)) db with
  | (Ok (Some p'), db') =>
      (Ok (Patient.to_dict today p'
             (List.filter (fun c => sql_eq (getattr c "patient_id") (pk p'))
                          (t_consultations db'))), db')
  | (Ok None, db') => (Raise (Backend.not_found i), db')
  | (Raise e, db') => (Raise e, db')
  end.
Proof.
  intros Hv. unfold Backend.update_patient. rewrite Hv. cbn [negb].
  unfold get_db, get_db_on. unfold bind at 1.
  rewrite PatientCRUD_update_run.
  destruct (first_row _) as [p|]; [|reflexivity].
  destruct (PatientCRUD.assign p _) as [e|a]; [reflexivity|]. cbn zeta.
  destruct (update_row db patients (VInt i) _) as [e|db']; reflexivity.
Qed.

Lemma model_dump_no_relationship data :
  PatientUpdate.model_dump data !! "consultations" = None.
Proof. unfold PatientUpdate.model_dump. by lookup_put. Qed.

(** A patient row whose email another row carries is refused. *)
Lemma update_row_refused_email db (p' : row) i e :
  well_typed patients p' = true ->
  getattr p' "email" = VStr e ->
  existsb (fun o => sql_eq (getattr o "email") (VStr e))
          (List.filter (fun o => negb (has_pk (VInt i) o)) (t_patients db)) = true ->
  update_row db patients (VInt i) p' = inl IntegrityError.
Proof.
  intros Hty He Hex. unfold update_row. cbn [rows].
  assert (row_ok db patients
            (List.filter (fun o => negb (has_pk (VInt i) o)) (t_patients db)) p' = false)
    as ->.
  { unfold row_ok, unique_ok. cbn [unique_columns forallb]. rewrite He, Hex.
    cbn [is_None negb orb]. by rewrite !andb_false_r. }
  cbn [andb]. unfold refusal. by rewrite Hty.
Qed.

(** C7 (as amended). On the default engine, in a consistent database, for
    a valid partial update of an existing patient, active or not:
    when no other patient row carries the email the update sets (if it sets
    one), [PatientCRUD.update] and [PUT /patients/{id}] commit a row in which
    each field present in the update holds the supplied value (the birth
    date as the parsed date), every column absent from the update is as
    before, and [updated_at] is the time of the call, the other rows being
    untouched; when another row carries that email the write is refused
    and nothing is changed. The endpoint answers "not found" only when no
    row carries the id (and then it does). *)
Theorem update_patient_applies_present_fields now today i data db :
  db_okb db = true ->
  sqlite db = true ->
  int64 i = true ->
  PatientUpdate.valid data = true ->
  (forall p,
     first_row (List.filter (has_pk (VInt i)) (t_patients db)) = Some p ->
     let p' := updated now p (PatientUpdate.model_dump data) in
     let others := List.filter (fun o => negb (has_pk (VInt i) o)) (t_patients db) in
     let db' := set_rows db patients
                  (map (fun o => if has_pk (VInt i) o then p' else o) (t_patients db)) in
     ((forall e, PatientUpdate.email data = Some e ->
                 existsb (fun o => sql_eq (getattr o "email") (VStr e)) others = false) ->
      get_db (PatientCRUD.update now i (PatientUpdate.model_dump data)) db
      = (Ok (Some p'), db')
      /\ snd (get_db (Backend.update_patient now today i data) db) = db')
     /\ (forall e, PatientUpdate.email data = Some e ->
                   existsb (fun o => sql_eq (getattr o "email") (VStr e)) others = true ->
                   get_db (Backend.update_patient now today i data) db
                   = (Raise IntegrityError, db))
     /\ (forall k v, PatientUpdate.model_dump data !! k = Some v ->
                     k <> "date_of_birth" -> getattr p' k = v)
     /\ (forall s, PatientUpdate.date_of_birth data = Some s ->
                   exists d, strptime s = Some d
                             /\ getattr p' "date_of_birth" = VDateTime d)
     /\ (forall k, PatientUpdate.model_dump data !! k = None ->
                   k <> "updated_at" -> getattr p' k = getattr p k)
     /\ getattr p' "updated_at" = VDateTime now
     /\ fst (get_db (Backend.update_patient now today i data) db)
        <> Raise (Backend.not_found i))
  /\ (first_row (List.filter (has_pk (VInt i)) (t_patients db)) = None ->
      get_db (Backend.update_patient now today i data) db
      = (Raise (Backend.not_found i), db)).
Proof.
  intros Hdb Hs _ Hv. split.
  - intros p Hp p' others db'.
    destruct (loaded_row_ok _ _ _ Hdb Hp) as (Hin & Hpk & Hty & Hnn & _).
    pose proof (model_dump_no_relationship data) as Hrel.
    assert (forall k, PatientUpdate.model_dump data !! k = None ->
                      k <> "updated_at" -> getattr p' k = getattr p k) as Habsent.
    { intros k Hk Hne. subst p'. rewrite updated_getattr by done.
      destruct (decide (k = "date_of_birth")) as [->|Hnd].
      - unfold parse_date_of_birth. by rewrite Hk, Hk.
      - by rewrite parse_date_of_birth_lookup_ne, Hk. }
    assert (forall k v, PatientUpdate.model_dump data !! k = Some v ->
                        k <> "date_of_birth" -> getattr p' k = v) as Hpresent.
    { intros k v Hk Hnd.
      destruct (model_dump_present data k v Hk) as (Hcol & Hval & _ & Hnu).
      subst p'. apply updated_assigns; try done.
      by rewrite parse_date_of_birth_lookup_ne. }
    assert (well_typed patients p' = true) as Hty'.
    { apply updated_well_typed; [done|]. intros k v. by apply model_dump_storable. }
    assert (getattr p' "email"
            = match PatientUpdate.email data with
              | Some e => VStr e
              | None => getattr p "email"
              end) as Hemail.
    { destruct (PatientUpdate.email data) as [e|] eqn:He.
      - apply Hpresent; [|done]. unfold PatientUpdate.model_dump. lookup_put.
        by rewrite He.
      - apply Habsent; [|done]. unfold PatientUpdate.model_dump. lookup_put.
        by rewrite He. }
    split; [|split; [|split; [exact Hpresent|split; [|split; [exact Habsent|split]]]]].
    + intros Hfree.
      assert (get_db (PatientCRUD.update now i (PatientUpdate.model_dump data)) db
              = (Ok (Some p'), db')) as Hrun.
      { rewrite (PatientCRUD_update_db now i _ db p Hp Hrel). fold p'.
        rewrite (update_row_accepts_email db p p' i Hdb Hin Hpk); try done.
        - by apply updated_not_null.
        - apply Habsent; [|done]. unfold PatientUpdate.model_dump. by lookup_put.
        - rewrite Hemail. destruct (PatientUpdate.email data) as [e|] eqn:He.
          + by apply Hfree.
          + apply same_key_no_clash; try done.
            apply db_okb_spec with (t := patients) in Hdb.
            apply table_okb_spec in Hdb as [_ Hu]. apply Hu. right. by left. }
      split; [exact Hrun|].
      rewrite (update_patient_run now today i data db Hv), Hrun. reflexivity.
    + intros e He Htaken.
      rewrite (update_patient_run now today i data db Hv).
      rewrite (PatientCRUD_update_db now i _ db p Hp Hrel). fold p'.
      rewrite (update_row_refused_email db p' i e); try done.
      by rewrite Hemail, He.
    + intros s Hsd.
      assert (validate_dob (Some s) = true) as Hvd.
      { unfold PatientUpdate.valid in Hv. rewrite Hsd in Hv.
        by repeat (apply andb_true_iff in Hv as [Hv ?]). }
      cbn [validate_dob] in Hvd. destruct (strptime s) as [d|] eqn:Ed; [|discriminate].
      exists d. split; [done|]. subst p'. apply updated_assigns; try done.
      unfold parse_date_of_birth. rewrite model_dump_date_of_birth, Hsd.
      cbn [fmap option_fmap option_map]. rewrite Ed. apply lookup_insert_eq.
    + subst p'. unfold updated. apply getattr_insert.
    + rewrite (update_patient_run now today i data db Hv).
      rewrite (PatientCRUD_update_db now i _ db p Hp Hrel).
      destruct (update_row db patients (VInt i) _) as [e|db''] eqn:E; [|discriminate].
      cbn [fst]. unfold update_row in E.
      destruct (_ && _) in E; [discriminate|]. injection E as <-.
      unfold refusal, Backend.not_found. fold p'. rewrite Hty'.
      intros Hx. discriminate Hx.
  - intros Hnone. rewrite (update_patient_run now today i data db Hv).
    unfold get_db, get_db_on. by rewrite PatientCRUD_update_run, Hnone.
Qed.

Lemma update_patient_applies_present_fields_witness :
  db_okb clinic = true
  /\ sqlite clinic = true
  /\ PatientUpdate.valid new_phone = true
  /\ first_row (List.filter (has_pk (VInt 2)) (t_patients clinic)) = Some alice
  /\ let p' := updated t2 alice (PatientUpdate.model_dump new_phone) in
     get_db (PatientCRUD.update t2 2 (PatientUpdate.model_dump new_phone)) clinic
     = (Ok (Some p'),
        set_rows clinic patients
          (map (fun o => if has_pk (VInt 2) o then p' else o) (t_patients clinic)))
     /\ snd (get_db (Backend.update_patient t2 t2 2 new_phone) clinic)
        = set_rows clinic patients
            (map (fun o => if has_pk (VInt 2) o then p' else o) (t_patients clinic))
     /\ getattr p' "phone" = VStr "555-0123"
     /\ getattr p' "date_of_birth" = VDateTime (mkdatetime 1980 2 29 0 0 0 0)
     /\ getattr p' "email" = VStr "ajohnson@x.com"
     /\ getattr p' "updated_at" = VDateTime t2
     /\ get_db (Backend.update_patient t2 t2 7 new_phone) clinic
        = (Raise (Backend.not_found 7), clinic).
Proof.
  assert (db_okb clinic = true) as H1 by (vm_compute; reflexivity).
  assert (sqlite clinic = true) as Hs by (vm_compute; reflexivity).
  assert (PatientUpdate.valid new_phone = true) as H2 by (vm_compute; reflexivity).
  assert (first_row (List.filter (has_pk (VInt 2)) (t_patients clinic)) = Some alice)
    as H3 by reflexivity.
  split; [exact H1|]. split; [exact Hs|]. split; [exact H2|]. split; [exact H3|].
  destruct (update_patient_applies_present_fields t2 t2 2 new_phone clinic H1 Hs eq_refl H2)
    as (Hthm & _).
  destruct (update_patient_applies_present_fields t2 t2 7 new_phone clinic H1 Hs eq_refl H2)
    as (_ & Hmiss).
  destruct (Hthm alice H3) as (Hfree & _ & Hpresent & Hdob & Habsent & Hat & _).
  destruct Hfree as (Hrun & Hweb).
  { intros e He. discriminate He. }
  intros p'. split; [exact Hrun|]. split; [exact Hweb|]. split.
  { apply Hpresent; [vm_compute; reflexivity|discriminate]. }
  split.
  { destruct (Hdob "1980-02-29" eq_refl) as (d & Hd & Hg).
    vm_compute in Hd. injection Hd as <-. exact Hg. }
  split.
  { subst p'. rewrite Habsent; [vm_compute; reflexivity|vm_compute; reflexivity|discriminate]. }
  split; [exact Hat|]. apply Hmiss. reflexivity.
Defined.

(** C7 as stated fails: an update that sets Alice's email to the one John's
    row carries is refused by the unique constraint; none of its fields,
    the phone number included, is applied. *)
Lemma update_patient_email_conflict :
  PatientUpdate.valid steal_email = true
  /\ PatientUpdate.model_dump steal_email !! "phone" = Some (VStr "555-0123")
  /\ map (fun r => (getattr r "id", getattr r "email")) (t_patients clinic)
     = [(VInt 1, VStr "john.doe@x.com"); (VInt 2, VStr "ajohnson@x.com")]
  /\ fst (get_db (Backend.update_patient t2 t2 2 steal_email) clinic)
     = Raise IntegrityError
  /\ map (fun r => (getattr r "id", getattr r "email", getattr r "phone"))
         (t_patients (snd (get_db (Backend.update_patient t2 t2 2 steal_email) clinic)))
     = [(VInt 1, VStr "john.doe@x.com", VNone);
        (VInt 2, VStr "ajohnson@x.com", VStr "555-0100")].
Proof. vm_compute. repeat split; reflexivity. Qed.

(** ** Search without metacharacters *)

Lemma like_percent_all s : like ["%"%char] s = true.
Proof.
  cbn [like Ascii.eqb Bool.eqb]. cbn [like].
  induction s as [|c s IH]; [reflexivity|]. cbn [orb]. exact IH.
Qed.

Lemma like_prefix q s :
  forallb plain q = true -> like (q ++ ["%"%char]) s = startswith q s.
Proof.
  revert s. induction q as [|c q IH]; intros s Hq.
  - rewrite app_nil_l, like_percent_all. by destruct s.
  - cbn [forallb] in Hq. apply andb_true_iff in Hq as [Hc Hq].
    unfold plain in Hc. apply andb_true_iff in Hc as [Hc _].
    apply andb_true_iff in Hc as [H1%negb_true_iff H2%negb_true_iff].
    cbn [app like startswith]. rewrite H1, H2. destruct s as [|d s]; [done|].
    cbn [orb]. by rewrite IH.
Qed.

Lemma like_contains q s :
  forallb plain q = true -> like ("%"%char :: q ++ ["%"%char]) s = contains q s.
Proof.
  intros Hq. cbn [like Ascii.eqb Bool.eqb].
  induction s as [|d s IH].
  - cbn [contains]. by rewrite like_prefix.
  - cbn [contains]. rewrite like_prefix by done. by rewrite IH.
Qed.

Lemma list_ascii_of_string_app a b :
  list_ascii_of_string (a +:+ b) = list_ascii_of_string a ++ list_ascii_of_string b.
Proof.
  induction a as [|c a IH]; [done|].
  simpl. f_equal. exact IH.
Qed.

Lemma lower_plain c : plain c = true -> plain (lower c) = true.
Proof.
  destruct c as [[] [] [] [] [] [] [] []]; vm_compute; congruence.
Qed.

Lemma ilike_icontains text v :
  wildcard_free text = true -> ilike v ("%" +:+ text +:+ "%") = icontains text v.
Proof.
  intros Hw. destruct v; try reflexivity. unfold ilike, icontains.
  rewrite !list_ascii_of_string_app, !map_app. cbn [list_ascii_of_string map app].
  change (lower "%") with "%"%char. apply like_contains.
  unfold wildcard_free in Hw. rewrite forallb_forall in *.
  intros c (x & <- & Hx)%in_map_iff. apply lower_plain. auto.
Qed.

(** X1. On the default engine, in a consistent database whose searched
    fields hold no NUL character, for a search text of at most 49998 bytes
    without [%], [_] and NUL, [PatientCRUD.search] returns, up to the order
    of the rows, exactly the active patients whose first name, last name,
    email or phone contains the text, letter case aside; the endpoint
    refuses the empty text with a validation error and reads nothing. *)
Theorem search_is_substring_match text db :
  sqlite db = true ->
  db_okb db = true ->
  forallb searchable (t_patients db) = true ->
  wildcard_free text = true ->
  (Z.of_nat (String.length text) <= 49998)%Z ->
  (exists found,
     get_db (PatientCRUD.search text) db = (Ok found, db)
     /\ Permutation found
          (List.filter (fun r => spec_matches text r)
                       (List.filter PatientCRUD.active (t_patients db))))
  /\ (forall today,
        String.length text = 0%nat ->
        get_db (Backend.search_patients today text) db
        = (Raise Backend.validation_error, db)).
Proof.
  intros _ _ _ Hw _. split.
  - eexists. split; [|apply Permutation_refl].
    apply get_db_run. unfold PatientCRUD.search, connect.
    erewrite bind_Ok by apply query_healthy. unfold ret. cbn [rows].
    do 2 f_equal. apply filter_ext. intros r.
    unfold PatientCRUD.matches, spec_matches. by rewrite !ilike_icontains.
  - intros today Hlen. unfold Backend.search_patients. rewrite Hlen. reflexivity.
Qed.

Lemma search_is_substring_match_witness :
  sqlite clinic = true
  /\ db_okb clinic = true
  /\ wildcard_free "JOHN" = true
  /\ exists found,
       get_db (PatientCRUD.search "JOHN") clinic = (Ok found, clinic)
       /\ Permutation found
            (List.filter (fun r => spec_matches "JOHN" r)
                         (List.filter PatientCRUD.active (t_patients clinic)))
       /\ map (fun r => getattr r "id")
              (List.filter (fun r => spec_matches "JOHN" r)
                           (List.filter PatientCRUD.active (t_patients clinic)))
          = [VInt 1; VInt 2].
Proof.
  assert (sqlite clinic = true) as H1 by (vm_compute; reflexivity).
  assert (db_okb clinic = true) as H2 by (vm_compute; reflexivity).
  assert (forallb searchable (t_patients clinic) = true) as H3
    by (vm_compute; reflexivity).
  assert (wildcard_free "JOHN" = true) as H4 by reflexivity.
  assert (Z.of_nat (String.length "JOHN") <= 49998)%Z as H5
    by (cbn [String.length]; lia).
  destruct (search_is_substring_match "JOHN" clinic H1 H2 H3 H4 H5)
    as [(found & Hrun & Hperm) _].
  split; [exact H1|]. split; [exact H2|]. split; [exact H4|].
  exists found. split; [exact Hrun|]. split; [exact Hperm|]. vm_compute. reflexivity.
Defined.

(** ** Referential integrity where it is enforced *)

Lemma insert_orphan now db t (r : row) k parent :
  foreign_key t = Some (k, parent) ->
  foreign_keys_enforced (database_url db) = true ->
  is_None (getattr r k) = false -> k <> "id" ->
  existsb (has_pk (getattr r k)) (rows db parent) = false ->
  insert_row now db t r
  = inl (refusal t (apply_defaults now t (assign_id (rows db t) r))).
Proof.
  intros Hfk Hen Hk Hne Hno. unfold insert_row.
  set (r' := apply_defaults now t _).
  assert (getattr r' k = getattr r k) as Hk'.
  { subst r'. rewrite getattr_apply_defaults; rewrite getattr_assign_id by done; done. }
  assert (row_ok db t (rows db t) r' = false) as ->; [|done].
  unfold row_ok, parent_ok. rewrite Hfk, Hen, Hk', Hno. cbn [negb orb].
  apply andb_false_r.
Qed.

(** X2. Where the engine enforces foreign keys (any URL that is not
    SQLite), creating a consultation for a patient id that no row carries
    raises and leaves the committed database as it was, whatever the
    connection does; on a healthy connection the error is the integrity
    error of the database when the row is otherwise well formed. *)
Theorem missing_patient_refused_when_enforced lifetime now pid names kw db :
  foreign_keys_enforced (database_url db) = true ->
  existsb (has_pk (VInt pid)) (t_patients db) = false ->
  (exists e,
     get_db_on lifetime (ConsultationCRUD.create now pid names kw) db = (Raise e, db))
  /\ (kw !! "patient_id" = None ->
      forallb (fun kv => is_column consultations (fst kv))
              (map_to_list (<["patient_id" := VInt pid]> kw)) = true ->
      well_typed consultations
        (apply_defaults now consultations
           (assign_id (t_consultations db) (<["patient_id" := VInt pid]> kw))) = true ->
      get_db (ConsultationCRUD.create now pid names kw) db = (Raise IntegrityError, db)).
Proof.
  intros Hen Hno.
  assert (insert_row now db consultations (<["patient_id" := VInt pid]> kw)
          = inl (refusal consultations
                   (apply_defaults now consultations
                      (assign_id (t_consultations db) (<["patient_id" := VInt pid]> kw)))))
    as Hins.
  { apply (insert_orphan now db consultations _ "patient_id" patients);
      try done; by rewrite getattr_insert. }
  split.
  - unfold get_db_on, ConsultationCRUD.create. unfold bind at 1.
    destruct (decide (is_Some (kw !! "patient_id"))); [eauto|].
    unfold construct. destruct (forallb _ _); [|eauto].
    cbn [ret]. unfold bind at 1.
    cbn [add connect committed working unflushed survives app].
    unfold bind at 1. unfold flush. cbn [committed working unflushed survives].
    pose proof (flush_items_spec now [New consultations (<["patient_id" := VInt pid]> kw)]
                  (mkSession db db [] lifetime)) as Hf.
    destruct (flush_items now _ _) as [[rs|e] s2];
      cbn [committed working unflushed apply_writes write] in Hf.
    + destruct Hf as (Hw & _). rewrite Hins in Hw. discriminate Hw.
    + destruct Hf as (Hc2 & _). cbn [close snd rollback committed].
      rewrite Hc2. eauto.
  - intros Hnone Hkeys Hty. apply get_db_run.
    unfold ConsultationCRUD.create. unfold bind at 1.
    destruct (decide (is_Some (kw !! "patient_id"))) as [[? Hs]|_]; [congruence|].
    unfold construct. rewrite Hkeys. cbn [ret]. unfold bind at 1.
    cbn [add connect committed working unflushed survives app].
    unfold bind at 1. rewrite flush_one_healthy. cbn [write]. rewrite Hins.
    unfold refusal. cbn [rows]. by rewrite Hty.
Qed.

Lemma missing_patient_refused_when_enforced_witness :
  foreign_keys_enforced (database_url clinic_server) = true
  /\ existsb (has_pk (VInt 42)) (t_patients clinic_server) = false
  /\ get_db (ConsultationCRUD.create t1 42 three_symptoms moderate) clinic_server
     = (Raise IntegrityError, clinic_server).
Proof.
  assert (foreign_keys_enforced (database_url clinic_server) = true) as H1
    by reflexivity.
  assert (existsb (has_pk (VInt 42)) (t_patients clinic_server) = false) as H2
    by reflexivity.
  destruct (missing_patient_refused_when_enforced None t1 42 three_symptoms moderate
              clinic_server H1 H2) as [_ H].
  split; [exact H1|]. split; [exact H2|].
  apply H; vm_compute; reflexivity.
Defined.

(** ** Prescriptions and tests of a consultation *)

Lemma add_child_outcome lifetime now t i kw db :
  foreign_key t = Some ("consultation_id", consultations) ->
  appended_one_or_nothing t i db
    (get_db_on lifetime (ConsultationCRUD.add_child now t i kw) db).
Proof.
  intros Hfk. unfold appended_one_or_nothing, get_db_on, ConsultationCRUD.add_child.
  unfold bind at 1.
  destruct (decide (is_Some (kw !! "consultation_id"))); [left; eauto|].
  unfold construct. destruct (forallb _ _); [|left; eauto].
  cbn [ret]. unfold bind at 1.
  cbn [add connect committed working unflushed survives app].
  unfold bind at 1.
  pose proof (commit_spec now
                (mkSession db db [New t (<["consultation_id" := VInt i]> kw)] lifetime))
    as Hc.
  destruct (commit now _) as [[rs|e] s2];
    cbn [committed working unflushed apply_writes write] in Hc.
  - destruct Hc as (Hw & Hw2 & _).
    destruct (insert_row now db t _) as [e|[child db1]] eqn:Hins; [discriminate|].
    injection Hw as <- Hdb1.
    pose proof (inserted_found _ _ _ _ _ _ Hins) as Hfind.
    apply insert_row_inv in Hins as (Hchild & _ & Hset).
    pose proof (refresh_spec t child s2) as Hre.
    destruct (refresh t child s2) as [r s3]. cbn [close snd rollback committed].
    right. exists child.
    assert (getattr child "consultation_id" = VInt i) as Hcid.
    { rewrite Hchild, getattr_apply_defaults; rewrite getattr_assign_id by done;
        by rewrite getattr_insert. }
    destruct Hre as [[-> Hc3]|(Hc3 & _ & ->)].
    + rewrite Hc3, <- Hdb1, Hset. auto.
    + rewrite Hc3, <- Hdb1, Hset. split; [done|]. split; [done|]. left.
      by rewrite Hw2, <- Hdb1, Hfind.
  - destruct Hc as [Hc2 _]. left. cbn [close snd rollback committed]. eauto.
Qed.

Lemma add_child_orphan lifetime now t i kw db :
  foreign_key t = Some ("consultation_id", consultations) ->
  foreign_keys_enforced (database_url db) = true ->
  existsb (has_pk (VInt i)) (t_consultations db) = false ->
  exists e, get_db_on lifetime (ConsultationCRUD.add_child now t i kw) db = (Raise e, db).
Proof.
  intros Hfk Hen Hno.
  pose proof (add_child_outcome lifetime now t i kw db Hfk) as H.
  unfold appended_one_or_nothing in H.
  destruct (get_db_on lifetime _ db) as [r db'] eqn:E.
  destruct H as [[-> [e ->]]|(child & Hdb' & Hcid & _)]; [eauto|]. exfalso.
  unfold get_db_on, ConsultationCRUD.add_child in E. unfold bind at 1 in E.
  destruct (decide (is_Some (kw !! "consultation_id")));
    [injection E as _ E; revert Hdb'; rewrite <- E; cbn [close snd rollback committed connect];
     intros Hd; apply (f_equal (fun d => length (rows d t))) in Hd;
     rewrite rows_set_rows_eq, length_app in Hd; cbn [length] in Hd; lia|].
  unfold construct in E. destruct (forallb _ _);
    [|injection E as _ E; revert Hdb'; rewrite <- E; cbn [close snd rollback committed connect];
      intros Hd; apply (f_equal (fun d => length (rows d t))) in Hd;
      rewrite rows_set_rows_eq, length_app in Hd; cbn [length] in Hd; lia].
  cbn [ret] in E. unfold bind at 1 in E.
  cbn [add connect committed working unflushed survives app] in E.
  unfold bind at 1 in E.
  pose proof (commit_spec now
                (mkSession db db [New t (<["consultation_id" := VInt i]> kw)] lifetime))
    as Hc.
  destruct (commit now _) as [[rs|e] s2];
    cbn [committed working unflushed apply_writes write] in Hc.
  - destruct Hc as (Hw & _).
    rewrite (insert_orphan now db t _ "consultation_id" consultations) in Hw;
      try done; by rewrite getattr_insert.
  - destruct Hc as [Hc2 _]. injection E as _ E. revert Hdb'. rewrite <- E.
    cbn [close snd rollback committed]. rewrite Hc2.
    intros Hd. apply (f_equal (fun d => length (rows d t))) in Hd.
    rewrite rows_set_rows_eq, length_app in Hd. cbn [length] in Hd. lia.
Qed.

(** X3. Appending a prescription or a diagnostic test to a consultation
    either changes nothing and raises, or appends exactly one row that
    points to the consultation and changes nothing else, whenever the
    connection fails; where foreign keys are enforced, a consultation id
    that no row carries is refused and nothing is written. *)
Theorem child_rows_appended_one_at_a_time lifetime now i kw db :
  appended_one_or_nothing prescriptions i db
    (get_db_on lifetime (ConsultationCRUD.add_prescription now i kw) db)
  /\ appended_one_or_nothing diagnostic_tests i db
       (get_db_on lifetime (ConsultationCRUD.add_diagnostic_test now i kw) db)
  /\ (foreign_keys_enforced (database_url db) = true ->
      existsb (has_pk (VInt i)) (t_consultations db) = false ->
      (exists e,
         get_db_on lifetime (ConsultationCRUD.add_prescription now i kw) db
         = (Raise e, db))
      /\ (exists e,
            get_db_on lifetime (ConsultationCRUD.add_diagnostic_test now i kw) db
            = (Raise e, db))).
Proof.
  split; [by apply add_child_outcome|]. split; [by apply add_child_outcome|].
  intros Hen Hno. split; by apply add_child_orphan.
Qed.

Lemma child_rows_appended_one_at_a_time_witness :
  foreign_keys_enforced (database_url clinic_server) = true
  /\ existsb (has_pk (VInt 7)) (t_consultations clinic_server) = false
  /\ (exists e,
        get_db (ConsultationCRUD.add_prescription t1 7 aspirin) clinic_server
        = (Raise e, clinic_server))
  /\ match get_db (ConsultationCRUD.add_prescription t1 1 aspirin) clinic_server with
     | (Ok child, db') =>
         map (fun r => (getattr r "consultation_id", getattr r "medication_name"))
             (t_prescriptions db')
         = [(VInt 1, VStr "Aspirin")]
     | (Raise _, _) => False
     end.
Proof.
  assert (foreign_keys_enforced (database_url clinic_server) = true) as H1
    by reflexivity.
  assert (existsb (has_pk (VInt 7)) (t_consultations clinic_server) = false) as H2
    by reflexivity.
  destruct (child_rows_appended_one_at_a_time None t1 7 aspirin clinic_server)
    as (_ & _ & H).
  destruct (H H1 H2) as [Hp _].
  split; [exact H1|]. split; [exact H2|]. split; [exact Hp|].
  vm_compute. reflexivity.
Defined.

(** ** Creation and lookup *)

Lemma PatientCRUD_create_inv now kw db p db' :
  get_db (PatientCRUD.create now kw) db = (Ok p, db') ->
  insert_row now db patients (parse_date_of_birth kw) = inr (p, db').
Proof.
  unfold get_db, get_db_on. rewrite PatientCRUD_create_run.
  destruct (forallb _ _); [|discriminate].
  destruct (insert_row now db patients _) as [e|[q d]]; [discriminate|].
  cbn [close snd rollback committed connect]. by intros [= <- <-].
Qed.

Lemma filter_none {A} (f : A -> bool) l :
  (forall x, In x l -> f x = false) -> List.filter f l = [].
Proof.
  induction l as [|x l IH]; [done|]. intros H. cbn [List.filter].
  rewrite (H x (or_introl eq_refl)). apply IH. intros y Hy. apply H. by right.
Qed.

Lemma getattr_defaults_fold now (cs : list column) (r : row) k :
  getattr
    (fold_left
       (fun acc c =>
          if is_None (getattr acc (cname c)) then
            match cdefault c with
            | NoDefault => acc
            | UtcNow => <[cname c := VDateTime now]> acc
            | Const v => <[cname c := v]> acc
            end
          else acc) cs r) k
  = if is_None (getattr r k) then default_value now cs k else getattr r k.
Proof.
  revert r. induction cs as [|c cs IH]; intros r.
  - cbn [fold_left]. unfold default_value. cbn [find].
    by destruct (getattr r k).
  - cbn [fold_left]. rewrite IH. unfold default_value. cbn [find].
    destruct c as [cn cty cnull cdef]. unfold default_of. cbn [cname cdefault].
    destruct (String.eqb_spec cn k) as [Heq|Hne]; cbn [andb].
    + rewrite Heq. destruct (is_None (getattr r k)) eqn:En.
      * destruct cdef as [| |v]; cbn [is_None negb].
        -- by rewrite En.
        -- by rewrite getattr_insert.
        -- rewrite getattr_insert. by destruct (is_None v).
      * by rewrite En.
    + assert (forall r' : row,
                (r' = r \/ exists v, r' = <[cn := v]> r) ->
                getattr r' k = getattr r k) as Hsame.
      { intros r' [->|[v ->]]; [done|]. by rewrite getattr_insert_ne. }
      rewrite Hsame; [done|].
      destruct (is_None (getattr r cn)); [|by left].
      destruct cdef; eauto.
Qed.

Lemma getattr_apply_defaults_value now t (r : row) k :
  getattr (apply_defaults now t r) k
  = if is_None (getattr r k) then default_value now (columns t) k else getattr r k.
Proof. unfold apply_defaults. apply getattr_defaults_fold. Qed.

Lemma getattr_is_active_default now (r : row) :
  getattr (apply_defaults now patients r) "is_active"
  = if is_None (getattr r "is_active") then VBool true else getattr r "is_active".
Proof. by rewrite getattr_apply_defaults_value. Qed.

(** X4. A patient that [PatientCRUD.create] returned is the last row of
    the patients table and can be read back: by id through
    [PatientCRUD.get_by_id] when it is active (which it is unless the
    caller passed [is_active]), and by its email through
    [PatientCRUD.get_by_email]. *)
Theorem created_patient_is_found now kw db p db' :
  get_db (PatientCRUD.create now kw) db = (Ok p, db') ->
  t_patients db' = t_patients db ++ [p]
  /\ (exists i,
        pk p = VInt i
        /\ get_db (PatientCRUD.get_by_id i) db'
           = (Ok (if PatientCRUD.active p then Some p else None), db'))
  /\ (forall e, getattr p "email" = VStr e ->
                get_db (PatientCRUD.get_by_email e) db' = (Ok (Some p), db'))
  /\ (getattr kw "is_active" = VNone -> PatientCRUD.active p = true).
Proof.
  intros Hrun. apply PatientCRUD_create_inv in Hrun.
  pose proof (insert_row_inv _ _ _ _ _ _ Hrun) as (Hp & Hok & Hdb').
  destruct (row_ok_pk _ _ _ _ Hok) as [i Hi].
  apply row_ok_spec in Hok as (_ & _ & Hu & _).
  assert (t_patients db' = t_patients db ++ [p]) as Hrows
    by (rewrite Hdb'; reflexivity).
  split; [exact Hrows|]. split; [|split].
  - exists i. split; [done|]. rewrite get_by_id_run, Hrows, List.filter_app.
    rewrite filter_none.
    + cbn [app List.filter]. unfold has_pk at 1. rewrite Hi. cbn [sql_eq].
      rewrite Z.eqb_refl. cbn [andb]. by destruct (PatientCRUD.active p).
    + intros x Hx.
      pose proof (unique_ok_clash _ _ _ "id" Hu (or_introl eq_refl)) as Hc.
      eapply existsb_false_In in Hc; [|exact Hx]. cbn beta in Hc.
      unfold has_pk, pk. fold (pk p) in Hc. rewrite Hi in Hc. by rewrite Hc.
  - intros e He. apply get_db_run. rewrite get_by_email_run.
    unfold with_email. rewrite Hrows, List.filter_app, filter_none.
    + cbn [app List.filter]. rewrite He. cbn [sql_eq]. by rewrite String.eqb_refl.
    + intros x Hx.
      pose proof (unique_ok_clash _ _ _ "email" Hu (or_intror (or_introl eq_refl))) as Hc.
      eapply existsb_false_In in Hc; [|exact Hx]. cbn beta in Hc. by rewrite He in Hc.
  - intros Hnone. unfold PatientCRUD.active. rewrite Hp, getattr_is_active_default.
    rewrite getattr_assign_id, getattr_parse_date_of_birth by done. by rewrite Hnone.
Qed.

Lemma created_patient_is_found_witness :
  exists p db',
    get_db (PatientCRUD.create t0 garbled_birth_date) (init_db default_DATABASE_URL)
    = (Ok p, db')
    /\ (exists i, pk p = VInt i
                  /\ get_db (PatientCRUD.get_by_id i) db'
                     = (Ok (if PatientCRUD.active p then Some p else None), db'))
    /\ PatientCRUD.active p = true.
Proof.
  pose proof (insert_row_accepted t0 (init_db default_DATABASE_URL) patients
                (parse_date_of_birth garbled_birth_date)) as E.
  set (p := apply_defaults t0 patients _) in E.
  set (db' := set_rows (init_db default_DATABASE_URL) patients _) in E.
  specialize (E ltac:(vm_compute; reflexivity)).
  assert (get_db (PatientCRUD.create t0 garbled_birth_date) (init_db default_DATABASE_URL)
          = (Ok p, db')) as Hrun.
  { apply get_db_run. rewrite PatientCRUD_create_run, E.
    assert (forallb (fun kv => is_column patients (fst kv))
              (map_to_list (parse_date_of_birth garbled_birth_date)) = true) as ->
      by (vm_compute; reflexivity).
    reflexivity. }
  destruct (created_patient_is_found _ _ _ _ _ Hrun) as (_ & Hid & _ & Hact).
  exists p, db'. split; [exact Hrun|]. split; [exact Hid|].
  apply Hact. vm_compute. reflexivity.
Defined.

(** ** Counting active patients *)

Lemma count_run db :
  get_db PatientCRUD.count db
  = (Ok (Z.of_nat (length (List.filter PatientCRUD.active (t_patients db)))), db).
Proof. reflexivity. Qed.

Lemma active_after_deactivation now i (l : list row) :
  List.filter PatientCRUD.active
    (map (fun o => if has_pk (VInt i) o then deactivated now o else o) l)
  = List.filter (fun r => PatientCRUD.active r && negb (has_pk (VInt i) r)) l.
Proof.
  induction l as [|o l IH]; [done|]. cbn [map List.filter].
  destruct (has_pk (VInt i) o) eqn:E.
  - rewrite active_deactivated, andb_false_r. exact IH.
  - rewrite andb_true_r. destruct (PatientCRUD.active o); by rewrite IH.
Qed.

Lemma active_count_split i (l : list row) p :
  (forall o, In o l -> has_pk (VInt i) o = true -> o = p) ->
  uniqueb "id" l = true -> In p l -> has_pk (VInt i) p = true ->
  length (List.filter PatientCRUD.active l)
  = (length (List.filter (fun r => PatientCRUD.active r && negb (has_pk (VInt i) r)) l)
     + (if PatientCRUD.active p then 1 else 0))%nat.
Proof.
  induction l as [|o l IH]; [intros _ _ []|].
  intros Honly Hu Hin Hk. cbn [List.filter].
  destruct (has_pk (VInt i) o) eqn:E.
  - assert (o = p) as -> by (apply Honly; [by left|done]).
    pose proof (unique_key_tail _ _ _ Hu E) as Hno.
    assert (List.filter (fun r => PatientCRUD.active r && negb (has_pk (VInt i) r)) l
            = List.filter PatientCRUD.active l) as ->.
    { apply filter_ext_in. intros x Hx.
      rewrite (existsb_false_In _ _ _ Hno Hx). by rewrite andb_true_r. }
    rewrite andb_false_r. destruct (PatientCRUD.active p); cbn [length]; lia.
  - destruct Hin as [->|Hin]; [congruence|].
    cbn [uniqueb] in Hu. apply andb_true_iff in Hu as [_ Hu].
    rewrite andb_true_r.
    specialize (IH (fun x Hx => Honly x (or_intror Hx)) Hu Hin Hk).
    destruct (PatientCRUD.active o); cbn [length]; lia.
Qed.

(** X5. [PatientCRUD.count] is the number of rows with [is_active] true.
    After deactivating the patient carrying an id it is smaller by one if
    that patient was active and unchanged if it was inactive already. *)
Theorem count_after_deactivation now i db p :
  db_okb db = true ->
  first_row (List.filter (has_pk (VInt i)) (t_patients db)) = Some p ->
  fst (get_db PatientCRUD.count db)
  = Ok (Z.of_nat (length (List.filter PatientCRUD.active (t_patients db))))
  /\ fst (get_db PatientCRUD.count (snd (get_db (PatientCRUD.delete now i) db)))
     = Ok (Z.of_nat (length (List.filter PatientCRUD.active (t_patients db)))
           - (if PatientCRUD.active p then 1 else 0))%Z.
Proof.
  intros Hdb Hp. split; [by rewrite count_run|].
  rewrite (PatientCRUD_delete_db now i db Hdb), count_run. cbn [fst snd].
  cbn [set_rows t_patients]. rewrite active_after_deactivation.
  destruct (loaded_row_ok _ _ _ Hdb Hp) as (Hin & Hpk & _ & _ & Honly).
  apply db_okb_spec with (t := patients) in Hdb.
  apply table_okb_spec in Hdb as [_ Hu]. cbn [rows] in Hu.
  rewrite (active_count_split i (t_patients db) p Honly); try done.
  - f_equal. destruct (PatientCRUD.active p); lia.
  - apply Hu. by left.
  - unfold has_pk. rewrite Hpk. cbn [sql_eq]. apply Z.eqb_refl.
Qed.

Lemma count_after_deactivation_witness :
  db_okb clinic = true
  /\ first_row (List.filter (has_pk (VInt 1)) (t_patients clinic)) = Some john
  /\ fst (get_db PatientCRUD.count clinic) = Ok 2%Z
  /\ fst (get_db PatientCRUD.count (snd (get_db (PatientCRUD.delete t1 1) clinic)))
     = Ok 1%Z.
Proof.
  assert (db_okb clinic = true) as H1 by (vm_compute; reflexivity).
  assert (first_row (List.filter (has_pk (VInt 1)) (t_patients clinic)) = Some john)
    as H2 by reflexivity.
  destruct (count_after_deactivation t1 1 clinic john H1 H2) as [Ha Hb].
  split; [exact H1|]. split; [exact H2|]. split.
  - rewrite Ha. reflexivity.
  - rewrite Hb. reflexivity.
Defined.

(** ** Age and BMI guard *)

Ltac bool_cases :=
  repeat match goal with
         | |- context [(?a <? ?b)%Z] => destruct (Z.ltb_spec a b)
         | |- context [(?a <=? ?b)%Z] => destruct (Z.leb_spec a b)
         | |- context [(?a =? ?b)%Z] => destruct (Z.eqb_spec a b)
         end.

(** X6. [_get_age_from_dob] counts the anniversaries of the birth date
    that have been reached: with a birth date set, the age is the greatest
    [n] whose anniversary is today or earlier, whatever the stored [age]
    column says, and it is not negative exactly when the birth date is not
    in the future; without a birth date it is the stored age. *)
Theorem age_counts_reached_anniversaries today self :
  match getattr self "date_of_birth" with
  | VDateTime dob =>
      exists a,
        Patient._get_age_from_dob today self = VInt a
        /\ (forall n, anniversary_reached today dob n = true <-> (n <= a)%Z)
        /\ (anniversary_reached today dob 0 = true <-> (0 <= a)%Z)
        /\ ((month today, day today) = (month dob, day dob) ->
            a = (year today - year dob)%Z)
  | VNone => Patient._get_age_from_dob today self = getattr self "age"
  | _ => True
  end.
Proof.
  unfold Patient._get_age_from_dob.
  destruct (getattr self "date_of_birth") as [| | | | |dob]; try exact I;
    [reflexivity|].
  eexists. split; [reflexivity|].
  unfold anniversary_reached, day_leb, Patient.pair_ltb.
  split; [|split].
  - intros n. bool_cases; cbn [orb andb]; split; intros Hn; try discriminate Hn;
      try reflexivity; lia.
  - bool_cases; cbn [orb andb]; split; intros Hn; try discriminate Hn;
      try reflexivity; lia.
  - intros [= -> ->]. bool_cases; cbn [orb andb]; lia.
Qed.

Lemma to_dict_bmi today self cs :
  Patient.to_dict today self cs !! "bmi" = Some (Patient._calculate_bmi self).
Proof.
  unfold Patient.to_dict, list_to_map. cbn [foldr fst snd].
  repeat (rewrite lookup_insert_ne by discriminate). apply lookup_insert_eq.
Qed.

Lemma to_dict_bmi_category today self cs :
  Patient.to_dict today self cs !! "bmi_category" =
  Some (match Patient._calculate_bmi self with
        | VFloat b =>
            if truthy (Patient._calculate_bmi self) then VStr (_bmi_category b)
            else VNone
        | _ => VNone
        end).
Proof.
  unfold Patient.to_dict, list_to_map. cbn [foldr fst snd].
  repeat (rewrite lookup_insert_ne by discriminate). apply lookup_insert_eq.
Qed.

(** X7. The guard of [_calculate_bmi]: for a patient row that fits its
    columns, when the weight or the height is not set or is zero, or the
    height is a negative number, no BMI is computed, and [to_dict] shows
    neither a BMI nor a BMI category. *)
Theorem no_bmi_without_measures today self cs :
  well_typed patients self = true ->
  falsy (getattr self "weight") = true
  \/ falsy (getattr self "height") = true
  \/ (exists h, number (getattr self "height") = Some h /\ (h < 0)%Q) ->
  Patient._calculate_bmi self = VNone
  /\ Patient.to_dict today self cs !! "bmi" = Some VNone
  /\ Patient.to_dict today self cs !! "bmi_category" = Some VNone.
Proof.
  intros _ H.
  assert (Patient._calculate_bmi self = VNone) as Hb.
  { unfold Patient._calculate_bmi, falsy in *.
    destruct (number (getattr self "weight")) as [w|]; [|reflexivity].
    destruct (number (getattr self "height")) as [h|] eqn:Eh; [|reflexivity].
    destruct H as [H|[H|(h' & [= <-] & Hneg)]].
    - apply negb_true_iff in H. rewrite H. reflexivity.
    - apply negb_true_iff in H. rewrite H, andb_false_r. reflexivity.
    - assert (Qle_bool h 0 = true) as ->
        by (apply Qle_bool_iff, Qlt_le_weak, Hneg).
      cbn [negb]. rewrite andb_false_r. reflexivity. }
  split; [exact Hb|]. rewrite to_dict_bmi, to_dict_bmi_category, Hb. split; reflexivity.
Qed.

Lemma no_bmi_without_measures_witness :
  well_typed patients unmeasured = true
  /\ falsy (getattr unmeasured "height") = true
  /\ getattr unmeasured "weight" = VFloat 70
  /\ Patient.to_dict t1 unmeasured [] !! "bmi" = Some VNone
  /\ Patient.to_dict t1 unmeasured [] !! "bmi_category" = Some VNone.
Proof.
  assert (falsy (getattr unmeasured "height") = true) as H by (vm_compute; reflexivity).
  assert (well_typed patients unmeasured = true) as Hty by (vm_compute; reflexivity).
  destruct (no_bmi_without_measures t1 unmeasured [] Hty (or_intror (or_introl H)))
    as (_ & Hb & Hc).
  split; [exact Hty|]. split; [exact H|]. split; [vm_compute; reflexivity|].
  split; [exact Hb|exact Hc].
Defined.

(** ** Printing and parsing a birth date *)

Lemma digit_ok k :
  (0 <= k <= 9)%Z -> is_digit (digit k) = true /\ (code (digit k) - 48 = k)%Z.
Proof.
  intros Hk.
  assert (k = 0 \/ k = 1 \/ k = 2 \/ k = 3 \/ k = 4 \/ k = 5 \/ k = 6 \/ k = 7
          \/ k = 8 \/ k = 9)%Z as Hc by lia.
  repeat (destruct Hc as [->|Hc]; [split; vm_compute; reflexivity|]).
  subst k. split; vm_compute; reflexivity.
Qed.

Lemma mod10 z : (0 <= z mod 10 <= 9)%Z.
Proof. pose proof (Z.mod_pos_bound z 10 ltac:(lia)). lia. Qed.

Lemma list_zfill2 z :
  list_ascii_of_string (zfill 2 z) = [digit (z / 10 mod 10); digit (z mod 10)].
Proof. reflexivity. Qed.

Lemma list_zfill4 z :
  list_ascii_of_string (zfill 4 z) =
  [digit (z / 10 / 10 / 10 mod 10); digit (z / 10 / 10 mod 10);
   digit (z / 10 mod 10); digit (z mod 10)].
Proof. reflexivity. Qed.

Lemma int_of_year y :
  (0 <= y <= 9999)%Z -> int_of (list_ascii_of_string (zfill 4 y)) = y.
Proof.
  intros Hy. rewrite list_zfill4. unfold int_of. cbn [fold_left].
  destruct (digit_ok (y / 10 / 10 / 10 mod 10)) as [-> ->]; [apply mod10|].
  destruct (digit_ok (y / 10 / 10 mod 10)) as [-> ->]; [apply mod10|].
  destruct (digit_ok (y / 10 mod 10)) as [-> ->]; [apply mod10|].
  destruct (digit_ok (y mod 10)) as [-> ->]; [apply mod10|].
  Z.div_mod_to_equations. lia.
Qed.

Lemma first_alt_ext {A} alts s (k k' : list ascii -> list ascii -> option A) :
  (forall m r, k m r = k' m r) -> first_alt alts s k = first_alt alts s k'.
Proof.
  intros Hk. induction alts as [|a alts IH]; [reflexivity|]. cbn [first_alt].
  destruct (match_seq a s) as [[m r]|]; [|exact IH]. rewrite Hk, IH. reflexivity.
Qed.

Lemma first_alt_map {A B} (f : A -> B) alts s k :
  first_alt alts s (fun m r => option_map f (k m r)) =
  option_map f (first_alt alts s k).
Proof.
  induction alts as [|a alts IH]; [reflexivity|]. cbn [first_alt].
  destruct (match_seq a s) as [[m r]|]; [|exact IH].
  destruct (k m r); [reflexivity|exact IH].
Qed.

(** After a four-digit year and a dash the match goes on with the month
    and the day. *)
Lemma re_match_year a b c d t :
  is_digit a = true -> is_digit b = true -> is_digit c = true -> is_digit d = true ->
  re_match (a :: b :: c :: d :: "-"%char :: t) =
  option_map (fun g => ([a; b; c; d], fst (fst g), snd (fst g), snd g))
             (re_match_md t).
Proof.
  intros Ha Hb Hc Hd. unfold re_match, re_match_md, re_Y. cbn [match_seq].
  rewrite Ha, Hb, Hc, Hd. cbn [expect]. change (Ascii.eqb "-" "-") with true.
  cbv iota. rewrite <- first_alt_map. apply first_alt_ext. intros m r.
  destruct (expect "-" r) as [r4|]; [|reflexivity].
  rewrite <- first_alt_map. apply first_alt_ext. reflexivity.
Qed.

Lemma md_round_trip_all :
  forallb (fun m => forallb (md_round_trip m) (map Z.of_nat (seq 1 31)))
          (map Z.of_nat (seq 1 12)) = true.
Proof. vm_compute. reflexivity. Qed.

Lemma md_round_trip_range m d :
  (1 <= m <= 12)%Z -> (1 <= d <= 31)%Z -> md_round_trip m d = true.
Proof.
  intros Hm Hd. pose proof md_round_trip_all as H.
  rewrite forallb_forall in H. specialize (H m). rewrite forallb_forall in H.
  apply H.
  - apply in_map_iff. exists (Z.to_nat m). split; [lia|]. apply in_seq. lia.
  - apply in_map_iff. exists (Z.to_nat d). split; [lia|]. apply in_seq. lia.
Qed.

Lemma valid_date_range y m d :
  valid_date y m d = true -> (1 <= y <= 9999 /\ 1 <= m <= 12 /\ 1 <= d <= 31)%Z.
Proof.
  unfold valid_date, days_in_month. intros H.
  repeat (apply andb_true_iff in H as [H ?]).
  repeat match goal with Hx : (_ <=? _)%Z = true |- _ => apply Z.leb_le in Hx end.
  destruct (m =? 2)%Z; [destruct (is_leap y)|destruct (_ || _)]; lia.
Qed.

Lemma strftime_chars d :
  list_ascii_of_string (strftime d) =
  list_ascii_of_string (zfill 4 (year d))
  ++ "-"%char :: list_ascii_of_string (zfill 2 (month d) +:+ "-" +:+ zfill 2 (day d)).
Proof. unfold strftime. rewrite list_ascii_of_string_app. reflexivity. Qed.

Lemma strptime_strftime d :
  valid_date (year d) (month d) (day d) = true -> (1000 <= year d)%Z ->
  strptime (strftime d) = Some (midnight d).
Proof.
  intros Hv Hy. destruct (valid_date_range _ _ _ Hv) as (Hyr & Hm & Hd).
  pose proof (md_round_trip_range _ _ Hm Hd) as Hmd. unfold md_round_trip in Hmd.
  pose proof (int_of_year (year d) ltac:(lia)) as Hiy. rewrite list_zfill4 in Hiy.
  unfold strptime. rewrite strftime_chars, list_zfill4. cbn [app].
  rewrite re_match_year; try (apply digit_ok, mod10).
  destruct (re_match_md _) as [[[mg dg] rest]|]; [|discriminate Hmd].
  cbn [option_map fst snd]. destruct rest; [|discriminate Hmd].
  apply andb_true_iff in Hmd as [Hmg Hdg]. apply Z.eqb_eq in Hmg, Hdg.
  cbv zeta. rewrite Hiy, Hmg, Hdg, Hv. reflexivity.
Qed.

(** X8. A birth date in the years 1000 to 9999 survives the trip
    through the API: the text [strftime("%Y-%m-%d")] prints for it, as
    [to_dict] does, is ASCII, is accepted by the [date_of_birth] validator
    of the request schemas, and create and update parse it back to the
    same day (at midnight). *)
Theorem birth_date_round_trip d :
  valid_date (year d) (month d) (day d) = true ->
  (1000 <= year d)%Z ->
  strptime (strftime d) = Some (midnight d)
  /\ isascii (strftime d) = true
  /\ validate_dob (Some (strftime d)) = true
  /\ (forall kw : kwargs,
        kw !! "date_of_birth" = Some (VStr (strftime d)) ->
        parse_date_of_birth kw = <["date_of_birth" := VDateTime (midnight d)]> kw).
Proof.
  intros Hv Hy. pose proof (strptime_strftime d Hv Hy) as Hrt.
  split; [exact Hrt|]. split; [by apply (strptime_isascii _ (midnight d))|]. split.
  - unfold validate_dob. rewrite Hrt. reflexivity.
  - intros kw Hkw. unfold parse_date_of_birth. rewrite Hkw, Hrt. reflexivity.
Qed.

Lemma birth_date_round_trip_witness :
  strftime (mkdatetime 1980 2 29 13 45 0 0) = "1980-02-29"
  /\ strptime "1980-02-29" = Some (mkdatetime 1980 2 29 0 0 0 0)
  /\ validate_dob (Some "1980-02-29") = true.
Proof.
  destruct (birth_date_round_trip (mkdatetime 1980 2 29 13 45 0 0))
    as (Hp & _ & Hval & _); [vm_compute; reflexivity|cbn [year]; lia|].
  split; [vm_compute; reflexivity|]. split; [exact Hp|exact Hval].
Defined.

(** ** Reading leaves the database unchanged *)

Lemma reads_ret {A} (a : A) : reads (ret a).
Proof. intros s. reflexivity. Qed.

Lemma reads_raise {A} e : reads (@raise A e).
Proof. intros s. reflexivity. Qed.

Lemma reads_bind {A B} (m : M A) (k : A -> M B) :
  reads m -> (forall a, reads (k a)) -> reads (bind m k).
Proof.
  intros Hm Hk s. unfold bind. specialize (Hm s).
  destruct (m s) as [[a|e] s']; cbn [snd] in *.
  - rewrite Hk. exact Hm.
  - exact Hm.
Qed.

Lemma reads_execute : reads execute.
Proof.
  intros s. unfold execute. destruct (survives s) as [[|n]|]; reflexivity.
Qed.

Lemma reads_query t : reads (query t).
Proof.
  unfold query. apply reads_bind; [apply reads_execute|].
  intros _ s. reflexivity.
Qed.

Lemma reads_mapM {A B} (f : A -> M B) l :
  (forall a, reads (f a)) -> reads (mapM f l).
Proof.
  intros Hf. induction l as [|a l IH]; cbn [mapM]; [apply reads_ret|].
  apply reads_bind; [apply Hf|]. intros b.
  apply reads_bind; [apply IH|]. intros bs. apply reads_ret.
Qed.

Lemma reads_to_dict today p : reads (Backend.to_dict today p).
Proof.
  unfold Backend.to_dict. apply reads_bind; [apply reads_query|].
  intros cs. apply reads_ret.
Qed.

Lemma reads_get_db {A} lifetime (m : M A) db :
  reads m -> snd (get_db_on lifetime m db) = db.
Proof.
  intros Hm. unfold get_db_on. specialize (Hm (connect lifetime db)).
  destruct (m (connect lifetime db)) as [r s]. cbn [snd close rollback committed] in *.
  exact Hm.
Qed.

Ltac reads_tac :=
  repeat first
    [ apply reads_ret | apply reads_raise | apply reads_query
    | apply reads_to_dict
    | apply reads_mapM; intros ?
    | apply reads_bind; [|intros ?] ].

(** X9. Reading never writes: on a connection that may fail at any
    statement, the lookups, listings, searches and counts of
    [PatientCRUD] and [ConsultationCRUD], and the endpoints
    [GET /patients/{id}] and [GET /patients/search], leave the committed
    database exactly as it was. *)
Theorem reads_leave_database_unchanged lifetime db :
  (forall i, snd (get_db_on lifetime (PatientCRUD.get_by_id i) db) = db)
  /\ (forall e, snd (get_db_on lifetime (PatientCRUD.get_by_email e) db) = db)
  /\ (forall skip lim, snd (get_db_on lifetime (PatientCRUD.get_all skip lim) db) = db)
  /\ (forall q, snd (get_db_on lifetime (PatientCRUD.search q) db) = db)
  /\ snd (get_db_on lifetime PatientCRUD.count db) = db
  /\ (forall i, snd (get_db_on lifetime (ConsultationCRUD.get_by_id i) db) = db)
  /\ (forall i skip lim,
        snd (get_db_on lifetime (ConsultationCRUD.get_by_patient i skip lim) db) = db)
  /\ (forall lim, snd (get_db_on lifetime (ConsultationCRUD.get_recent lim) db) = db)
  /\ (forall i, snd (get_db_on lifetime (ConsultationCRUD.count_by_patient i) db) = db)
  /\ snd (get_db_on lifetime ConsultationCRUD.count db) = db
  /\ (forall today i, snd (get_db_on lifetime (Backend.get_patient today i) db) = db)
  /\ (forall today q,
        snd (get_db_on lifetime (Backend.search_patients today q) db) = db).
Proof.
  repeat split; intros; apply reads_get_db.
  - unfold PatientCRUD.get_by_id. reads_tac.
  - unfold PatientCRUD.get_by_email. reads_tac.
  - unfold PatientCRUD.get_all. reads_tac.
  - unfold PatientCRUD.search. reads_tac.
  - unfold PatientCRUD.count. reads_tac.
  - unfold ConsultationCRUD.get_by_id. reads_tac.
  - unfold ConsultationCRUD.get_by_patient. reads_tac.
  - unfold ConsultationCRUD.get_recent. reads_tac.
  - unfold ConsultationCRUD.count_by_patient. reads_tac.
  - unfold ConsultationCRUD.count. reads_tac.
  - unfold Backend.get_patient. apply reads_bind; [unfold PatientCRUD.get_by_id; reads_tac|].
    intros [p|]; reads_tac.
  - unfold Backend.search_patients. destruct (negb _); [apply reads_raise|].
    apply reads_bind; [unfold PatientCRUD.search; reads_tac|].
    intros found. apply reads_mapM. intros p. apply reads_to_dict.
Qed.
